(** * The GitHub activity collector (main.py) and the data of its
      renderer (plot_analysis.py), embedded in Rocq

    The collector polls the GitHub search API through [rate_limited_get],
    builds search queries for an actor, and aggregates counts into overall
    statistics and weekly windows; its script writes them to a JSON file,
    from which the renderer prepares the data of its two charts.  The
    embedding keeps the program's
    shape: every effect of the Python code (an HTTP request, a clock
    reading, a blocking sleep, a line printed, a file written) is an
    operation of a small monad that threads the outside world and records
    a trace of events; Python exceptions are the [Raised] outcome. *)

From Stdlib Require Import DecimalString DecimalZ DecimalPos DecimalN DecimalFacts.
From Stdlib Require Import ZArith QArith Qround Qminmax String Ascii List Bool Lia.
From Equations Require Import Equations.
Import ListNotations.

Local Open Scope string_scope.
Local Open Scope Z_scope.

(** ** Python strings *)

Definition dquote : string := String (ascii_of_nat 34) EmptyString.
Definition squote : string := String (ascii_of_nat 39) EmptyString.

(** [bool(s)] of a [str]: the empty string is falsy. *)
Definition nonempty (s : string) : bool :=
  match s with EmptyString => false | String _ _ => true end.

(** [if x:] for a value that is [None] or a [str]. *)
Definition truthy (o : option string) : option string :=
  match o with
  | Some s => if nonempty s then Some s else None
  | None => None
  end.

Definition lower_ascii (c : ascii) : ascii :=
  let n := nat_of_ascii c in
  if ((65 <=? n) && (n <=? 90))%nat then ascii_of_nat (n + 32) else c.

(** [s.lower()], on the ASCII letters of the text. *)
Fixpoint lower (s : string) : string :=
  match s with
  | EmptyString => EmptyString
  | String c s' => String (lower_ascii c) (lower s')
  end.

(** [needle in s] for two strings. *)
Fixpoint contains (needle s : string) : bool :=
  prefix needle s ||
  match s with
  | EmptyString => false
  | String _ s' => contains needle s'
  end.

(** [sep.join(parts)]. *)
Definition join (sep : string) (parts : list string) : string :=
  String.concat sep parts.

(** [str(n)] of an [int]. *)
Definition str_of_int (n : Z) : string :=
  NilZero.string_of_int (Z.to_int n).

(** [format(n, ',')]: decimal digits in groups of three. *)
Fixpoint group3 (digits : string) : string :=
  match digits with
  | EmptyString => EmptyString
  | String c rest =>
      let k := String.length rest in
      if ((0 <? k) && (k mod 3 =? 0))%nat
      then String c ("," ++ group3 rest)
      else String c (group3 rest)
  end.

Definition format_comma (n : Z) : string :=
  if n <? 0 then "-" ++ group3 (str_of_int (- n)) else group3 (str_of_int n).

Definition zero_pad (width : nat) (n : Z) : string :=
  let s := str_of_int n in
  let fix zeros (k : nat) : string :=
    match k with O => EmptyString | S k' => String "0" (zeros k') end in
  zeros (width - String.length s)%nat ++ s.

(** *** [int(s)] of a [str]

    Surrounding whitespace is dropped, one sign is allowed, and the digits
    may be separated by single underscores.  Anything else is a
    [ValueError], here [None]; so is a text of more than 4300 digits, the
    limit of the conversion.  The text of a header is Latin-1: its white
    space is the space, the controls 9 to 13, NEL (133) and the no-break
    space (160), and its decimal digits are the ASCII ones. *)

Definition is_space (c : ascii) : bool :=
  let n := nat_of_ascii c in
  ((n =? 32) || ((9 <=? n) && (n <=? 13)) || (n =? 133) || (n =? 160))%nat.

Fixpoint lstrip (s : string) : string :=
  match s with
  | EmptyString => EmptyString
  | String c s' => if is_space c then lstrip s' else s
  end.

Fixpoint rstrip (s : string) : string :=
  match s with
  | EmptyString => EmptyString
  | String c s' =>
      match rstrip s' with
      | EmptyString => if is_space c then EmptyString else String c EmptyString
      | r => String c r
      end
  end.

Definition digit_val (c : ascii) : option Z :=
  let n := nat_of_ascii c in
  if ((48 <=? n) && (n <=? 57))%nat then Some (Z.of_nat (n - 48)) else None.

Fixpoint parse_digits (s : string) (acc : Z) (after_digit : bool) : option Z :=
  match s with
  | EmptyString => if after_digit then Some acc else None
  | String c s' =>
      match digit_val c with
      | Some d => parse_digits s' (10 * acc + d) true
      | None =>
          if (Ascii.eqb c "_" && after_digit)%bool
          then parse_digits s' acc false
          else None
      end
  end.

Fixpoint count_digits (s : string) : nat :=
  match s with
  | EmptyString => O
  | String c s' =>
      match digit_val c with
      | Some _ => S (count_digits s')
      | None => count_digits s'
      end
  end.

(** [sys.get_int_max_str_digits()]. *)
Definition max_str_digits : nat := 4300.

Definition py_int (s : string) : option Z :=
  let t := rstrip (lstrip s) in
  if (max_str_digits <? count_digits t)%nat then None
  else
    match t with
    | String "-" r => option_map Z.opp (parse_digits r 0 false)
    | String "+" r => parse_digits r 0 false
    | t => parse_digits t 0 false
    end.

(** [str(n)] of an [int], as an f-string field [{n}] or [{n:,}] takes
    it: the conversion to decimal digits is under the same limit, a
    [ValueError] for an integer of more than 4300 digits, here [None]. *)
Definition str_limit : Z := Eval vm_compute in 10 ^ Z.of_nat max_str_digits.

Definition py_str_int (n : Z) : option string :=
  if Z.abs n <? str_limit then Some (str_of_int n) else None.

(** [int(x)] of a [float]: truncation toward zero.  A clock reading is a
    rational number of seconds. *)
Definition int_of_float (x : Q) : Z := Z.quot (Qnum x) (Zpos (Qden x)).

(** ** Python values

    What [response.json()] returns and what the collector stores: [None],
    booleans, integers, strings, lists and dicts (insertion-ordered, so
    association lists).  JSON numbers are modelled as integers, which is
    what the search API documents for [total_count]. *)

#[local] Set Warnings "-register-all".

Inductive json : Type :=
| JNull
| JBool (b : bool)
| JInt (n : Z)
| JStr (s : string)
| JList (items : list json)
| JDict (entries : list (string * json)).

Definition dict (V : Type) : Type := list (string * V).

Fixpoint dict_get {V} (key : string) (d : dict V) : option V :=
  match d with
  | [] => None
  | (k, v) :: d' => if String.eqb k key then Some v else dict_get key d'
  end.

(** [d[key] = v]: an existing key keeps its place, a new one goes last. *)
Fixpoint dict_set {V} (key : string) (v : V) (d : dict V) : dict V :=
  match d with
  | [] => [(key, v)]
  | (k, v') :: d' =>
      if String.eqb k key then (k, v) :: d' else (k, v') :: dict_set key v d'
  end.

Definition dict_mem {V} (key : string) (d : dict V) : bool :=
  match dict_get key d with Some _ => true | None => false end.

(** [repr(s)] of a [str]: single quotes unless the text has a single quote
    and no double quote; backslash, the quote and the characters that are
    not printable are escaped.  In Latin-1 those are the code points below
    32, 127 to 160 and the soft hyphen (173). *)
Definition hex_digit (n : nat) : ascii :=
  if (n <? 10)%nat then ascii_of_nat (48 + n) else ascii_of_nat (87 + n).

Definition escape_char (quote c : ascii) : string :=
  let n := nat_of_ascii c in
  if Ascii.eqb c "\" then "\\"
  else if Ascii.eqb c quote then String "\" (String c EmptyString)
  else if (n =? 10)%nat then "\n"
  else if (n =? 13)%nat then "\r"
  else if (n =? 9)%nat then "\t"
  else if ((n <? 32) || ((127 <=? n) && (n <=? 160)) || (n =? 173))%nat
       then "\x" ++ String (hex_digit (n / 16)) (String (hex_digit (n mod 16)) EmptyString)
  else String c EmptyString.

Fixpoint escape (quote : ascii) (s : string) : string :=
  match s with
  | EmptyString => EmptyString
  | String c s' => escape_char quote c ++ escape quote s'
  end.

Definition repr_str (s : string) : string :=
  if contains squote s && negb (contains dquote s)
  then dquote ++ escape (ascii_of_nat 34) s ++ dquote
  else squote ++ escape (ascii_of_nat 39) s ++ squote.

Fixpoint py_repr (v : json) : string :=
  match v with
  | JNull => "None"
  | JBool true => "True"
  | JBool false => "False"
  | JInt n => str_of_int n
  | JStr s => repr_str s
  | JList items => "[" ++ join ", " (map py_repr items) ++ "]"
  | JDict entries =>
      "{" ++ join ", " (map (fun '(k, x) => repr_str k ++ ": " ++ py_repr x) entries) ++ "}"
  end.

(** [str(v)], what an f-string field [{v}] shows. *)
Definition py_str (v : json) : string :=
  match v with
  | JStr s => s
  | _ => py_repr v
  end.

(** ** Exceptions and outcomes *)

Inductive exn : Type :=
| RequestException   (* transport failure inside requests.get *)
| JSONDecodeError    (* response.json() on a body that is not JSON *)
| AttributeError
| TypeError
| ValueError
| OverflowError
| UnboundLocalError
| KeyError
| OSError.           (* and its subclasses, FileNotFoundError among them *)

Inductive outcome (A : Type) : Type :=
| Returned (a : A)
| Raised (e : exn).
Arguments Returned {A} a.
Arguments Raised {A} e.

(** ** Dates

    A naive [datetime] is the number of microseconds since
    0001-01-01T00:00:00; Python accepts years 1 to 9999 and raises
    [OverflowError] when arithmetic leaves that range. *)

Definition datetime : Type := Z.

Definition us_per_day : Z := 86400000000.
Definition max_ordinal : Z := 3652059.
Definition datetime_end : Z := max_ordinal * us_per_day.

Definition valid_datetime (t : datetime) : Prop := 0 <= t < datetime_end.

(** [t + timedelta(days=k)]. *)
Definition add_days (t : datetime) (k : Z) : option datetime :=
  let r := t + k * us_per_day in
  if (0 <=? r) && (r <? datetime_end) then Some r else None.

Definition is_leap (y : Z) : bool :=
  (y mod 4 =? 0) && (negb (y mod 100 =? 0) || (y mod 400 =? 0)).

Definition days_in_month (y m : Z) : Z :=
  if m =? 2 then (if is_leap y then 29 else 28)
  else if (m =? 4) || (m =? 6) || (m =? 9) || (m =? 11) then 30
  else 31.

Definition days_before_year (y : Z) : Z :=
  let p := y - 1 in p * 365 + p / 4 - p / 100 + p / 400.

Fixpoint days_before_month_aux (y : Z) (k : nat) : Z :=
  match k with
  | O => 0
  | S k' => days_before_month_aux y k' + days_in_month y (Z.of_nat k)
  end.

(** Days of the year before the first of month [m]. *)
Definition days_before_month (y m : Z) : Z :=
  days_before_month_aux y (Z.to_nat (m - 1)).

(** [datetime(y, m, d, hh, mm, ss)]. *)
Definition mk_datetime (y m d hh mm ss : Z) : datetime :=
  (days_before_year y + days_before_month y m + (d - 1)) * us_per_day
  + ((hh * 60 + mm) * 60 + ss) * 1000000.

(** Year, month and day of a day number counted from 0001-01-01 = 0, by
    the 400/100/4/1-year cycles of the proleptic Gregorian calendar. *)
Definition ymd_of_day (n0 : Z) : Z * Z * Z :=
  let n400 := n0 / 146097 in
  let n := n0 mod 146097 in
  let n100 := n / 36524 in
  let n := n mod 36524 in
  let n4 := n / 1461 in
  let n := n mod 1461 in
  let n1 := n / 365 in
  let n := n mod 365 in
  let year := n400 * 400 + 1 + n100 * 100 + n4 * 4 + n1 in
  if (n1 =? 4) || (n100 =? 4) then (year - 1, 12, 31)
  else
    let month := (n + 50) / 32 in
    let preceding := days_before_month year month in
    if n <? preceding
    then (year, month - 1, n - (preceding - days_in_month year (month - 1)) + 1)
    else (year, month, n - preceding + 1).

(** The calendar day of a [datetime], counted from 0001-01-01 = 0. *)
Definition day_of (t : datetime) : Z := t / us_per_day.

Definition date_of (t : datetime) : Z * Z * Z := ymd_of_day (day_of t).

Definition month_abbr (m : Z) : string :=
  nth (Z.to_nat (m - 1))
      ["Jan"; "Feb"; "Mar"; "Apr"; "May"; "Jun";
       "Jul"; "Aug"; "Sep"; "Oct"; "Nov"; "Dec"] "???".

(** [t.strftime('%Y-%m-%d')]. *)
Definition strftime_Ymd (t : datetime) : string :=
  let '(y, m, d) := date_of t in
  zero_pad 4 y ++ "-" ++ zero_pad 2 m ++ "-" ++ zero_pad 2 d.

(** [t.strftime('%b %d')]. *)
Definition strftime_bd (t : datetime) : string :=
  let '(_, m, d) := date_of t in month_abbr m ++ " " ++ zero_pad 2 d.

(** [t.strftime('%d')]. *)
Definition strftime_d (t : datetime) : string :=
  let '(_, _, d) := date_of t in zero_pad 2 d.

(** ** The outside world

    An HTTP response as the collector reads it: [status_code], [text],
    the headers (looked up without regard to case) and the value of
    [response.json()], [None] when the body is not JSON. *)

Record Response : Type := mkResponse {
  status_code : Z;
  text : string;
  headers : dict string;
  json_body : option json
}.

(** [response.headers.get(name)]. *)
Fixpoint headers_get (name : string) (hs : dict string) : option string :=
  match hs with
  | [] => None
  | (k, v) :: hs' =>
      if String.eqb (lower k) (lower name) then Some v else headers_get name hs'
  end.

(** What the program asks of its environment: [requests.get], which may
    fail in transport, [time.time()], [time.sleep], [datetime.now()] and
    writing a text file.  [time_sleep] is the world after a wait the
    operating system accepted; [sleep_refused] is the exception with which
    it refuses a long wait, asked only in the range the interpreter leaves
    to it (see [sleep]).  [write_text path text] is
    [with open(path, 'w') as f: f.write(text)], which fails when the file
    cannot be opened or written. *)
Class Env (World : Type) : Type := {
  requests_get : string -> option (dict string) -> option (dict json) ->
                 World -> outcome Response * World;
  time_time : World -> Q * World;
  time_sleep : Z -> World -> World;
  sleep_refused : Z -> World -> option exn;
  datetime_now : World -> datetime * World;
  write_text : string -> string -> World -> outcome unit * World
}.

(** One entry of the trace per effect, in program order. *)
Inductive event : Type :=
| EvGet (url : string) (hdrs : option (dict string)) (params : option (dict json))
        (r : outcome Response)
| EvTime (t : Q)
| EvSleep (seconds : Z)
| EvPrint (line : string)
| EvNow (t : datetime)
| EvWrite (path : string) (text : string) (r : outcome unit).

(** A scripted world for concrete runs: the responses the server will give
    in turn (a transport failure once they run out), a clock in seconds
    that sleeping advances, and the wall-clock [datetime].  It accepts
    every wait left to it and every write. *)
Record Script : Type := mkScript {
  pending : list Response;
  clock : Q;
  wall : datetime
}.

#[export] Instance ScriptEnv : Env Script := {
  requests_get _ _ _ w :=
    match pending w with
    | [] => (Raised RequestException, w)
    | r :: rest => (Returned r, mkScript rest (clock w) (wall w))
    end;
  time_time w := (clock w, w);
  time_sleep d w :=
    mkScript (pending w) (clock w + inject_Z d)%Q (wall w + d * 1000000);
  sleep_refused _ _ := None;
  datetime_now w := (wall w, w);
  write_text _ _ w := (Returned tt, w)
}.

(** Sample responses for concrete runs. *)
Definition limited_until (reset : string) : Response :=
  mkResponse 403 "API rate limit exceeded for this token."
             [("X-RateLimit-Reset", reset)] None.

Definition limited_no_reset : Response :=
  mkResponse 403 "You have exceeded a secondary rate limit." [] None.

Definition forbidden : Response :=
  mkResponse 403 "Resource not accessible by integration" []
             (Some (JDict [("message", JStr "Resource not accessible by integration")])).

Definition unprocessable : Response :=
  mkResponse 422 "Validation Failed" []
             (Some (JDict [("message", JStr "Validation Failed")])).

Definition found (total_count : Z) : Response :=
  mkResponse 200 "ok" [] (Some (JDict [("total_count", JInt total_count)])).

Definition commits_url : string := "https://api.github.com/search/commits".

Definition bad_credentials : Response :=
  mkResponse 401 "Bad credentials" []
             (Some (JDict [("message", JStr "Bad credentials")])).

(** How [time.sleep] treats a wait given as an [int] of seconds.  The
    interpreter converts it to nanoseconds in 64 bits, an [OverflowError]
    beyond [max_sleep] seconds either way, and then rejects a negative wait
    with a [ValueError].  A wait of up to [safe_sleep] seconds (2^32 - 1
    milliseconds) is accepted wherever Python runs; a longer one is left to
    the operating system, which may refuse it. *)
Definition max_sleep : Z := 9223372036.
Definition safe_sleep : Z := 4294967.

Inductive wait : Type :=
| Overflows
| Negative
| Short
| Long.

Definition classify_wait (seconds : Z) : wait :=
  if (max_sleep <? seconds) || (seconds <? - max_sleep) then Overflows
  else if seconds <? 0 then Negative
  else if seconds <=? safe_sleep then Short
  else Long.

Section Collector.

Context {World : Type} {env : Env World}.

(** *** The effect monad *)

Definition M (A : Type) : Type := World -> outcome A * World * list event.

Definition ret {A} (a : A) : M A := fun w => (Returned a, w, []).

Definition raise {A} (e : exn) : M A := fun w => (Raised e, w, []).

Definition bind {A B} (m : M A) (f : A -> M B) : M B :=
  fun w =>
    match m w with
    | (Returned a, w1, t1) =>
        let '(r, w2, t2) := f a w1 in (r, w2, (t1 ++ t2)%list)
    | (Raised e, w1, t1) => (Raised e, w1, t1)
    end.

Definition http_get (url : string) (hdrs : option (dict string))
                    (params : option (dict json)) : M Response :=
  fun w =>
    let '(r, w') := requests_get url hdrs params w in
    (r, w', [EvGet url hdrs params r]).

Definition get_time : M Q :=
  fun w => let '(t, w') := time_time w in (Returned t, w', [EvTime t]).

(** [time.sleep(seconds)] of an [int]: a wait that does not pass the
    interpreter or that the operating system refuses raises, does not
    block and leaves no [EvSleep]. *)
Definition sleep (seconds : Z) : M unit :=
  fun w =>
    let slept := (Returned tt, time_sleep seconds w, [EvSleep seconds]) in
    match classify_wait seconds with
    | Overflows => (Raised OverflowError, w, [])
    | Negative => (Raised ValueError, w, [])
    | Short => slept
    | Long =>
        match sleep_refused seconds w with
        | Some e => (Raised e, w, [])
        | None => slept
        end
    end.

(** [with open(path, 'w') as f: f.write(text)]. *)
Definition write_file (path text : string) : M unit :=
  fun w =>
    let '(r, w') := write_text path text w in
    (r, w', [EvWrite path text r]).

Definition print (line : string) : M unit :=
  fun w => (Returned tt, w, [EvPrint line]).

Definition get_now : M datetime :=
  fun w => let '(t, w') := datetime_now w in (Returned t, w', [EvNow t]).

(** An optional value whose absence is the exception [e]. *)
Definition or_raise {A} (e : exn) (o : option A) : M A :=
  match o with Some a => ret a | None => raise e end.

End Collector.

Declare Scope monad_scope.
Delimit Scope monad_scope with monad.
Notation "x <- m ;; k" := (bind m (fun x => k))
  (at level 61, m at next level, right associativity) : monad_scope.
Notation "m ;; k" := (bind m (fun _ => k))
  (at level 61, right associativity) : monad_scope.
Local Open Scope monad_scope.

Section Fetcher.

Context {World : Type} {env : Env World}.

(** *** rate_limited_get (main.py, lines 8-42) *)

Definition is_rate_limited (r : Response) : bool :=
  (status_code r =? 403) && contains "rate limit" (lower (text r)).

(** The [for attempt in range(max_retries)] loop: [remaining] iterations
    are left, [response] is the variable of that name ([None] while it is
    unbound). *)
Fixpoint retry_loop (url : string) (hdrs : option (dict string))
    (params : option (dict json)) (remaining attempt : nat)
    (response : option Response) : M (World := World) Response :=
  match remaining with
  | O =>
      print ("    Max retries exceeded for " ++ url) ;;
      or_raise UnboundLocalError response
  | S remaining' =>
      response <- http_get url hdrs params ;;
      if is_rate_limited response then
        match truthy (headers_get "X-RateLimit-Reset" (headers response)) with
        | Some reset_time =>
            reset <- or_raise ValueError (py_int reset_time) ;;
            now <- get_time ;;
            let wait_time := reset - int_of_float now + 10 in
            shown <- or_raise ValueError (py_str_int wait_time) ;;
            print ("    Rate limit hit. Waiting " ++ shown
                   ++ " seconds until reset...") ;;
            sleep (Z.max wait_time 30) ;;
            retry_loop url hdrs params remaining' (S attempt) (Some response)
        | None =>
            let wait_time := 2 ^ Z.of_nat attempt * 30 in
            number <- or_raise ValueError (py_str_int (Z.of_nat attempt + 1)) ;;
            shown <- or_raise ValueError (py_str_int wait_time) ;;
            print ("    Rate limit hit (attempt " ++ number
                   ++ "). Waiting " ++ shown ++ " seconds...") ;;
            sleep wait_time ;;
            retry_loop url hdrs params remaining' (S attempt) (Some response)
        end
      else if status_code response =? 202 then
        print "    Search indexing in progress, waiting 30 seconds..." ;;
        sleep 30 ;;
        retry_loop url hdrs params remaining' (S attempt) (Some response)
      else if status_code response =? 422 then
        (* params.get('q', 'unknown'): an AttributeError when params is None *)
        q <- match params with
             | Some p =>
                 ret (match dict_get "q" p with Some v => v | None => JStr "unknown" end)
             | None => raise AttributeError
             end ;;
        print ("    Validation error for query: " ++ py_str q) ;;
        print ("    Response: " ++ text response) ;;
        ret response
      else
        ret response
  end.

Definition rate_limited_get (url : string) (hdrs : option (dict string))
    (params : option (dict json)) (max_retries : nat) : M Response :=
  retry_loop url hdrs params max_retries 0 None.

End Fetcher.

(** ** Operations on values returned by [response.json()] *)

(** [key in v]: membership in a dict or list, substring of a string, a
    [TypeError] for anything else. *)
Definition py_in (key : string) (v : json) : outcome bool :=
  match v with
  | JDict d => Returned (dict_mem key d)
  | JList items =>
      Returned (existsb (fun x => match x with
                                  | JStr s => String.eqb s key
                                  | _ => false
                                  end) items)
  | JStr s => Returned (contains key s)
  | _ => Raised TypeError
  end.

(** [v[key]] for a string key. *)
Definition py_getitem (key : string) (v : json) : outcome json :=
  match v with
  | JDict d =>
      match dict_get key d with
      | Some x => Returned x
      | None => Raised KeyError
      end
  | _ => Raised TypeError
  end.

(** [v.get(key, default)]: only a dict has [get]. *)
Definition py_get (key : string) (default : json) (v : json) : outcome json :=
  match v with
  | JDict d =>
      Returned (match dict_get key d with Some x => x | None => default end)
  | _ => Raised AttributeError
  end.

(** The f-string field [{v:,}]; an integer of more than 4300 digits is
    not converted. *)
Definition py_format_comma (v : json) : outcome string :=
  match v with
  | JInt n =>
      if Z.abs n <? str_limit then Returned (format_comma n)
      else Raised ValueError
  | JBool b => Returned (format_comma (if b then 1 else 0))
  | JStr _ => Raised ValueError
  | _ => Raised TypeError
  end.

(** [a + b]. *)
Definition py_add (a b : json) : outcome json :=
  let num (v : json) : option Z :=
    match v with
    | JInt n => Some n
    | JBool b => Some (if b then 1 else 0)
    | _ => None
    end in
  match num a, num b with
  | Some x, Some y => Returned (JInt (x + y))
  | _, _ =>
      match a, b with
      | JStr s, JStr s' => Returned (JStr (s ++ s'))
      | JList l, JList l' => Returned (JList (l ++ l')%list)
      | _, _ => Raised TypeError
      end
  end.

Definition is_none (v : json) : bool :=
  match v with JNull => true | _ => false end.

(** An f-string field [{x}] where [x] is [None] or a [str]. *)
Definition fstr (o : option string) : string :=
  match o with Some s => s | None => "None" end.

(** ** Query builders (main.py, lines 44-149) *)

Definition clauses (username email : option string)
    (for_username for_email : string -> string) : list string :=
  (match truthy username with Some u => [for_username u] | None => [] end ++
   match truthy email with Some e => [for_email e] | None => [] end)%list.

(** [' OR '.join(query_parts) if query_parts else sentinel]. *)
Definition or_join (query_parts : list string) (sentinel : string) : string :=
  match query_parts with
  | [] => sentinel
  | _ => join " OR " query_parts
  end.

Definition with_date (qualifier : string) (date_range : option string)
    (query : string) : string :=
  match truthy date_range with
  | Some d => query ++ " " ++ qualifier ++ ":" ++ d
  | None => query
  end.

(** Lines 53-62. *)
Definition coauthored_query (username email date_range : option string) : string :=
  let query_parts :=
    clauses username email
      (fun u => "co-authored-by:" ++ u) (fun e => "co-authored-by:" ++ e) in
  with_date "committer-date" date_range
    (or_join query_parts "co-authored-by:nonexistent").

(** Lines 82-91. *)
Definition author_query (username email date_range : option string) : string :=
  let query_parts :=
    clauses username email
      (fun u => "author:" ++ u) (fun e => "author-email:" ++ e) in
  with_date "committer-date" date_range
    (or_join query_parts "author:nonexistent").

(** Lines 113-141; [None] for an unsupported search type. *)
Definition activity_query (search_type : string)
    (username email date_range : option string) : option string :=
  if String.eqb search_type "issues" then
    let query_parts :=
      clauses username email
        (fun u => "is:issue " ++ dquote ++ u ++ dquote ++ " OR mentions:" ++ u
                  ++ " OR " ++ dquote ++ "co-authored-by " ++ u ++ dquote)
        (fun e => "is:issue " ++ dquote ++ e ++ dquote
                  ++ " OR " ++ dquote ++ "co-authored-by " ++ e ++ dquote) in
    Some (with_date "created" date_range
            (or_join query_parts "is:issue nonexistent"))
  else if String.eqb search_type "repositories" then
    let query_parts :=
      clauses username email
        (fun u => u ++ " in:name,description,readme")
        (fun e => e ++ " in:name,description,readme") in
    Some (or_join query_parts "nonexistent in:name")
  else if String.eqb search_type "code" then
    let query_parts :=
      clauses username email
        (fun u => dquote ++ "co-authored-by " ++ u ++ dquote
                  ++ " OR " ++ dquote ++ u ++ " code" ++ dquote
                  ++ " OR " ++ dquote ++ "generated with " ++ u ++ dquote)
        (fun e => dquote ++ "co-authored-by " ++ e ++ dquote
                  ++ " OR " ++ dquote ++ e ++ " code" ++ dquote) in
    Some (or_join query_parts (dquote ++ "nonexistent" ++ dquote))
  else None.

Definition search_headers (token : option string) : option (dict string) :=
  Some [("Authorization", "Bearer " ++ fstr token);
        ("Accept", "application/vnd.github.v3+json")].

Definition search_params (query : string) : option (dict json) :=
  Some [("q", JStr query); ("per_page", JInt 1)].

Section Queries.

Context {World : Type} {env : Env World}.

(** [response.json()]. *)
Definition response_json (response : Response) : M (World := World) json :=
  or_raise JSONDecodeError (json_body response).

Definition get_coauthored_commits (username token date_range email : option string)
    : M json :=
  let url := "https://api.github.com/search/commits" in
  let query := coauthored_query username email date_range in
  response <- rate_limited_get url (search_headers token) (search_params query) 3 ;;
  response_json response.

Definition get_commits_by_author (username token date_range email : option string)
    : M json :=
  let url := "https://api.github.com/search/commits" in
  let query := author_query username email date_range in
  response <- rate_limited_get url (search_headers token) (search_params query) 3 ;;
  response_json response.

Definition get_activity (username token : option string) (search_type : string)
    (date_range email : option string) : M json :=
  let url := "https://api.github.com/search/" ++ search_type in
  match activity_query search_type username email date_range with
  | None =>
      ret (JDict [("error", JStr ("Unsupported search type: " ++ search_type))])
  | Some query =>
      response <- rate_limited_get url (search_headers token) (search_params query) 3 ;;
      response_json response
  end.

End Queries.

(** ** The stat aggregator (main.py, lines 151-228) *)

Record WeekData : Type := mkWeekData {
  period : string;
  start_date : string;
  end_date : string;
  commits_coauthored : json;
  commits_primary_author : json
}.

(** The [stats] dict of [collect_user_stats]; a missing count is [JNull],
    Python's [None]. *)
Record UserStats : Type := mkUserStats {
  display_name : string;
  username : option string;
  email : option string;
  overall_stats : dict json;
  weekly_growth : list WeekData
}.

Definition set_overall (stat_name : string) (v : json) (stats : UserStats)
    : UserStats :=
  mkUserStats (display_name stats) (username stats) (email stats)
              (dict_set stat_name v (overall_stats stats)) (weekly_growth stats).

Section Aggregator.

Context {World : Type} {env : Env World}.

(** An outcome of a pure operation, taken into the monad. *)
Definition lift {A} (o : outcome A) : M (World := World) A :=
  match o with Returned a => ret a | Raised e => raise e end.

(** The body of the loop over [activities], lines 173-182. *)
Definition record_stat (stat_name : string) (result : json) (stats : UserStats)
    : M UserStats :=
  has_count <- lift (py_in "total_count" result) ;;
  if (has_count : bool) then
    total_count <- lift (py_getitem "total_count" result) ;;
    let stats := set_overall stat_name total_count stats in
    shown <- lift (py_format_comma total_count) ;;
    print ("  " ++ stat_name ++ ": " ++ shown) ;;
    ret stats
  else
    let stats := set_overall stat_name JNull stats in
    error_msg <- lift (py_get "message" (JStr "Unknown error") result) ;;
    print ("  " ++ stat_name ++ ": Error - " ++ py_str error_msg) ;;
    has_errors <- lift (py_in "errors" result) ;;
    if (has_errors : bool) then
      errors <- lift (py_getitem "errors" result) ;;
      print ("    Details: " ++ py_str errors) ;;
      ret stats
    else ret stats.

Fixpoint run_activities (activities : list (string * M json)) (stats : UserStats)
    : M UserStats :=
  match activities with
  | [] => ret stats
  | (stat_name, get_data) :: rest =>
      result <- get_data ;;
      stats <- record_stat stat_name result stats ;;
      run_activities rest stats
  end.

Definition collect_user_stats (display_name : string)
    (username token email : option string) : M UserStats :=
  print ("Collecting data for " ++ display_name ++ "...") ;;
  let stats := mkUserStats display_name username email [] [] in
  let activities :=
    [("commits_coauthored", get_coauthored_commits username token None email);
     ("commits_primary_author", get_commits_by_author username token None email);
     ("repositories_mentioning",
      get_activity username token "repositories" None email)] in
  run_activities activities stats.

(** [result.get('total_count', 0) if 'total_count' in result else None]. *)
Definition count_of (result : json) : M (World := World) json :=
  has_count <- lift (py_in "total_count" result) ;;
  if (has_count : bool) then lift (py_get "total_count" (JInt 0) result)
  else ret JNull.

(** Lines 216-220. *)
Definition print_week (period_name : string) (coauth_count primary_count : json)
    : M (World := World) unit :=
  if negb (is_none coauth_count) && negb (is_none primary_count) then
    total <- lift (py_add coauth_count primary_count) ;;
    c <- lift (py_format_comma coauth_count) ;;
    p <- lift (py_format_comma primary_count) ;;
    t <- lift (py_format_comma total) ;;
    print ("    " ++ period_name ++ ": " ++ c ++ " co-auth + " ++ p
           ++ " primary = " ++ t ++ " total")
  else
    print ("    " ++ period_name ++ ": Error").

(** A test together with the proof of its result, for the loop below. *)
Definition inspect {A} (a : A) : {b : A | a = b} := exist _ a eq_refl.

(** One turn of the loop up to [weekly_data.append], lines 194-222: the
    window's end, its label and date range, the two queries and the line
    printed. *)
Definition collect_week (username token email : option string)
    (current_date week_start : datetime) : M (World := World) WeekData :=
  plus6 <- or_raise OverflowError (add_days week_start 6) ;;
  let week_end := Z.min plus6 current_date in
  let period_name := strftime_bd week_start ++ "-" ++ strftime_d week_end in
  let date_range := strftime_Ymd week_start ++ ".." ++ strftime_Ymd week_end in
  coauth_result <- get_coauthored_commits username token (Some date_range) email ;;
  coauth_count <- count_of coauth_result ;;
  primary_result <- get_commits_by_author username token (Some date_range) email ;;
  primary_count <- count_of primary_result ;;
  let week_data :=
    mkWeekData period_name (strftime_Ymd week_start) (strftime_Ymd week_end)
               coauth_count primary_count in
  print_week period_name coauth_count primary_count ;;
  ret week_data.

(** The [while week_start < current_date] loop, lines 193-226.  Each turn
    moves [week_start] seven days on, so the number of whole weeks left
    before [current_date] is the measure. *)
Equations? weekly_loop (username token email : option string)
    (current_date week_start : datetime) (weekly_data : list WeekData)
    : M (World := World) (list WeekData)
    by wf (Z.to_nat ((current_date - week_start) / 604800000000 + 1)) lt :=
  weekly_loop username token email current_date week_start weekly_data
    with inspect (week_start <? current_date) := {
    | exist _ false _ => ret weekly_data
    | exist _ true Hlt =>
        week_data <- collect_week username token email current_date week_start ;;
        (* week_start += timedelta(days=7) *)
        or_raise OverflowError (add_days week_start 7) ;;
        sleep 1 ;;
        weekly_loop username token email current_date
                    (week_start + 7 * us_per_day)
                    (weekly_data ++ [week_data])%list }.
Proof.
  apply Z.ltb_lt in Hlt. clear - Hlt. unfold us_per_day.
  Z.div_mod_to_equations. lia.
Qed.

Definition collect_weekly_growth (username token : option string)
    (launch_date : datetime) (email : option string) : M (list WeekData) :=
  print "  Weekly commits breakdown:" ;;
  current_date <- get_now ;;
  weekly_loop username token email current_date launch_date [].

End Aggregator.

(** ** The persisted format

    The collector writes the Analysis Record with
    [json.dump(all_data, f, indent=2)] and the renderer reads it with
    [json.load(f)].  Both are Python's standard library: the repository
    calls them and does not contain them, so encoder and decoder are
    modelled here, on the values of type [json].  A character is a code
    point below 256; a number with a fraction or an exponent, a code
    point from 256 on and Python's recursion limit are outside the
    model. *)

Definition newline : ascii := ascii_of_nat 10.
Definition backslash : ascii := ascii_of_nat 92.
Definition quote_mark : ascii := ascii_of_nat 34.

Fixpoint spaces (k : nat) : string :=
  match k with O => EmptyString | S k' => String " " (spaces k') end.

(** A line break and the indentation of nesting level [level]. *)
Definition newline_indent (level : nat) : string :=
  String newline (spaces (2 * level)).

Definition json_escape_char (c : ascii) : string :=
  let n := nat_of_ascii c in
  if (n =? 34)%nat then String backslash (String quote_mark EmptyString)
  else if (n =? 92)%nat then String backslash (String backslash EmptyString)
  else if (n =? 10)%nat then String backslash "n"
  else if (n =? 13)%nat then String backslash "r"
  else if (n =? 9)%nat then String backslash "t"
  else if (n =? 8)%nat then String backslash "b"
  else if (n =? 12)%nat then String backslash "f"
  else if ((n <? 32) || (126 <? n))%nat
       then String backslash
              (String "u" (String "0" (String "0"
                 (String (hex_digit (n / 16))
                    (String (hex_digit (n mod 16)) EmptyString)))))
  else String c EmptyString.

Fixpoint json_escape (s : string) : string :=
  match s with
  | EmptyString => EmptyString
  | String c s' => json_escape_char c ++ json_escape s'
  end.

Definition encode_string (s : string) : string :=
  String quote_mark (json_escape s ++ String quote_mark EmptyString).

(** What stands between two items: a comma, then a new line at the
    items' level. *)
Definition item_separator (level : nat) : string :=
  "," ++ newline_indent level.

(** One entry of a dict, its value written by [enc]. *)
Definition encode_entry (enc : json -> string) (entry : string * json) : string :=
  let '(k, x) := entry in encode_string k ++ ": " ++ enc x.

(** Modelled from the spec: the encoder behind [json.dump], missing from
    the sources; the persisted artifact of the spec is a JSON file, here
    with two-space indentation, the separators [,] and [: ], keys in
    insertion order and every character outside printable ASCII escaped. *)
Fixpoint encode (level : nat) (v : json) : string :=
  match v with
  | JNull => "null"
  | JBool true => "true"
  | JBool false => "false"
  | JInt n => str_of_int n
  | JStr s => encode_string s
  | JList items =>
      match items with
      | [] => "[]"
      | _ => "[" ++ newline_indent (S level)
             ++ join (item_separator (S level)) (map (encode (S level)) items)
             ++ newline_indent level ++ "]"
      end
  | JDict entries =>
      match entries with
      | [] => "{}"
      | _ => "{" ++ newline_indent (S level)
             ++ join (item_separator (S level))
                  (map (encode_entry (encode (S level))) entries)
             ++ newline_indent level ++ "}"
      end
  end.

(** Modelled from the spec: [json.dumps(v, indent=2)], the text that
    [json.dump(v, f, indent=2)] writes; Python's standard library, missing
    from the sources. *)
Definition json_dumps (v : json) : string := encode 0 v.

Definition is_ws (c : ascii) : bool :=
  let n := nat_of_ascii c in
  ((n =? 32) || (n =? 9) || (n =? 10) || (n =? 13))%nat.

Fixpoint skip_ws (s : string) : string :=
  match s with
  | EmptyString => EmptyString
  | String c s' => if is_ws c then skip_ws s' else s
  end.

Definition hex_val (c : ascii) : option nat :=
  let n := nat_of_ascii c in
  if ((48 <=? n) && (n <=? 57))%nat then Some (n - 48)%nat
  else if ((97 <=? n) && (n <=? 102))%nat then Some (n - 87)%nat
  else if ((65 <=? n) && (n <=? 70))%nat then Some (n - 55)%nat
  else None.

Definition hex4_val (a b c d : ascii) : option nat :=
  match hex_val a, hex_val b, hex_val c, hex_val d with
  | Some x, Some y, Some z, Some t => Some (((x * 16 + y) * 16 + z) * 16 + t)%nat
  | _, _, _, _ => None
  end.

(** The character a one-letter escape stands for. *)
Definition simple_escape (e : ascii) : option ascii :=
  let n := nat_of_ascii e in
  if (n =? 34)%nat then Some quote_mark
  else if (n =? 92)%nat then Some backslash
  else if (n =? 47)%nat then Some "/"%char
  else if (n =? 98)%nat then Some (ascii_of_nat 8)
  else if (n =? 102)%nat then Some (ascii_of_nat 12)
  else if (n =? 110)%nat then Some (ascii_of_nat 10)
  else if (n =? 114)%nat then Some (ascii_of_nat 13)
  else if (n =? 116)%nat then Some (ascii_of_nat 9)
  else None.

Definition consed (c : ascii) (r : option (string * string))
    : option (string * string) :=
  match r with
  | Some (s, rest) => Some (String c s, rest)
  | None => None
  end.

(** The text of a string after its opening quote, up to the closing one,
    and what follows. *)
Fixpoint scan_string (s : string) : option (string * string) :=
  match s with
  | EmptyString => None
  | String c s1 =>
      if Ascii.eqb c quote_mark then Some (EmptyString, s1)
      else if Ascii.eqb c backslash then
        match s1 with
        | EmptyString => None
        | String e s2 =>
            if Ascii.eqb e "u" then
              match s2 with
              | String h1 (String h2 (String h3 (String h4 s3))) =>
                  match hex4_val h1 h2 h3 h4 with
                  | Some n =>
                      if (n <? 256)%nat then consed (ascii_of_nat n) (scan_string s3)
                      else None
                  | None => None
                  end
              | _ => None
              end
            else
              match simple_escape e with
              | Some ch => consed ch (scan_string s2)
              | None => None
              end
        end
      else if (nat_of_ascii c <? 32)%nat then None
      else consed c (scan_string s1)
  end.

Definition is_digit (c : ascii) : bool :=
  let n := nat_of_ascii c in ((48 <=? n) && (n <=? 57))%nat.

Fixpoint take_digits (s : string) : string * string :=
  match s with
  | EmptyString => (EmptyString, EmptyString)
  | String c s' =>
      if is_digit c then let (d, r) := take_digits s' in (String c d, r)
      else (EmptyString, s)
  end.

(** The integer part of a number: [0], or a nonzero digit and the digits
    after it. *)
Definition take_integer (s : string) : option (string * string) :=
  match s with
  | String c s' =>
      if Ascii.eqb c "0" then Some ("0", s')
      else if is_digit c then Some (take_digits s)
      else None
  | EmptyString => None
  end.

Definition starts_fraction (s : string) : bool :=
  match s with
  | String c _ => Ascii.eqb c "." || Ascii.eqb c "e" || Ascii.eqb c "E"
  | EmptyString => false
  end.

Definition scan_number (s : string) : option (Z * string) :=
  let '(sign, s1) :=
    match s with
    | String c s' => if Ascii.eqb c "-" then ("-", s') else (EmptyString, s)
    | EmptyString => (EmptyString, s)
    end in
  match take_integer s1 with
  | Some (digits, rest) =>
      if starts_fraction rest then None
      else option_map (fun d => (Z.of_int d, rest))
                      (NilZero.int_of_string (sign ++ digits))
  | None => None
  end.

(** Whether the text begins with [word]. *)
Fixpoint starts_with (word s : string) : bool :=
  match word with
  | EmptyString => true
  | String a word' =>
      match s with
      | String b s' => Ascii.eqb a b && starts_with word' s'
      | EmptyString => false
      end
  end.

Fixpoint drop (k : nat) (s : string) : string :=
  match k, s with
  | S k', String _ s' => drop k' s'
  | _, _ => s
  end.

(** [dict(pairs)]: a repeated key keeps its first place and its last
    value. *)
Definition dict_of_pairs (pairs : list (string * json)) : dict json :=
  fold_left (fun d kv => dict_set (fst kv) (snd kv) d) pairs [].

(** The text after the character [c], when the text begins with it. *)
Definition after_char (c : ascii) (s : string) : option string :=
  match s with
  | String x r => if Ascii.eqb x c then Some r else None
  | EmptyString => None
  end.

(** Modelled from the spec: the decoder behind [json.load], missing from
    the sources: a value, the items of an array and the members of an
    object, each with the text that follows.  [None] is a
    [JSONDecodeError] or a value outside the model. *)
Fixpoint parse_value (fuel : nat) (s : string) : option (json * string) :=
  match fuel with
  | O => None
  | S fuel' =>
      match s with
      | EmptyString => None
      | String c rest =>
          if Ascii.eqb c quote_mark then
            match scan_string rest with
            | Some (text, r) => Some (JStr text, r)
            | None => None
            end
          else if Ascii.eqb c "[" then
            let s1 := skip_ws rest in
            match after_char "]" s1 with
            | Some r => Some (JList [], r)
            | None =>
                match parse_items fuel' s1 with
                | Some (items, r) => Some (JList items, r)
                | None => None
                end
            end
          else if Ascii.eqb c "{" then
            let s1 := skip_ws rest in
            match after_char "}" s1 with
            | Some r => Some (JDict [], r)
            | None =>
                match parse_members fuel' s1 with
                | Some (pairs, r) => Some (JDict (dict_of_pairs pairs), r)
                | None => None
                end
            end
          else if starts_with "null" s then Some (JNull, drop 4 s)
          else if starts_with "true" s then Some (JBool true, drop 4 s)
          else if starts_with "false" s then Some (JBool false, drop 5 s)
          else
            match scan_number s with
            | Some (n, r) => Some (JInt n, r)
            | None => None
            end
      end
  end
with parse_items (fuel : nat) (s : string) : option (list json * string) :=
  match fuel with
  | O => None
  | S fuel' =>
      match parse_value fuel' s with
      | Some (v, r) =>
          let r1 := skip_ws r in
          match after_char "]" r1 with
          | Some r' => Some ([v], r')
          | None =>
              match after_char "," r1 with
              | Some r' =>
                  match parse_items fuel' (skip_ws r') with
                  | Some (vs, r'') => Some (v :: vs, r'')
                  | None => None
                  end
              | None => None
              end
          end
      | None => None
      end
  end
with parse_members (fuel : nat) (s : string)
    : option (list (string * json) * string) :=
  match fuel with
  | O => None
  | S fuel' =>
      match after_char quote_mark s with
      | Some r0 =>
          match scan_string r0 with
          | Some (key, r1) =>
              match after_char ":" (skip_ws r1) with
              | Some r2 =>
                  match parse_value fuel' (skip_ws r2) with
                  | Some (v, r3) =>
                      let r4 := skip_ws r3 in
                      match after_char "}" r4 with
                      | Some r5 => Some ([(key, v)], r5)
                      | None =>
                          match after_char "," r4 with
                          | Some r5 =>
                              match parse_members fuel' (skip_ws r5) with
                              | Some (ps, r6) => Some ((key, v) :: ps, r6)
                              | None => None
                              end
                          | None => None
                          end
                      end
                  | None => None
                  end
              | None => None
              end
          | None => None
          end
      | None => None
      end
  end.

(** Modelled from the spec: [json.loads(text)], what [json.load(f)]
    returns for a file with these contents; Python's standard library,
    missing from the sources.  The length of the text is fuel enough for
    any nesting it can hold. *)
Definition json_loads (text : string) : option json :=
  match parse_value (String.length text) (skip_ws text) with
  | Some (v, r) =>
      match skip_ws r with
      | EmptyString => Some v
      | _ => None
      end
  | None => None
  end.


(** ** The Analysis Record (main.py, lines 247-275) *)

(** A field that is [None] or a [str]. *)
Definition opt_str (o : option string) : json :=
  match o with Some s => JStr s | None => JNull end.

(** The dict [week_data], lines 207-213. *)
Definition week_record (week_data : WeekData) : json :=
  JDict [("period", JStr (period week_data));
         ("start_date", JStr (start_date week_data));
         ("end_date", JStr (end_date week_data));
         ("commits_coauthored", commits_coauthored week_data);
         ("commits_primary_author", commits_primary_author week_data)].

(** The dict [stats], lines 155-161, with its weekly growth, line 261. *)
Definition user_record (stats : UserStats) : json :=
  JDict [("display_name", JStr (display_name stats));
         ("username", opt_str (username stats));
         ("email", opt_str (email stats));
         ("overall_stats", JDict (overall_stats stats));
         ("weekly_growth", JList (map week_record (weekly_growth stats)))].

(** The dict [all_data], lines 247-250 and 263. *)
Definition analysis_record (analysis_date : string) (users : list UserStats) : json :=
  JDict [("analysis_date", JStr analysis_date);
         ("users", JList (map user_record users))].

(** The text main.py writes to the output file, lines 273-275. *)
Definition persist (all_data : json) : string := json_dumps all_data.

(** [load_data] of plot_analysis.py, lines 34-37, on the contents of the
    file. *)
Definition load_data (contents : string) : outcome json :=
  match json_loads contents with
  | Some v => Returned v
  | None => Raised JSONDecodeError
  end.

(** ** The script (main.py, lines 230-286) *)

(** [t.isoformat(sep)]: the microseconds are left out when they are
    zero. *)
Definition isoformat_sep (sep : string) (t : datetime) : string :=
  let '(y, m, d) := date_of t in
  let in_day := t mod us_per_day in
  let hour := in_day / 3600000000 in
  let minute := in_day / 60000000 mod 60 in
  let second := in_day / 1000000 mod 60 in
  let microsecond := in_day mod 1000000 in
  zero_pad 4 y ++ "-" ++ zero_pad 2 m ++ "-" ++ zero_pad 2 d ++ sep
  ++ zero_pad 2 hour ++ ":" ++ zero_pad 2 minute ++ ":" ++ zero_pad 2 second
  ++ (if microsecond =? 0 then EmptyString else "." ++ zero_pad 6 microsecond).

(** [t.isoformat()]. *)
Definition isoformat (t : datetime) : string := isoformat_sep "T" t.

(** [str(t)]. *)
Definition str_of_datetime (t : datetime) : string := isoformat_sep " " t.

Definition output_file : string := "data/ai_assistant_github_analysis.json".

(** The users to analyse, lines 239-245: display name, handle, launch
    date and email of each. *)
Definition users : list (string * string * datetime * option string) :=
  [("Claude Code", "claude", mk_datetime 2025 2 24 0 0 0, None);
   ("Jules", "google-labs-jules[bot]", mk_datetime 2025 2 24 0 0 0, None);
   ("Cursor", "cursoragent", mk_datetime 2025 2 24 0 0 0, None);
   ("Copilot (coauthored only)", "Copilot", mk_datetime 2025 2 24 0 0 0, None)].

(** [user_stats["weekly_growth"] = weekly], line 261. *)
Definition set_weekly_growth (weekly : list WeekData) (stats : UserStats)
    : UserStats :=
  mkUserStats (display_name stats) (username stats) (email stats)
              (overall_stats stats) weekly.

(** [bool(v)]. *)
Definition py_truthy (v : json) : bool :=
  match v with
  | JNull => false
  | JBool b => b
  | JInt n => negb (n =? 0)
  | JStr s => nonempty s
  | JList items => match items with [] => false | _ => true end
  | JDict entries => match entries with [] => false | _ => true end
  end.

(** [a or b]. *)
Definition py_or (a b : json) : json := if py_truthy a then a else b.

(** [stats.get(key, 0) or 0] on a dict of stats. *)
Definition count_or_zero (key : string) (stats : dict json) : json :=
  py_or (match dict_get key stats with Some v => v | None => JInt 0 end) (JInt 0).

Section Script.

Context {World : Type} {env : Env World}.

(** The loop over [enumerate(users)], lines 253-270: [remaining] are the
    users from index [i] on, [total] is [len(users)] and [all_users] is
    [all_data["users"]]. *)
Fixpoint analyze (token : option string) (total : nat) (i : nat)
    (remaining : list (string * string * datetime * option string))
    (all_users : list UserStats) : M (World := World) (list UserStats) :=
  match remaining with
  | [] => ret all_users
  | (display_name, username, launch_date, email) :: rest =>
      print (String newline ("--- Analyzing " ++ display_name ++ " ---")) ;;
      user_stats <- collect_user_stats display_name (Some username) token email ;;
      print ("Collecting weekly growth data for " ++ display_name ++ "...") ;;
      weekly <- collect_weekly_growth (Some username) token launch_date email ;;
      let user_stats := set_weekly_growth weekly user_stats in
      let all_users := (all_users ++ [user_stats])%list in
      print ("Completed analysis for " ++ display_name) ;;
      (if Z.of_nat i <? Z.of_nat total - 1 then
         print "Waiting 30 seconds to avoid rate limits..." ;;
         sleep 30
       else ret tt) ;;
      analyze token total (S i) rest all_users
  end.

(** The body of the summary loop, lines 282-286. *)
Definition print_summary_line (user_data : UserStats) : M (World := World) unit :=
  let name := display_name user_data in
  let stats := overall_stats user_data in
  let coauth := count_or_zero "commits_coauthored" stats in
  let primary := count_or_zero "commits_primary_author" stats in
  c <- lift (py_format_comma coauth) ;;
  p <- lift (py_format_comma primary) ;;
  total <- lift (py_add coauth primary) ;;
  t <- lift (py_format_comma total) ;;
  print (name ++ ": " ++ c ++ " co-authored + " ++ p ++ " primary = " ++ t
         ++ " total commits").

Fixpoint print_summary (users_data : list UserStats) : M (World := World) unit :=
  match users_data with
  | [] => ret tt
  | user_data :: rest => print_summary_line user_data ;; print_summary rest
  end.

(** The script for the users [configured], [token] being the value of
    [GITHUB_TOKEN] in the environment.  The text is written to
    [output_file] once every user is collected, lines 273-275; when the
    file cannot be opened or written the script ends there, with the
    exception.  The value returned is the text written. *)
Definition main_for (configured : list (string * string * datetime * option string))
    (token : option string) : M (World := World) string :=
  print "=== AI Assistant Activity Analysis ===" ;;
  now <- get_now ;;
  let analysis_date := isoformat now in
  users_data <- analyze token (length configured) 0 configured [] ;;
  let all_data := analysis_record analysis_date users_data in
  let written := persist all_data in
  write_file output_file written ;;
  print (String newline ("Analysis complete! Data saved to " ++ output_file)) ;;
  print (String newline "=== Summary ===") ;;
  print_summary users_data ;;
  ret written.

Definition main (token : option string) : M (World := World) string :=
  main_for users token.

End Script.

(** ** The renderer's data (plot_analysis.py) *)

(** Sequencing of pure operations that may raise. *)
Definition and_then {A B} (o : outcome A) (f : A -> outcome B) : outcome B :=
  match o with Returned a => f a | Raised e => Raised e end.

(** What [for x in v] visits: the items of a list, the keys of a dict,
    the characters of a str; a [TypeError] for anything else. *)
Definition py_iter (v : json) : outcome (list json) :=
  match v with
  | JList items => Returned items
  | JDict entries => Returned (map (fun '(k, _) => JStr k) entries)
  | JStr s =>
      Returned (map (fun c => JStr (String c EmptyString)) (list_ascii_of_string s))
  | _ => Raised TypeError
  end.

(** [v == s] for a string literal [s]. *)
Definition py_eq_str (v : json) (s : string) : bool :=
  match v with JStr t => String.eqb t s | _ => false end.

(** The lists [names], [coauthored] and [primary] of
    [plot_commit_breakdown]. *)
Record Breakdown : Type := mkBreakdown {
  names : list json;
  coauthored : list json;
  primary : list json
}.

(** The body of the loop over [data['users']], lines 261-270. *)
Definition breakdown_user (user_data : json) (acc : Breakdown) : outcome Breakdown :=
  and_then (py_getitem "display_name" user_data) (fun name =>
  let names := (names acc ++ [name])%list in
  and_then (py_getitem "overall_stats" user_data) (fun stats =>
  and_then (py_getitem "display_name" user_data) (fun shown =>
  if py_eq_str shown "Copilot" then
    and_then (py_get "commits_coauthored" (JInt 0) stats) (fun c =>
    Returned (mkBreakdown names
                (coauthored acc ++ [py_or c (JInt 0)])%list
                (primary acc ++ [JInt 0])%list))
  else
    and_then (py_get "commits_coauthored" (JInt 0) stats) (fun c =>
    and_then (py_get "commits_primary_author" (JInt 0) stats) (fun p =>
    Returned (mkBreakdown names
                (coauthored acc ++ [py_or c (JInt 0)])%list
                (primary acc ++ [py_or p (JInt 0)])%list)))))).

Fixpoint breakdown_loop (users_data : list json) (acc : Breakdown)
    : outcome Breakdown :=
  match users_data with
  | [] => Returned acc
  | user_data :: rest =>
      and_then (breakdown_user user_data acc) (breakdown_loop rest)
  end.

(** The data of the stacked bars, lines 256-270 of
    [plot_commit_breakdown]. *)
Definition commit_breakdown (data : json) : outcome Breakdown :=
  and_then (py_getitem "users" data) (fun users_value =>
  and_then (py_iter users_value) (fun users_data =>
  breakdown_loop users_data (mkBreakdown [] [] []))).

(** *** [datetime.strptime(s, '%Y-%m-%d')]

    The format is matched as the regular expression
    [(\d\d\d\d)-(1[0-2]|0[1-9]|[1-9])-(3[0-1]|[1-2]\d|0[1-9]|[1-9]| [1-9])]
    at the start of the text, the alternatives tried in this order; text
    left over, a year 0 and a day the month does not have are a
    [ValueError], here [None]. *)

Definition in_range (lo hi : Z) (c : ascii) : option Z :=
  match digit_val c with
  | Some d => if (lo <=? d) && (d <=? hi) then Some d else None
  | None => None
  end.

(** [\d\d\d\d]. *)
Definition parse_year (s : string) : option (Z * string) :=
  match s with
  | String a (String b (String c (String d rest))) =>
      match digit_val a, digit_val b, digit_val c, digit_val d with
      | Some x3, Some x2, Some x1, Some x0 =>
          Some (1000 * x3 + 100 * x2 + 10 * x1 + x0, rest)
      | _, _, _, _ => None
      end
  | _ => None
  end.

(** [1[0-2]|0[1-9]|[1-9]], each followed by the [-] of the format; the
    text returned is the one after that [-]. *)
Definition parse_month (s : string) : option (Z * string) :=
  let two :=
    match s with
    | String a (String b (String c rest)) =>
        if Ascii.eqb c "-" then
          match in_range 1 1 a, in_range 0 2 b with
          | Some _, Some x => Some (10 + x, rest)
          | _, _ =>
              match in_range 0 0 a, in_range 1 9 b with
              | Some _, Some x => Some (x, rest)
              | _, _ => None
              end
          end
        else None
    | _ => None
    end in
  match two with
  | Some r => Some r
  | None =>
      match s with
      | String a (String b rest) =>
          if Ascii.eqb b "-" then
            match in_range 1 9 a with
            | Some x => Some (x, rest)
            | None => None
            end
          else None
      | _ => None
      end
  end.

(** [3[0-1]|[1-2]\d|0[1-9]|[1-9]| [1-9]], the first alternative that
    matches. *)
Definition parse_day (s : string) : option (Z * string) :=
  let two :=
    match s with
    | String a (String b rest) =>
        match in_range 3 3 a, in_range 0 1 b with
        | Some _, Some x => Some (30 + x, rest)
        | _, _ =>
            match in_range 1 2 a, in_range 0 9 b with
            | Some y, Some x => Some (10 * y + x, rest)
            | _, _ =>
                match in_range 0 0 a, in_range 1 9 b with
                | Some _, Some x => Some (x, rest)
                | _, _ => None
                end
            end
        end
    | _ => None
    end in
  match two with
  | Some r => Some r
  | None =>
      match s with
      | String a rest =>
          match in_range 1 9 a with
          | Some x => Some (x, rest)
          | None =>
              match rest with
              | String b rest' =>
                  if Ascii.eqb a " " then
                    match in_range 1 9 b with
                    | Some x => Some (x, rest')
                    | None => None
                    end
                  else None
              | EmptyString => None
              end
          end
      | EmptyString => None
      end
  end.

Definition strptime_Ymd (s : string) : option datetime :=
  match parse_year s with
  | Some (y, s1) =>
      match after_char "-" s1 with
      | Some s2 =>
          match parse_month s2 with
          | Some (m, s3) =>
              match parse_day s3 with
              | Some (d, EmptyString) =>
                  if (1 <=? y) && (d <=? days_in_month y m)
                  then Some (mk_datetime y m d 0 0 0)
                  else None
              | _ => None
              end
          | None => None
          end
      | None => None
      end
  | None => None
  end.

(** [datetime.strptime(v, '%Y-%m-%d')] for a value of the loaded file:
    a [TypeError] unless [v] is a [str]. *)
Definition py_strptime (v : json) : outcome datetime :=
  match v with
  | JStr s =>
      match strptime_Ymd s with
      | Some t => Returned t
      | None => Raised ValueError
      end
  | _ => Raised TypeError
  end.
(** The first day the weekly chart shows and its fixed last day, lines
    93 and 114. *)
Definition chart_start : datetime := mk_datetime 2025 2 24 0 0 0.
Definition min_end_date : datetime := mk_datetime 2025 7 8 0 0 0.

(** [week[key] if week[key] is not None else 0]. *)
Definition count_or_0 (key : string) (week : json) : outcome json :=
  and_then (py_getitem key week) (fun v =>
  if is_none v then Returned (JInt 0) else py_getitem key week).

(** The lists [dates] and [total_commits] of one user, and
    [running_total]. *)
Record Series : Type := mkSeries {
  dates : list datetime;
  total_commits : list json;
  running_total : json
}.

Section Chart.

Context {World : Type} {env : Env World}.

(** The body of the loop over [weekly_data], lines 112-135. *)
Definition week_point (name week : json) (acc : Series) : M (World := World) Series :=
  start_text <- lift (py_getitem "start_date" week) ;;
  week_start_date <- lift (py_strptime start_text) ;;
  if week_start_date <? chart_start then ret acc
  else
    end_text <- lift (py_getitem "end_date" week) ;;
    week_end_date <- lift (py_strptime end_text) ;;
    if min_end_date <? week_end_date then
      print (str_of_datetime min_end_date ++ " " ++ str_of_datetime week_end_date) ;;
      ret acc
    else
      coauthored <- lift (count_or_0 "commits_coauthored" week) ;;
      primary <- lift (count_or_0 "commits_primary_author" week) ;;
      week_total <- (if py_eq_str name "Copilot" then ret coauthored
                     else lift (py_add coauthored primary)) ;;
      running_total <- lift (py_add (running_total acc) week_total) ;;
      ret (mkSeries (dates acc ++ [week_start_date])%list
                    (total_commits acc ++ [running_total])%list
                    running_total).

Fixpoint week_points (name : json) (weeks : list json) (acc : Series)
    : M (World := World) Series :=
  match weeks with
  | [] => ret acc
  | week :: rest => acc <- week_point name week acc ;; week_points name rest acc
  end.

(** One turn of the loop over [data['users']] up to the line drawn,
    lines 99-139: the user's name and series, or [None] where the loop
    goes on to the next user. *)
Definition user_line (user_data : json) : M (World := World) (option (json * Series)) :=
  name <- lift (py_getitem "display_name" user_data) ;;
  weekly_data <- lift (py_getitem "weekly_growth" user_data) ;;
  if negb (py_truthy weekly_data) then ret None
  else
    weeks <- lift (py_iter weekly_data) ;;
    series <- week_points name weeks (mkSeries [] [] (JInt 0)) ;;
    match dates series with
    | [] => ret None
    | _ => ret (Some (name, series))
    end.

End Chart.

(** * Vocabulary of the statements *)

(** The events of one attempt other than the request itself. *)
Definition quiet (ev : event) : Prop :=
  match ev with EvGet _ _ _ _ => False | _ => True end.

(** Seconds from the clock reading [now] until the reset time. *)
Definition seconds_until (reset : Z) (now : Q) : Q := (inject_Z reset - now)%Q.

(** The requests of a trace: URL, headers and parameters of each one. *)
Definition requests_of (tr : list event)
    : list (string * option (dict string) * option (dict json)) :=
  flat_map (fun ev => match ev with
                      | EvGet url hdrs params _ => [(url, hdrs, params)]
                      | _ => []
                      end) tr.

(** A request of the search API, written out: the URL; the token after
    [Bearer] (a token that is [None] shows as the text None) and the
    version of the API; the query and one result per page. *)
Definition search_request (url : string) (token : option string) (q : string)
    : string * option (dict string) * option (dict json) :=
  (url,
   Some [("Authorization",
          "Bearer " ++ match token with Some t => t | None => "None" end);
         ("Accept", "application/vnd.github.v3+json")],
   Some [("q", JStr q); ("per_page", JInt 1)]).

(** A handle, an email or a date range that is given and not empty. *)
Definition given (o : option string) : option string :=
  match o with
  | Some (String c s) => Some (String c s)
  | _ => None
  end.

(** A query followed by a filter on dates, when a date range is given. *)
Definition dated (q qualifier : string) (date_range : option string) : string :=
  match given date_range with
  | Some d => q ++ " " ++ qualifier ++ ":" ++ d
  | None => q
  end.

(** The identity of a commit search: the clause on the handle, the clause
    on the email, both joined by OR, or the clause on [nonexistent] when
    neither is given. *)
Definition identity_clauses (by_name by_email sentinel : string)
    (username email : option string) : string :=
  match given username, given email with
  | Some u, Some e => by_name ++ u ++ " OR " ++ by_email ++ e
  | Some u, None => by_name ++ u
  | None, Some e => by_email ++ e
  | None, None => sentinel
  end.

(** The trace of a run. *)
Definition trace_of {A World} (run : outcome A * World * list event) : list event :=
  snd run.

(** The windows the loop visits from [week_start] on: start and end of
    each, as datetimes. *)
Inductive windows_from (current_date : datetime)
    : datetime -> list (datetime * datetime) -> Prop :=
| windows_done week_start :
    current_date <= week_start -> windows_from current_date week_start []
| windows_next week_start rest :
    week_start < current_date ->
    windows_from current_date (week_start + 7 * us_per_day) rest ->
    windows_from current_date week_start
      ((week_start, Z.min (week_start + 6 * us_per_day) current_date) :: rest).

(** A record of [weekly_data] shows the window [win]. *)
Definition shows (win : datetime * datetime) (week_data : WeekData) : Prop :=
  start_date week_data = strftime_Ymd (fst win)
  /\ end_date week_data = strftime_Ymd (snd win).

Definition starts_at (launch_date : datetime) (wins : list (datetime * datetime))
    : Prop :=
  exists week_end rest, wins = (launch_date, week_end) :: rest.

(** Each window begins the day after the one before it ends. *)
Fixpoint contiguous (wins : list (datetime * datetime)) : Prop :=
  match wins with
  | (_, week_end) :: (((next_start, _) :: _) as rest) =>
      week_end < next_start
      /\ next_start = week_end + us_per_day
      /\ day_of next_start = day_of week_end + 1
      /\ contiguous rest
  | _ => True
  end.

(** A window ends no later than [current_date] and covers at most seven
    calendar days, its first and last included. *)
Definition within (current_date : datetime) (win : datetime * datetime) : Prop :=
  let (week_start, week_end) := win in
  week_start <= week_end
  /\ week_end <= current_date
  /\ week_end <= week_start + 6 * us_per_day
  /\ day_of week_end - day_of week_start + 1 <= 7.

Definition window_dates (week_data : WeekData) : string * string :=
  (start_date week_data, end_date week_data).

(** Worlds and records for concrete runs: a server that answers every
    query with a count, read at noon and at midnight of 2025-03-10, and
    servers whose first answer is a count of 42 or a refusal. *)
Definition launch_day : datetime := mk_datetime 2025 2 24 0 0 0.

Definition noon_world : Script :=
  mkScript (repeat (found 5) 6) 0 (mk_datetime 2025 3 10 12 0 0).

Definition midnight_world : Script :=
  mkScript (repeat (found 5) 6) 0 (mk_datetime 2025 3 10 0 0 0).

Definition week (label first last : string) : WeekData :=
  mkWeekData label first last (JInt 5) (JInt 5).

Definition counted_world : Script := mkScript [found 42; found 7; found 3] 0 0.
Definition refused_world : Script :=
  mkScript [bad_credentials; found 7; found 3] 0 0.

Fixpoint distinct (keys : list string) : bool :=
  match keys with
  | [] => true
  | k :: rest => negb (existsb (String.eqb k) rest) && distinct rest
  end.

(** The keys of every dict are distinct, as in any Python dict. *)
Fixpoint unique_keys (v : json) : bool :=
  match v with
  | JList items => forallb unique_keys items
  | JDict entries =>
      distinct (map fst entries)
      && forallb (fun '(_, x) => unique_keys x) entries
  | _ => true
  end.

Fixpoint size (v : json) : nat :=
  match v with
  | JList items => S (list_sum (map (fun x => S (size x)) items))
  | JDict entries => S (list_sum (map (fun '(_, x) => S (size x)) entries))
  | _ => 1
  end.

(** A character that can begin the text of a value. *)
Definition opens_value (c : ascii) : bool :=
  is_digit c || Ascii.eqb c "-" || Ascii.eqb c quote_mark || Ascii.eqb c "["
  || Ascii.eqb c "{" || Ascii.eqb c "n" || Ascii.eqb c "t" || Ascii.eqb c "f".

(** A text that does not go on with a digit, a fraction or an exponent. *)
Definition ends_number (rest : string) : bool :=
  match rest with
  | EmptyString => true
  | String c _ => negb (is_digit c) && negb (starts_fraction rest)
  end.


Definition total_size (items : list json) : nat :=
  list_sum (map (fun x => S (size x)) items).

Definition total_size_entries (entries : list (string * json)) : nat :=
  list_sum (map (fun '(_, x) => S (size x)) entries).

(** The counts of a user's record are Python values and the stat names
    are distinct, as the keys of a Python dict are. *)
Definition python_stats (stats : UserStats) : bool :=
  unique_keys (JDict (overall_stats stats))
  && forallb (fun week_data =>
                unique_keys (commits_coauthored week_data)
                && unique_keys (commits_primary_author week_data))
             (weekly_growth stats).

Definition sample_users : list UserStats :=
  [mkUserStats "Claude Code" (Some "claude") None
     [("commits_coauthored", JInt 1204); ("commits_primary_author", JNull);
      ("repositories_mentioning", JInt 0)]
     [mkWeekData "Feb 24-02" "2025-02-24" "2025-03-02" (JInt 17) JNull;
      mkWeekData "Mar 03-09" "2025-03-03" "2025-03-09" JNull (JInt (-1))];
   mkUserStats "Jules" (Some "google-labs-jules[bot]") (Some "jules@example.com")
     [] []].

(** A server that gives the same answer to every request; the world is
    the wall clock, which sleeping advances. *)
Definition steady_env (reply : Response) : Env datetime := {|
  requests_get _ _ _ w := (Returned reply, w);
  time_time w := (inject_Z (w / 1000000), w);
  time_sleep d w := w + d * 1000000;
  sleep_refused _ _ := None;
  datetime_now w := (w, w);
  write_text _ _ w := (Returned tt, w)
|}.

(** The sleeps of a trace, in seconds. *)
Definition sleeps_of (tr : list event) : list Z :=
  flat_map (fun ev => match ev with EvSleep s => [s] | _ => [] end) tr.

(** The server met a rate limit and named no reset time. *)
Definition limited_without_reset (r : Response) : Prop :=
  is_rate_limited r = true
  /\ truthy (headers_get "X-RateLimit-Reset" (headers r)) = None.

(** The pause after attempt number [attempt] (from 0) of the backoff. *)
Definition backoff_wait (attempt : nat) : Z := 2 ^ Z.of_nat attempt * 30.

Definition still_indexing : Response :=
  mkResponse 202 "" [] (Some (JDict [])).

(** The answers of a trace, request by request, and the last of them. *)
Definition answers_of (tr : list event) : list (outcome Response) :=
  flat_map (fun ev => match ev with EvGet _ _ _ r => [r] | _ => [] end) tr.

Definition last_answer (tr : list event) : option (outcome Response) :=
  last (map Some (answers_of tr)) None.

(** The ways a call of [rate_limited_get] can fail, by the events its
    trace ends with: the request itself raised; the reset-time header of
    a rate-limit response is not an integer; the wait of a rate limit,
    until the reset time or of the backoff, has more than 4300 digits and
    the log line cannot show it; that wait is longer than [safe_sleep]
    and [time.sleep] raised at it ([OverflowError] when longer than
    [max_sleep]); a 422 arrived and [params] is [None]. *)
Inductive failure (url : string) (hdrs : option (dict string))
    (params : option (dict json)) (e : exn) : list event -> Prop :=
| failed_transport pre :
    failure url hdrs params e (pre ++ [EvGet url hdrs params (Raised e)])
| failed_reset_header pre r reset_time :
    e = ValueError -> is_rate_limited r = true ->
    headers_get "X-RateLimit-Reset" (headers r) = Some reset_time ->
    nonempty reset_time = true -> py_int reset_time = None ->
    failure url hdrs params e (pre ++ [EvGet url hdrs params (Returned r)])
| failed_reset_log pre r reset_time reset now :
    e = ValueError -> is_rate_limited r = true ->
    headers_get "X-RateLimit-Reset" (headers r) = Some reset_time ->
    py_int reset_time = Some reset ->
    py_str_int (reset - int_of_float now + 10) = None ->
    failure url hdrs params e
            (pre ++ [EvGet url hdrs params (Returned r); EvTime now])
| failed_backoff_log pre r attempt :
    e = ValueError -> limited_without_reset r ->
    py_str_int (backoff_wait attempt) = None ->
    failure url hdrs params e (pre ++ [EvGet url hdrs params (Returned r)])
| failed_reset_wait pre r reset_time reset now line :
    is_rate_limited r = true ->
    headers_get "X-RateLimit-Reset" (headers r) = Some reset_time ->
    py_int reset_time = Some reset ->
    safe_sleep < Z.max (reset - int_of_float now + 10) 30 ->
    (max_sleep < Z.max (reset - int_of_float now + 10) 30 -> e = OverflowError) ->
    failure url hdrs params e
            (pre ++ [EvGet url hdrs params (Returned r); EvTime now; EvPrint line])
| failed_backoff_wait pre r attempt line :
    limited_without_reset r ->
    safe_sleep < backoff_wait attempt ->
    (max_sleep < backoff_wait attempt -> e = OverflowError) ->
    failure url hdrs params e
            (pre ++ [EvGet url hdrs params (Returned r); EvPrint line])
| failed_log_line pre r :
    e = AttributeError -> params = None -> status_code r = 422 ->
    is_rate_limited r = false ->
    failure url hdrs params e (pre ++ [EvGet url hdrs params (Returned r)]).

Definition repositories_url : string :=
  "https://api.github.com/search/repositories".

(** A request of the stat aggregator: to the commit or the repository
    search, with the token's headers, a query and one result per page. *)
Definition stat_request (token : option string)
    (req : string * option (dict string) * option (dict json)) : Prop :=
  exists url query,
    (url = "https://api.github.com/search/commits"
     \/ url = "https://api.github.com/search/repositories")
    /\ req = search_request url token query.

(** The names of the overall stats, in the order of [activities]. *)
Definition stat_names : list string :=
  ["commits_coauthored"; "commits_primary_author"; "repositories_mentioning"].

(** A rate-limit response that names no reset time and whose body is the
    API's error object. *)
Definition limited_with_message (r : Response) : Prop :=
  limited_without_reset r
  /\ exists d, json_body r = Some (JDict d) /\ dict_get "total_count" d = None.

Definition limited_json : Response :=
  mkResponse 403 "You have exceeded a secondary rate limit." []
    (Some (JDict [("message", JStr "You have exceeded a secondary rate limit.")])).

(** The number of windows between a launch date and the current time:
    the weeks begun, whole or not. *)
Definition weeks_between (launch_date current_date : datetime) : nat :=
  Z.to_nat ((current_date - launch_date + (7 * us_per_day - 1)) / (7 * us_per_day)).

(** Window number [k], from 0: it starts [k] weeks after the launch date
    and ends six days later, or at the current time if that is earlier. *)
Definition nth_window (launch_date current_date : datetime) (k : nat)
    : datetime * datetime :=
  let week_start := launch_date + Z.of_nat k * (7 * us_per_day) in
  (week_start, Z.min (week_start + 6 * us_per_day) current_date).

Definition expected_windows (launch_date current_date : datetime)
    : list (datetime * datetime) :=
  map (nth_window launch_date current_date)
      (seq 0 (weeks_between launch_date current_date)).

(** The [total_count] of a payload, [None] when it has none. *)
Definition count_in (payload : dict json) : json :=
  match dict_get "total_count" payload with Some v => v | None => JNull end.

(** A response that ends the call that receives it, with a JSON object
    whose count satisfies [P]. *)
Definition settles (P : json -> Prop) (r : Response) : Prop :=
  is_rate_limited r = false /\ status_code r <> 202 /\ status_code r <> 422
  /\ exists payload, json_body r = Some (JDict payload) /\ P (count_in payload).

(** A count as the chart can plot it. *)
Definition none_or_int (c : json) : Prop := c = JNull \/ exists n, c = JInt n.

(** A count as the reports can print it, alone and in the sum of two such
    counts: [None], or an integer of at most 4299 digits. *)
Definition count_limit : Z := Eval vm_compute in 10 ^ 4299.

Definition printable_count (c : json) : Prop :=
  c = JNull \/ exists n, c = JInt n /\ Z.abs n < count_limit.

(** The two requests for the window of a record: the commit search for
    the actor as co-author, and as primary author, each with the filter
    [committer-date:start..end] on the dates the record carries. *)
Definition coauthored_in_week (token username email : option string)
    (week_data : WeekData)
    : string * option (dict string) * option (dict json) :=
  search_request "https://api.github.com/search/commits" token
    (identity_clauses "co-authored-by:" "co-authored-by:"
                      "co-authored-by:nonexistent" username email
     ++ " committer-date:" ++ start_date week_data ++ ".." ++ end_date week_data).

Definition authored_in_week (token username email : option string)
    (week_data : WeekData)
    : string * option (dict string) * option (dict json) :=
  search_request "https://api.github.com/search/commits" token
    (identity_clauses "author:" "author-email:" "author:nonexistent" username email
     ++ " committer-date:" ++ start_date week_data ++ ".." ++ end_date week_data).

(** Every JSON body of the server is a Python value: the keys of each
    object are distinct. *)
Definition well_formed_server {World : Type} {env : Env World} : Prop :=
  forall url hdrs params (w w' : World) r v,
    requests_get url hdrs params w = (Returned r, w') ->
    json_body r = Some v -> unique_keys v = true.

(** The count a summary line shows for a stat: [None] and a missing stat
    count as 0. *)
Definition shown_count (key : string) (stats : dict json) : Z :=
  match dict_get key stats with Some (JInt n) => n | _ => 0 end.

(** The stat is missing, [None] or an integer of at most 4299 digits. *)
Definition countable (key : string) (stats : dict json) : Prop :=
  match dict_get key stats with
  | Some v => printable_count v
  | None => True
  end.
(** What one turn of the loop over the users appends. *)
Definition record_of (user : string * string * datetime * option string)
    (stats : UserStats) : Prop :=
  let '(name_shown, handle, _, mail) := user in
  display_name stats = name_shown
  /\ username stats = Some handle
  /\ email stats = mail
  /\ map fst (overall_stats stats) = stat_names.

(** The bars of one user of the collector's record. *)
Definition primary_bar (stats : UserStats) : json :=
  if String.eqb (display_name stats) "Copilot" then JInt 0
  else count_or_zero "commits_primary_author" (overall_stats stats).
(** Stats as the script could have collected them for its users. *)
Definition collected_sample : list UserStats :=
  map (fun '(name_shown, handle, _, mail) =>
         mkUserStats name_shown (Some handle) mail
           [("commits_coauthored", JInt 1204); ("commits_primary_author", JInt 7);
            ("repositories_mentioning", JNull)] [])
      users.

(** Midnight of the day of [t]. *)
Definition midnight (t : datetime) : datetime := day_of t * us_per_day.

(** From year 1000 on [%Y] has its four digits on every platform. *)
Definition four_digit_year (t : datetime) : Prop :=
  mk_datetime 1000 1 1 0 0 0 <= t < datetime_end.

Definition leap_days_in_month (leap : bool) (m : Z) : Z :=
  if m =? 2 then (if leap then 29 else 28)
  else if (m =? 4) || (m =? 6) || (m =? 9) || (m =? 11) then 30
  else 31.

Fixpoint leap_days_before_month_aux (leap : bool) (k : nat) : Z :=
  match k with
  | O => 0
  | S k' => leap_days_before_month_aux leap k' + leap_days_in_month leap (Z.of_nat k)
  end.

(** Month and day of day number [k] of a year, and that they are the
    [k]-th day. *)
Definition month_day_ok (leap : bool) (k : Z) : bool :=
  let month := (k + 50) / 32 in
  let preceding := leap_days_before_month_aux leap (Z.to_nat (month - 1)) in
  let '(m, d) :=
    if k <? preceding
    then (month - 1, k - (preceding - leap_days_in_month leap (month - 1)) + 1)
    else (month, k - preceding + 1) in
  (1 <=? m) && (m <=? 12) && (1 <=? d) && (d <=? leap_days_in_month leap m)
  && (leap_days_before_month_aux leap (Z.to_nat (m - 1)) + (d - 1) =? k).

(** The text of a year is its four digits. *)
Definition year_text_ok (y : Z) : bool :=
  match zero_pad 4 y with
  | String a (String b (String c (String d EmptyString))) =>
      match digit_val a, digit_val b, digit_val c, digit_val d with
      | Some x3, Some x2, Some x1, Some x0 =>
          1000 * x3 + 100 * x2 + 10 * x1 + x0 =? y
      | _, _, _, _ => false
      end
  | _ => false
  end.
(** The count a week adds to a user's line: [None] counts as 0, and for
    the user displayed as [Copilot] only the co-authored commits count. *)
Definition int_or_zero (v : json) : Z :=
  match v with JInt n => n | _ => 0 end.

Definition week_count (name : string) (week_data : WeekData) : Z :=
  if String.eqb name "Copilot" then int_or_zero (commits_coauthored week_data)
  else int_or_zero (commits_coauthored week_data)
       + int_or_zero (commits_primary_author week_data).

(** The weeks the chart keeps: those that start on or after 2025-02-24
    and end on or before 2025-07-08. *)
Definition plotted (entry : (datetime * datetime) * WeekData) : bool :=
  let '((week_start, week_end), _) := entry in
  negb (midnight week_start <? chart_start)
  && negb (min_end_date <? midnight week_end).

(** The running sums of [counts], started at [from]. *)
Fixpoint cumulative (from : Z) (counts : list Z) : list Z :=
  match counts with
  | [] => []
  | c :: rest => (from + c) :: cumulative (from + c) rest
  end.

(** The windows and the counts of a weekly record are fit for the chart. *)
Definition chartable (entry : (datetime * datetime) * WeekData) : Prop :=
  let '((week_start, week_end), week_data) := entry in
  shows (week_start, week_end) week_data
  /\ four_digit_year week_start /\ four_digit_year week_end
  /\ none_or_int (commits_coauthored week_data)
  /\ none_or_int (commits_primary_author week_data).
(** The line the chart draws from the kept weeks of a user. *)
Definition line_of (name : string) (kept : list ((datetime * datetime) * WeekData))
    : Series :=
  mkSeries
    (map (fun entry => midnight (fst (fst entry))) kept)
    (map JInt (cumulative 0 (map (fun entry => week_count name (snd entry)) kept)))
    (JInt (fold_left Z.add (map (fun entry => week_count name (snd entry)) kept) 0)).
(** The three weekly records of a user launched on 2025-02-24 and read at
    noon of 2025-03-10, with their windows. *)
Definition bot_x_entries : list ((datetime * datetime) * WeekData) :=
  [(nth_window launch_day (mk_datetime 2025 3 10 12 0 0) 0,
    week "Feb 24-02" "2025-02-24" "2025-03-02");
   (nth_window launch_day (mk_datetime 2025 3 10 12 0 0) 1,
    week "Mar 03-09" "2025-03-03" "2025-03-09");
   (nth_window launch_day (mk_datetime 2025 3 10 12 0 0) 2,
    week "Mar 10-10" "2025-03-10" "2025-03-10")].

(** A response that settles a query at once, with an integer count of at
    most 4299 digits or without one. *)
Definition answers_count (r : Response) : Prop :=
  is_rate_limited r = false /\ status_code r <> 202 /\ status_code r <> 422
  /\ exists payload, json_body r = Some (JDict payload)
       /\ (dict_get "total_count" payload = None
           \/ exists n, dict_get "total_count" payload = Some (JInt n)
                        /\ Z.abs n < count_limit).

(** The sleeps of the script when every request is settled at once: one
    second per weekly record of each user, and 30 seconds between one
    user and the next. *)
Fixpoint with_pauses (weeks : list nat) : list Z :=
  match weeks with
  | [] => []
  | [n] => repeat 1 n
  | n :: rest => (repeat 1 n ++ 30 :: with_pauses rest)%list
  end.

(** The number of weekly records of each user. *)
Definition weeks_of (users_data : list UserStats) : list nat :=
  map (fun stats => length (weekly_growth stats)) users_data.

(** A network that fails every request with [e]. *)
Definition offline_env (e : exn) : Env unit := {|
  requests_get _ _ _ w := (Raised e, w);
  time_time w := (0%Q, w);
  time_sleep _ w := w;
  sleep_refused _ _ := None;
  datetime_now w := (0, w);
  write_text _ _ w := (Returned tt, w)
|}.

(** A server that gives the same answer to every request, under a clock
    that stands at [now]. *)
Definition frozen_env (reply : Response) (now : datetime) : Env unit := {|
  requests_get _ _ _ w := (Returned reply, w);
  time_time w := (0%Q, w);
  time_sleep _ w := w;
  sleep_refused _ _ := None;
  datetime_now w := (now, w);
  write_text _ _ w := (Returned tt, w)
|}.

(** The same server and clock, where no file can be written. *)
Definition read_only_env (reply : Response) (now : datetime) : Env unit := {|
  requests_get _ _ _ w := (Returned reply, w);
  time_time w := (0%Q, w);
  time_sleep _ w := w;
  sleep_refused _ _ := None;
  datetime_now w := (now, w);
  write_text _ _ w := (Raised OSError, w)
|}.

(** * Properties *)

(** ** Running monadic code *)

Section MonadFacts.

Context {World : Type} {env : Env World}.

Lemma bind_returned {A B} (m : M A) (f : A -> M B) (w w1 : World) a t1 :
  m w = (Returned a, w1, t1) ->
  bind m f w = let '(r, w2, t2) := f a w1 in (r, w2, (t1 ++ t2)%list).
Proof. intros H. unfold bind. rewrite H. reflexivity. Qed.

Lemma bind_raised {A B} (m : M A) (f : A -> M B) (w w1 : World) e t1 :
  m w = (Raised e, w1, t1) -> bind m f w = (Raised e, w1, t1).
Proof. intros H. unfold bind. rewrite H. reflexivity. Qed.

(** A bind that returned went through both of its parts. *)
Lemma bind_returned_inv {A B} (m : M A) (f : A -> M B) (w w' : World) b tr :
  bind m f w = (Returned b, w', tr) ->
  exists a w1 t1 t2,
    m w = (Returned a, w1, t1) /\ f a w1 = (Returned b, w', t2)
    /\ tr = (t1 ++ t2)%list.
Proof.
  unfold bind. destruct (m w) as [[[a|e] w1] t1]; [|discriminate].
  destruct (f a w1) as [[r w2] t2] eqn:Hf. intros H. inversion H; subst.
  exists a, w1, t1, t2. auto.
Qed.

(** Whatever the outcome, the trace of a bind starts with the trace of
    its first part. *)
Lemma bind_trace {A B} (m : M A) (f : A -> M B) (w w' : World) res tr :
  bind m f w = (res, w', tr) ->
  exists r1 w1 t1 t2, m w = (r1, w1, t1) /\ tr = (t1 ++ t2)%list
    /\ match r1 with
       | Returned a => f a w1 = (res, w', t2)
       | Raised e => res = Raised e /\ w' = w1 /\ t2 = []
       end.
Proof.
  unfold bind. destruct (m w) as [[[a|e] w1] t1].
  - destruct (f a w1) as [[r w2] t2] eqn:Hf. intros H. inversion H; subst.
    exists (Returned a), w1, t1, t2. auto.
  - intros H. inversion H; subst.
    exists (Raised e), w', tr, []. rewrite app_nil_r. auto.
Qed.

End MonadFacts.

(** ** The fetcher *)

Lemma py_int_nonempty (s : string) (n : Z) : py_int s = Some n -> nonempty s = true.
Proof. destruct s; [discriminate | reflexivity]. Qed.

(** Truncation toward zero rounds a time since the epoch down. *)
Lemma int_of_float_le (x : Q) : (0 <= x)%Q -> (inject_Z (int_of_float x) <= x)%Q.
Proof.
  intros Hx. unfold int_of_float. destruct x as [n d]. simpl.
  rewrite Z.quot_div_nonneg.
  - apply (Qfloor_le (n # d)).
  - unfold Qle in Hx. simpl in Hx. lia.
  - reflexivity.
Qed.

Lemma reset_wait_covers (reset : Z) (now : Q) :
  (0 <= now)%Q ->
  (Qmax (seconds_until reset now + 10) 30
   <= inject_Z (Z.max (reset - int_of_float now + 10) 30))%Q.
Proof.
  intros Hnow. pose proof (int_of_float_le now Hnow) as Hle.
  set (k := int_of_float now) in *.
  apply Q.max_lub.
  - apply Qle_trans with (inject_Z (reset - k + 10)).
    + unfold seconds_until, Qminus.
      replace (reset - k + 10) with (reset + - k + 10) by lia.
      rewrite !inject_Z_plus, inject_Z_opp.
      apply Qplus_le_compat; [|apply Qle_refl].
      apply Qplus_le_compat; [apply Qle_refl|].
      apply Qopp_le_compat. exact Hle.
    + rewrite <- Zle_Qle. lia.
  - change 30%Q with (inject_Z 30). rewrite <- Zle_Qle. lia.
Qed.

(** An integer of no more than [max_sleep] in size has few digits. *)
Lemma max_sleep_shown (n : Z) : Z.abs n <= max_sleep -> Z.abs n < str_limit.
Proof.
  intros H. apply Z.le_lt_trans with max_sleep; [exact H|].
  vm_compute. reflexivity.
Qed.

Lemma py_str_int_shown (n : Z) :
  Z.abs n < str_limit -> py_str_int n = Some (str_of_int n).
Proof.
  intros H. unfold py_str_int. apply Z.ltb_lt in H. rewrite H. reflexivity.
Qed.

Lemma py_str_int_some (n : Z) (shown : string) :
  py_str_int n = Some shown -> shown = str_of_int n /\ Z.abs n < str_limit.
Proof.
  unfold py_str_int. destruct (Z.ltb_spec (Z.abs n) str_limit); [|discriminate].
  intros E. inversion E. auto.
Qed.

Lemma py_str_int_none (n : Z) : py_str_int n = None -> str_limit <= Z.abs n.
Proof.
  unfold py_str_int. destruct (Z.ltb_spec (Z.abs n) str_limit); [discriminate|].
  auto.
Qed.

(** The waits of the backoff are powers of two times 30 seconds; the
    number of the attempt is smaller than its wait. *)
Lemma backoff_wait_nonneg (a : nat) : 0 <= 2 ^ Z.of_nat a * 30.
Proof. pose proof (Z.pow_nonneg 2 (Z.of_nat a)). lia. Qed.

Lemma attempt_number_shown (a : nat) (shown : string) :
  py_str_int (2 ^ Z.of_nat a * 30) = Some shown ->
  py_str_int (Z.of_nat a + 1) = Some (str_of_int (Z.of_nat a + 1)).
Proof.
  intros H. apply py_str_int_some in H. destruct H as [_ H].
  apply py_str_int_shown.
  pose proof (Z.pow_gt_lin_r 2 (Z.of_nat a)) as Hlin.
  pose proof (backoff_wait_nonneg a). lia.
Qed.

Lemma classify_wait_short (seconds : Z) :
  0 <= seconds <= safe_sleep -> classify_wait seconds = Short.
Proof.
  intros H. unfold classify_wait.
  replace (max_sleep <? seconds) with false
    by (symmetry; apply Z.ltb_ge; unfold max_sleep, safe_sleep in *; lia).
  replace (seconds <? - max_sleep) with false
    by (symmetry; apply Z.ltb_ge; unfold max_sleep in *; lia).
  replace (seconds <? 0) with false by (symmetry; apply Z.ltb_ge; lia).
  replace (seconds <=? safe_sleep) with true by (symmetry; apply Z.leb_le; lia).
  reflexivity.
Qed.

Lemma classify_wait_overflows (seconds : Z) :
  max_sleep < seconds -> classify_wait seconds = Overflows.
Proof.
  unfold classify_wait. intros H.
  destruct (Z.ltb_spec max_sleep seconds); [reflexivity | lia].
Qed.

(** A wait of at least 30 seconds is not a negative one. *)
Lemma classify_wait_positive (seconds : Z) :
  0 <= seconds -> classify_wait seconds <> Negative.
Proof.
  unfold classify_wait. intros H.
  destruct (_ || _); [discriminate|].
  destruct (Z.ltb_spec seconds 0); [lia|].
  destruct (_ <=? _); discriminate.
Qed.

Lemma classify_wait_overflows_inv (seconds : Z) :
  0 <= seconds -> classify_wait seconds = Overflows -> max_sleep < seconds.
Proof.
  unfold classify_wait. intros H.
  destruct (Z.ltb_spec max_sleep seconds); [auto|].
  destruct (Z.ltb_spec seconds (- max_sleep)); [unfold max_sleep in *; lia|].
  cbn [orb]. destruct (seconds <? 0); [discriminate|].
  destruct (_ <=? _); discriminate.
Qed.

Lemma classify_wait_long_inv (seconds : Z) :
  classify_wait seconds = Long -> safe_sleep < seconds <= max_sleep.
Proof.
  unfold classify_wait.
  destruct (Z.ltb_spec max_sleep seconds); [discriminate|].
  destruct (_ <? - _); [discriminate|]. cbn [orb].
  destruct (seconds <? 0); [discriminate|].
  destruct (Z.leb_spec seconds safe_sleep); [discriminate|]. lia.
Qed.

(** Unfold the monad's operations in a run; the waits of 1 and of 30
    seconds are short ones. *)
Tactic Notation "run_ops" :=
  cbv beta iota zeta
      delta [bind http_get get_time get_now sleep print ret raise or_raise lift];
  change (classify_wait 30) with Short; change (classify_wait 1) with Short;
  cbv beta iota zeta.
Tactic Notation "run_ops" "in" hyp(H) :=
  cbv beta iota zeta
      delta [bind http_get get_time get_now sleep print ret raise or_raise lift] in H;
  change (classify_wait 30) with Short in H; change (classify_wait 1) with Short in H;
  cbv beta iota zeta in H.

(** The ways an f-string field of an integer can go, in a run whose
    operations are unfolded: converted, or too long. *)
Ltac shown_cases H :=
  repeat (match type of H with
          | context [py_str_int ?n] => destruct (py_str_int n) eqn:?
          end;
          cbv beta iota zeta in H).

(** The ways a wait can go, in a run whose operations are unfolded: too
    long for the interpreter, negative, short, refused by the operating
    system, or accepted by it. *)
Ltac wait_cases H :=
  match type of H with
  | context [classify_wait ?s] =>
      destruct (classify_wait s) eqn:?;
      [ | | | match type of H with
              | context [sleep_refused ?s' ?w] =>
                  destruct (sleep_refused s' w) eqn:?
              end ]
  end;
  cbv beta iota zeta in H.

Section Waits.

Context {World : Type} {env : Env World}.

Lemma sleep_short (seconds : Z) (w : World) :
  0 <= seconds <= safe_sleep ->
  sleep seconds w = (Returned tt, time_sleep seconds w, [EvSleep seconds]).
Proof. intros H. unfold sleep. rewrite (classify_wait_short _ H). reflexivity. Qed.

(** A wait that returned blocked for its length. *)
Lemma sleep_returned (seconds : Z) (w w' : World) u tr :
  sleep seconds w = (Returned u, w', tr) ->
  w' = time_sleep seconds w /\ tr = [EvSleep seconds].
Proof.
  unfold sleep. destruct (classify_wait seconds); try discriminate.
  - intros H. inversion H. auto.
  - destruct (sleep_refused seconds w); [discriminate|].
    intros H. inversion H. auto.
Qed.

(** A wait that raised was a long one, did not block and left no event. *)
Lemma sleep_raised (seconds : Z) (w w' : World) e tr :
  0 <= seconds ->
  sleep seconds w = (Raised e, w', tr) ->
  w' = w /\ tr = [] /\ safe_sleep < seconds
  /\ (max_sleep < seconds -> e = OverflowError).
Proof.
  intros Hpos. unfold sleep. destruct (classify_wait seconds) eqn:Hc.
  - intros H. inversion H; subst.
    apply classify_wait_overflows_inv in Hc; [|exact Hpos].
    unfold max_sleep, safe_sleep in *. repeat split; auto. lia.
  - exfalso. exact (classify_wait_positive _ Hpos Hc).
  - discriminate.
  - apply classify_wait_long_inv in Hc.
    destruct (sleep_refused seconds w); [|discriminate].
    intros H. inversion H; subst. repeat split; auto; lia.
Qed.

End Waits.

Section FetcherFacts.

Context {World : Type} {env : Env World}.
Variables (url : string) (hdrs : option (dict string)) (params : option (dict json)).

(** A response that is neither a rate limit, a 202 nor a 422 ends the
    call. *)
Lemma retry_loop_terminal k a last (w w1 : World) r :
  requests_get url hdrs params w = (Returned r, w1) ->
  is_rate_limited r = false -> status_code r <> 202 -> status_code r <> 422 ->
  retry_loop url hdrs params (S k) a last w
  = (Returned r, w1, [EvGet url hdrs params (Returned r)]).
Proof.
  intros Hget Hrl H202 H422. cbn [retry_loop].
  unfold bind at 1, http_get. rewrite Hget, Hrl.
  apply Z.eqb_neq in H202, H422. rewrite H202, H422. reflexivity.
Qed.

(** What one attempt contributes to the trace, and how the call goes on. *)
Lemma retry_loop_attempt k a last (w w' : World) res tr :
  retry_loop url hdrs params (S k) a last w = (res, w', tr) ->
  exists r0 w1 seg tail,
    requests_get url hdrs params w = (r0, w1)
    /\ tr = (EvGet url hdrs params r0 :: seg ++ tail)%list
    /\ Forall quiet seg
    /\ (tail = []
        \/ exists r w2, r0 = Returned r
             /\ retry_loop url hdrs params k (S a) (Some r) w2 = (res, w', tail)).
Proof.
  intros H. cbn [retry_loop] in H. unfold bind at 1, http_get in H.
  destruct (requests_get url hdrs params w) as [[r|e] w1] eqn:Hget.
  2:{ inversion H; subst.
      exists (Raised e), w', [], []. repeat split; auto. }
  exists (Returned r), w1.
  destruct (is_rate_limited r) eqn:Hrl.
  - destruct (truthy (headers_get "X-RateLimit-Reset" (headers r))) as [s|].
    + destruct (py_int s) as [reset|] eqn:Hint.
      * run_ops in H.
        destruct (time_time w1) as [now w2] eqn:Hnow. run_ops in H.
        shown_cases H; try wait_cases H;
          first [ destruct (retry_loop url hdrs params k (S a) (Some r) _)
                    as [[res2 w3] tr2] eqn:Hrec;
                  inversion H; subst;
                  eexists [EvTime now; EvPrint _; EvSleep _], tr2;
                  split; [reflexivity|]; split; [reflexivity|];
                  split; [repeat constructor | right; eauto]
                | inversion H; subst;
                  eexists [EvTime now; EvPrint _], [];
                  split; [reflexivity|]; split; [reflexivity|];
                  split; [repeat constructor | left; reflexivity]
                | inversion H; subst;
                  eexists [EvTime now], [];
                  split; [reflexivity|]; split; [reflexivity|];
                  split; [repeat constructor | left; reflexivity] ].
      * run_ops in H. inversion H; subst.
        exists [], []. repeat split; auto.
    + run_ops in H.
      shown_cases H; try wait_cases H;
        first [ destruct (retry_loop url hdrs params k (S a) (Some r) _)
                  as [[res2 w3] tr2] eqn:Hrec;
                inversion H; subst;
                eexists [EvPrint _; EvSleep _], tr2;
                split; [reflexivity|]; split; [reflexivity|];
                split; [repeat constructor | right; eauto]
              | inversion H; subst;
                eexists [EvPrint _], [];
                split; [reflexivity|]; split; [reflexivity|];
                split; [repeat constructor | left; reflexivity]
              | inversion H; subst;
                exists [], []; repeat split; auto ].
  - destruct (status_code r =? 202).
    + run_ops in H.
      destruct (retry_loop url hdrs params k (S a) (Some r) _)
        as [[res2 w3] tr2] eqn:Hrec.
      inversion H; subst.
      eexists [EvPrint _; EvSleep _], tr2.
      split; [reflexivity|]. split; [reflexivity|].
      split; [repeat constructor|]. right; eauto.
    + destruct (status_code r =? 422).
      * destruct params as [p|]; run_ops in H; inversion H; subst.
        -- eexists [EvPrint _; EvPrint _], [].
           split; [reflexivity|]. split; [reflexivity|].
           split; [repeat constructor|]. left; reflexivity.
        -- exists [], []. repeat split; auto.
      * run_ops in H. inversion H; subst.
        exists [], []. repeat split; auto.
Qed.

Lemma retry_loop_exhausted a last (w : World) :
  retry_loop url hdrs params 0 a last w
  = (match last with Some r => Returned r | None => Raised UnboundLocalError end,
     w, [EvPrint ("    Max retries exceeded for " ++ url)]).
Proof. cbn [retry_loop]. run_ops. destruct last; reflexivity. Qed.

(** The start of an attempt that met a rate limit without a reset time:
    the request and the log line, up to the wait. *)
Lemma retry_loop_backoff_start k a last (w w1 : World) r shown :
  requests_get url hdrs params w = (Returned r, w1) ->
  is_rate_limited r = true ->
  truthy (headers_get "X-RateLimit-Reset" (headers r)) = None ->
  py_str_int (2 ^ Z.of_nat a * 30) = Some shown ->
  retry_loop url hdrs params (S k) a last w
  = let wait_time := 2 ^ Z.of_nat a * 30 in
    let '(res, w', tr) :=
      (sleep wait_time ;; retry_loop url hdrs params k (S a) (Some r)) w1 in
    (res, w',
     EvGet url hdrs params (Returned r)
     :: EvPrint ("    Rate limit hit (attempt " ++ str_of_int (Z.of_nat a + 1)
                 ++ "). Waiting " ++ str_of_int wait_time ++ " seconds...")
     :: tr).
Proof.
  intros Hget Hrl Hnone Hshown. cbn [retry_loop]. unfold bind at 1, http_get.
  rewrite Hget, Hrl, Hnone. cbv zeta.
  rewrite (attempt_number_shown _ _ Hshown), Hshown.
  apply py_str_int_some in Hshown. destruct Hshown as [-> _].
  unfold or_raise, ret. unfold bind at 1. unfold bind at 1.
  unfold bind at 1, print.
  destruct (bind (sleep _) _ w1) as [[res w'] tr]. reflexivity.
Qed.

(** A wait of the backoff with more than 4300 digits ends the call at
    its log line. *)
Lemma retry_loop_backoff_unshown k a last (w w1 : World) r :
  requests_get url hdrs params w = (Returned r, w1) ->
  is_rate_limited r = true ->
  truthy (headers_get "X-RateLimit-Reset" (headers r)) = None ->
  py_str_int (2 ^ Z.of_nat a * 30) = None ->
  retry_loop url hdrs params (S k) a last w
  = (Raised ValueError, w1, [EvGet url hdrs params (Returned r)]).
Proof.
  intros Hget Hrl Hnone Hshown. cbn [retry_loop]. unfold bind at 1, http_get.
  rewrite Hget, Hrl, Hnone. cbv zeta. rewrite Hshown.
  destruct (py_str_int (Z.of_nat a + 1)); reflexivity.
Qed.

Lemma retry_loop_backoff k a last (w w1 : World) r :
  requests_get url hdrs params w = (Returned r, w1) ->
  is_rate_limited r = true ->
  truthy (headers_get "X-RateLimit-Reset" (headers r)) = None ->
  2 ^ Z.of_nat a * 30 <= safe_sleep ->
  retry_loop url hdrs params (S k) a last w
  = let '(res, w', tr) :=
      retry_loop url hdrs params k (S a) (Some r)
                 (time_sleep (2 ^ Z.of_nat a * 30) w1) in
    (res, w',
     EvGet url hdrs params (Returned r)
     :: EvPrint ("    Rate limit hit (attempt " ++ str_of_int (Z.of_nat a + 1)
                 ++ "). Waiting " ++ str_of_int (2 ^ Z.of_nat a * 30)
                 ++ " seconds...")
     :: EvSleep (2 ^ Z.of_nat a * 30) :: tr).
Proof.
  intros Hget Hrl Hnone Hshort.
  pose proof (backoff_wait_nonneg a) as Hpos.
  assert (Hshown : py_str_int (2 ^ Z.of_nat a * 30)
                   = Some (str_of_int (2 ^ Z.of_nat a * 30))).
  { apply py_str_int_shown, max_sleep_shown.
    set (x := 2 ^ Z.of_nat a * 30) in *. unfold max_sleep, safe_sleep in *. lia. }
  rewrite (retry_loop_backoff_start _ _ _ _ _ _ _ Hget Hrl Hnone Hshown).
  cbv zeta. unfold bind.
  rewrite (sleep_short _ _ (conj Hpos Hshort)).
  destruct (retry_loop url hdrs params k (S a) (Some r) _) as [[res w'] tr].
  reflexivity.
Qed.

(** With a [params] dict, a 422 ends the call after its one request. *)
Lemma retry_loop_validation_error k a last (w w1 : World) r p :
  params = Some p ->
  requests_get url hdrs params w = (Returned r, w1) ->
  status_code r = 422 ->
  retry_loop url hdrs params (S k) a last w
  = (Returned r, w1,
     [EvGet url hdrs params (Returned r);
      EvPrint ("    Validation error for query: "
               ++ py_str (match dict_get "q" p with
                          | Some v => v
                          | None => JStr "unknown"
                          end));
      EvPrint ("    Response: " ++ text r)]).
Proof.
  intros Hp Hget H422. cbn [retry_loop]. unfold bind at 1, http_get.
  rewrite Hget. unfold is_rate_limited. rewrite H422, Hp. reflexivity.
Qed.

(** Without one, the log line of the 422 branch raises before the
    response is returned. *)
Lemma retry_loop_validation_error_no_params k a last (w w1 : World) r :
  params = None ->
  requests_get url hdrs params w = (Returned r, w1) ->
  status_code r = 422 ->
  retry_loop url hdrs params (S k) a last w
  = (Raised AttributeError, w1, [EvGet url hdrs params (Returned r)]).
Proof.
  intros Hp Hget H422. cbn [retry_loop]. unfold bind at 1, http_get.
  rewrite Hget. unfold is_rate_limited. rewrite H422, Hp. reflexivity.
Qed.

(** The start of an attempt that met a rate limit with a reset time: the
    request, the clock reading and the log line, up to the wait. *)
Lemma retry_loop_reset_start k a last (w w1 w2 : World) r reset_time reset now shown :
  requests_get url hdrs params w = (Returned r, w1) ->
  is_rate_limited r = true ->
  headers_get "X-RateLimit-Reset" (headers r) = Some reset_time ->
  py_int reset_time = Some reset ->
  time_time w1 = (now, w2) ->
  py_str_int (reset - int_of_float now + 10) = Some shown ->
  retry_loop url hdrs params (S k) a last w
  = let wait_time := reset - int_of_float now + 10 in
    let '(res, w', tr) :=
      (sleep (Z.max wait_time 30) ;;
       retry_loop url hdrs params k (S a) (Some r)) w2 in
    (res, w',
     EvGet url hdrs params (Returned r) :: EvTime now
     :: EvPrint ("    Rate limit hit. Waiting " ++ shown
                 ++ " seconds until reset...")
     :: tr).
Proof.
  intros Hget Hrl Hhdr Hint Hnow Hshown. cbn [retry_loop].
  unfold bind at 1, http_get. rewrite Hget, Hrl, Hhdr.
  unfold truthy. rewrite (py_int_nonempty _ _ Hint), Hint.
  unfold or_raise at 1, ret. unfold bind at 1. unfold bind at 1, get_time.
  rewrite Hnow. cbv zeta. rewrite Hshown.
  unfold or_raise, ret. unfold bind at 1. unfold bind at 1, print.
  destruct (bind (sleep _) _ w2) as [[res w'] tr]. reflexivity.
Qed.

(** A wait until the reset time with more than 4300 digits ends the call
    at its log line. *)
Lemma retry_loop_reset_unshown k a last (w w1 w2 : World) r reset_time reset now :
  requests_get url hdrs params w = (Returned r, w1) ->
  is_rate_limited r = true ->
  headers_get "X-RateLimit-Reset" (headers r) = Some reset_time ->
  py_int reset_time = Some reset ->
  time_time w1 = (now, w2) ->
  py_str_int (reset - int_of_float now + 10) = None ->
  retry_loop url hdrs params (S k) a last w
  = (Raised ValueError, w2, [EvGet url hdrs params (Returned r); EvTime now]).
Proof.
  intros Hget Hrl Hhdr Hint Hnow Hshown. cbn [retry_loop].
  unfold bind at 1, http_get. rewrite Hget, Hrl, Hhdr.
  unfold truthy. rewrite (py_int_nonempty _ _ Hint), Hint.
  unfold or_raise at 1, ret. unfold bind at 1. unfold bind at 1, get_time.
  rewrite Hnow. cbv zeta. rewrite Hshown. reflexivity.
Qed.

(** A reset time within reach: the call waits, and retries in the world
    the wait left. *)
Lemma retry_loop_reset k a last (w w1 w2 : World) r reset_time reset now shown :
  requests_get url hdrs params w = (Returned r, w1) ->
  is_rate_limited r = true ->
  headers_get "X-RateLimit-Reset" (headers r) = Some reset_time ->
  py_int reset_time = Some reset ->
  time_time w1 = (now, w2) ->
  py_str_int (reset - int_of_float now + 10) = Some shown ->
  reset - int_of_float now + 10 <= safe_sleep ->
  retry_loop url hdrs params (S k) a last w
  = let wait_time := reset - int_of_float now + 10 in
    let '(res, w', tr) :=
      retry_loop url hdrs params k (S a) (Some r)
                 (time_sleep (Z.max wait_time 30) w2) in
    (res, w',
     EvGet url hdrs params (Returned r) :: EvTime now
     :: EvPrint ("    Rate limit hit. Waiting " ++ shown
                 ++ " seconds until reset...")
     :: EvSleep (Z.max wait_time 30) :: tr).
Proof.
  intros Hget Hrl Hhdr Hint Hnow Hshown Hshort.
  rewrite (retry_loop_reset_start _ _ _ _ _ _ _ _ _ _ _
             Hget Hrl Hhdr Hint Hnow Hshown).
  cbv zeta. unfold bind, sleep.
  rewrite classify_wait_short by (unfold safe_sleep in *; lia).
  destruct (retry_loop url hdrs params k (S a) (Some r) _) as [[res w'] tr].
  reflexivity.
Qed.


(** C2: when the three responses of a call are 403 rate-limit responses
    without a reset-time header, the call sleeps 30, 60 and 120 seconds
    after attempts 1, 2 and 3, makes no fourth request, and returns the
    third response. *)
Theorem rate_limit_backoff_schedule (w0 w1 w2 w3 : World) r1 r2 r3 :
  is_rate_limited r1 = true ->
  truthy (headers_get "X-RateLimit-Reset" (headers r1)) = None ->
  is_rate_limited r2 = true ->
  truthy (headers_get "X-RateLimit-Reset" (headers r2)) = None ->
  is_rate_limited r3 = true ->
  truthy (headers_get "X-RateLimit-Reset" (headers r3)) = None ->
  requests_get url hdrs params w0 = (Returned r1, w1) ->
  requests_get url hdrs params (time_sleep 30 w1) = (Returned r2, w2) ->
  requests_get url hdrs params (time_sleep 60 w2) = (Returned r3, w3) ->
  rate_limited_get url hdrs params 3 w0
  = (Returned r3, time_sleep 120 w3,
     [EvGet url hdrs params (Returned r1);
      EvPrint "    Rate limit hit (attempt 1). Waiting 30 seconds...";
      EvSleep 30;
      EvGet url hdrs params (Returned r2);
      EvPrint "    Rate limit hit (attempt 2). Waiting 60 seconds...";
      EvSleep 60;
      EvGet url hdrs params (Returned r3);
      EvPrint "    Rate limit hit (attempt 3). Waiting 120 seconds...";
      EvSleep 120;
      EvPrint ("    Max retries exceeded for " ++ url)]).
Proof.
  intros L1 N1 L2 N2 L3 N3 G1 G2 G3. unfold rate_limited_get.
  assert (S1 : 2 ^ Z.of_nat 0 * 30 <= safe_sleep) by (vm_compute; discriminate).
  assert (S2 : 2 ^ Z.of_nat 1 * 30 <= safe_sleep) by (vm_compute; discriminate).
  assert (S3 : 2 ^ Z.of_nat 2 * 30 <= safe_sleep) by (vm_compute; discriminate).
  rewrite (retry_loop_backoff _ _ _ _ _ _ G1 L1 N1 S1).
  change (2 ^ Z.of_nat 0 * 30) with 30.
  rewrite (retry_loop_backoff _ _ _ _ _ _ G2 L2 N2 S2).
  change (2 ^ Z.of_nat 1 * 30) with 60.
  rewrite (retry_loop_backoff _ _ _ _ _ _ G3 L3 N3 S3).
  change (2 ^ Z.of_nat 2 * 30) with 120.
  rewrite retry_loop_exhausted. reflexivity.
Qed.

(** C9: a first response with status 403 whose body does not mention a
    rate limit is returned at once: the trace is the one request, and the
    world is the one that request left. *)
Theorem forbidden_returned_at_once max_retries (w w1 : World) r :
  (0 < max_retries)%nat ->
  requests_get url hdrs params w = (Returned r, w1) ->
  status_code r = 403 ->
  contains "rate limit" (lower (text r)) = false ->
  rate_limited_get url hdrs params max_retries w
  = (Returned r, w1, [EvGet url hdrs params (Returned r)]).
Proof.
  intros Hpos Hget H403 Hbody. unfold rate_limited_get.
  destruct max_retries as [|k]; [lia|].
  apply retry_loop_terminal; auto.
  - unfold is_rate_limited. rewrite Hbody. apply andb_false_r.
  - rewrite H403. discriminate.
  - rewrite H403. discriminate.
Qed.

End FetcherFacts.


Lemma rate_limit_backoff_schedule_witness :
  rate_limited_get commits_url None None 3
    (mkScript [limited_no_reset; limited_no_reset; limited_no_reset; found 1] 0 0)
  = (Returned limited_no_reset,
     mkScript [found 1] (0 + inject_Z 30 + inject_Z 60 + inject_Z 120)%Q
              (0 + 30 * 1000000 + 60 * 1000000 + 120 * 1000000),
     [EvGet commits_url None None (Returned limited_no_reset);
      EvPrint "    Rate limit hit (attempt 1). Waiting 30 seconds...";
      EvSleep 30;
      EvGet commits_url None None (Returned limited_no_reset);
      EvPrint "    Rate limit hit (attempt 2). Waiting 60 seconds...";
      EvSleep 60;
      EvGet commits_url None None (Returned limited_no_reset);
      EvPrint "    Rate limit hit (attempt 3). Waiting 120 seconds...";
      EvSleep 120;
      EvPrint ("    Max retries exceeded for " ++ commits_url)]).
Proof.
  apply (rate_limit_backoff_schedule (env := ScriptEnv) commits_url None None
           (mkScript [limited_no_reset; limited_no_reset; limited_no_reset; found 1] 0 0)
           (mkScript [limited_no_reset; limited_no_reset; found 1] 0 0)
           (mkScript [limited_no_reset; found 1] (0 + inject_Z 30)%Q (0 + 30 * 1000000))
           (mkScript [found 1] (0 + inject_Z 30 + inject_Z 60)%Q
                     (0 + 30 * 1000000 + 60 * 1000000)));
    reflexivity.
Defined.

Lemma forbidden_returned_at_once_witness :
  rate_limited_get commits_url None None 3 (mkScript [forbidden; found 1] 0 0)
  = (Returned forbidden, mkScript [found 1] 0 0,
     [EvGet commits_url None None (Returned forbidden)]).
Proof.
  apply (forbidden_returned_at_once (env := ScriptEnv) commits_url None None 3
           (mkScript [forbidden; found 1] 0 0) (mkScript [found 1] 0 0) forbidden);
    [lia | reflexivity | reflexivity | reflexivity].
Defined.

(** C3: a call that leaves [params] at its default [None] and receives a
    422 makes its one request and then raises [AttributeError] from the
    log line of the 422 branch ([params.get]); the response is not
    returned.  With a [params] dict the call returns the response after
    that one request ([retry_loop_validation_error]). *)
Theorem validation_error_without_params :
  rate_limited_get commits_url None None 3 (mkScript [unprocessable] 0 0)
  = (Raised AttributeError, mkScript [] 0 0,
     [EvGet commits_url None None (Returned unprocessable)]).
Proof. reflexivity. Qed.

(** ** The query builders *)

Lemma requests_of_app (t1 t2 : list event) :
  requests_of (t1 ++ t2) = (requests_of t1 ++ requests_of t2)%list.
Proof. apply flat_map_app. Qed.

Lemma requests_of_quiet (seg : list event) :
  Forall quiet seg -> requests_of seg = [].
Proof.
  induction 1 as [|ev seg Hq _ IH]; [reflexivity|].
  destruct ev; simpl in *; tauto.
Qed.

Section QueryFacts.

Context {World : Type} {env : Env World}.

Lemma retry_loop_requests url hdrs params k : forall a last (w w' : World) res tr,
  retry_loop url hdrs params k a last w = (res, w', tr) ->
  exists n, requests_of tr = repeat (url, hdrs, params) n /\ (k <> O -> n <> O).
Proof.
  induction k as [|k IH]; intros a last w w' res tr Hrun.
  - rewrite retry_loop_exhausted in Hrun. inversion Hrun; subst.
    exists O. split; [reflexivity | congruence].
  - apply retry_loop_attempt in Hrun.
    destruct Hrun as (r0 & w1 & seg & tail & _ & -> & Hquiet & Htail).
    change (EvGet url hdrs params r0 :: seg ++ tail)%list
      with ([EvGet url hdrs params r0] ++ seg ++ tail)%list.
    rewrite !requests_of_app, (requests_of_quiet seg Hquiet). simpl.
    destruct Htail as [->|(r1 & w2 & _ & Hrec)].
    + exists 1%nat. split; [reflexivity | discriminate].
    + destruct (IH _ _ _ _ _ _ Hrec) as (n & -> & _).
      exists (S n). split; [reflexivity | discriminate].
Qed.

(** The builders test a value with [if x:], which holds of a text that
    is given and not empty. *)
Lemma truthy_given (o : option string) : truthy o = given o.
Proof. destruct o as [[|c s]|]; reflexivity. Qed.

Lemma with_date_dated qualifier date_range query :
  with_date qualifier date_range query = dated query qualifier date_range.
Proof. unfold with_date, dated. rewrite truthy_given. reflexivity. Qed.

Lemma fetch_json_requests url hdrs params (w : World) :
  exists n,
    requests_of
      (trace_of (bind (rate_limited_get url hdrs params 3) response_json w))
    = repeat (url, hdrs, params) (S n).
Proof.
  destruct (bind (rate_limited_get url hdrs params 3) response_json w)
    as [[res w'] tr] eqn:Hrun.
  apply bind_trace in Hrun.
  destruct Hrun as (r1 & w1 & t1 & t2 & Hget & -> & Hrest).
  apply retry_loop_requests in Hget. destruct Hget as (n & Hn & Hpos).
  assert (Ht2 : t2 = []).
  { destruct r1 as [a|e]; [|tauto].
    unfold response_json, or_raise in Hrest.
    destruct (json_body a); inversion Hrest; reflexivity. }
  subst t2. unfold trace_of. simpl. rewrite app_nil_r, Hn.
  destruct n as [|n]; [exfalso; apply Hpos; [discriminate | reflexivity]|].
  exists n. reflexivity.
Qed.

(** C6: for an actor with neither handle nor email (each [None] or the
    empty string), every request of each builder is the search, under the
    token's headers and for one result per page, whose query is the
    builder's fixed clause on the identifier [nonexistent], followed by
    the date filter when one applies; and at least one request is made:
    co-authored commits, primary-author commits, and the activity search
    on issues, repositories and code.  No builder sends a query without
    that clause. *)
Theorem sentinel_queries (username email token date_range : option string)
    (w : World) :
  given username = None -> given email = None ->
  (exists n,
     requests_of (trace_of (get_coauthored_commits username token date_range email w))
     = repeat (search_request "https://api.github.com/search/commits" token
                 (dated "co-authored-by:nonexistent" "committer-date" date_range))
              (S n))
  /\ (exists n,
     requests_of (trace_of (get_commits_by_author username token date_range email w))
     = repeat (search_request "https://api.github.com/search/commits" token
                 (dated "author:nonexistent" "committer-date" date_range))
              (S n))
  /\ (exists n,
     requests_of (trace_of (get_activity username token "issues" date_range email w))
     = repeat (search_request "https://api.github.com/search/issues" token
                 (dated "is:issue nonexistent" "created" date_range))
              (S n))
  /\ (exists n,
     requests_of (trace_of (get_activity username token "repositories" date_range email w))
     = repeat (search_request "https://api.github.com/search/repositories" token
                 "nonexistent in:name")
              (S n))
  /\ (exists n,
     requests_of (trace_of (get_activity username token "code" date_range email w))
     = repeat (search_request "https://api.github.com/search/code" token
                 (dquote ++ "nonexistent" ++ dquote))
              (S n)).
Proof.
  intros Hu He. rewrite <- truthy_given in Hu, He.
  unfold get_coauthored_commits, get_commits_by_author, get_activity,
    coauthored_query, author_query, activity_query, clauses.
  rewrite Hu, He. cbn [String.eqb Ascii.eqb Bool.eqb app or_join].
  rewrite !with_date_dated.
  repeat split; apply fetch_json_requests.
Qed.

End QueryFacts.

Lemma sentinel_queries_witness :
  (exists n,
     requests_of (trace_of (get_coauthored_commits (Some EmptyString) (Some "t") (Some "2025-02-24..2025-03-02") None
                   (mkScript [limited_no_reset; found 0] 0 0)))
     = repeat (search_request "https://api.github.com/search/commits" (Some "t")
                 "co-authored-by:nonexistent committer-date:2025-02-24..2025-03-02") (S n))
  /\ (exists n,
     requests_of (trace_of (get_commits_by_author (Some EmptyString) (Some "t") (Some "2025-02-24..2025-03-02") None
                   (mkScript [limited_no_reset; found 0] 0 0)))
     = repeat (search_request "https://api.github.com/search/commits" (Some "t")
                 "author:nonexistent committer-date:2025-02-24..2025-03-02") (S n))
  /\ (exists n,
     requests_of (trace_of (get_activity (Some EmptyString) (Some "t") "issues" (Some "2025-02-24..2025-03-02") None
                   (mkScript [limited_no_reset; found 0] 0 0)))
     = repeat (search_request "https://api.github.com/search/issues" (Some "t")
                 "is:issue nonexistent created:2025-02-24..2025-03-02") (S n))
  /\ (exists n,
     requests_of (trace_of (get_activity (Some EmptyString) (Some "t") "repositories" (Some "2025-02-24..2025-03-02") None
                   (mkScript [limited_no_reset; found 0] 0 0)))
     = repeat (search_request "https://api.github.com/search/repositories" (Some "t")
                 "nonexistent in:name") (S n))
  /\ (exists n,
     requests_of (trace_of (get_activity (Some EmptyString) (Some "t") "code" (Some "2025-02-24..2025-03-02") None
                   (mkScript [limited_no_reset; found 0] 0 0)))
     = repeat (search_request "https://api.github.com/search/code" (Some "t")
                 (dquote ++ "nonexistent" ++ dquote)) (S n)).
Proof.
  exact (sentinel_queries (env := ScriptEnv) (Some EmptyString) None (Some "t")
           (Some "2025-02-24..2025-03-02")
           (mkScript [limited_no_reset; found 0] 0 0) eq_refl eq_refl).
Defined.

(** C6, as to a clause that is guaranteed to match nothing, does not
    hold: the clause on [nonexistent] is a search like any other, and the
    builder returns the count the search service gives for it.  For an
    actor with neither handle nor email and a service that finds three
    commits, the primary-author builder sends [author:nonexistent] and
    returns a [total_count] of 3. *)
Lemma sentinel_count_is_the_services :
  get_commits_by_author None (Some "t") None None (mkScript [found 3] 0 0)
  = (Returned (JDict [("total_count", JInt 3)]), mkScript [] 0 0,
     [EvGet "https://api.github.com/search/commits"
            (Some [("Authorization", "Bearer t");
                   ("Accept", "application/vnd.github.v3+json")])
            (Some [("q", JStr "author:nonexistent"); ("per_page", JInt 1)])
            (Returned (found 3))]).
Proof. reflexivity. Qed.

(** ** The stat aggregator *)

Lemma dict_get_set_same {V} (key : string) (v : V) (d : dict V) :
  dict_get key (dict_set key v d) = Some v.
Proof.
  induction d as [|[k x] d IH]; simpl.
  - rewrite String.eqb_refl. reflexivity.
  - destruct (String.eqb k key) eqn:E; simpl; rewrite E; auto.
Qed.

Lemma dict_get_set_other {V} (key other : string) (v : V) (d : dict V) :
  other <> key -> dict_get key (dict_set other v d) = dict_get key d.
Proof.
  intros Hne. induction d as [|[k x] d IH]; simpl.
  - destruct (String.eqb other key) eqn:E; [|reflexivity].
    apply String.eqb_eq in E. contradiction.
  - destruct (String.eqb k other) eqn:E; simpl.
    + apply String.eqb_eq in E. subst k.
      destruct (String.eqb other key) eqn:E'; [|reflexivity].
      apply String.eqb_eq in E'. contradiction.
    + destruct (String.eqb k key); auto.
Qed.

Section AggregatorFacts.

Context {World : Type} {env : Env World}.

Lemma lift_returned_inv {A} (o : outcome A) (w w' : World) a tr :
  lift o w = (Returned a, w', tr) -> o = Returned a /\ w' = w /\ tr = [].
Proof. destruct o; unfold lift, ret, raise; intros H; inversion H; auto. Qed.

(** A stat that was recorded is an entry of [overall_stats] under its
    name; the other entries are as before. *)
Lemma record_stat_sets stat_name result stats (w w' : World) stats' tr :
  record_stat stat_name result stats w = (Returned stats', w', tr) ->
  exists v, stats' = set_overall stat_name v stats.
Proof.
  unfold record_stat. intros H.
  apply bind_returned_inv in H. destruct H as (has & w1 & t1 & t2 & _ & H & _).
  destruct has.
  - apply bind_returned_inv in H. destruct H as (v & w2 & t3 & t4 & _ & H & _).
    apply bind_returned_inv in H. destruct H as (s & w3 & t5 & t6 & _ & H & _).
    apply bind_returned_inv in H. destruct H as (u & w4 & t7 & t8 & _ & H & _).
    inversion H; subst. eauto.
  - apply bind_returned_inv in H. destruct H as (m & w2 & t3 & t4 & _ & H & _).
    apply bind_returned_inv in H. destruct H as (u & w3 & t5 & t6 & _ & H & _).
    apply bind_returned_inv in H. destruct H as (he & w4 & t7 & t8 & _ & H & _).
    destruct he.
    + apply bind_returned_inv in H. destruct H as (e & w5 & t9 & t10 & _ & H & _).
      apply bind_returned_inv in H. destruct H as (u' & w6 & t11 & t12 & _ & H & _).
      inversion H; subst. eauto.
    + inversion H; subst. eauto.
Qed.

Lemma run_activities_keeps key activities : forall stats (w w' : World) stats' tr,
  ~ In key (map fst activities) ->
  run_activities activities stats w = (Returned stats', w', tr) ->
  dict_get key (overall_stats stats') = dict_get key (overall_stats stats).
Proof.
  induction activities as [|[name get_data] rest IH]; intros stats w w' stats' tr Hnot H.
  - inversion H; subst. reflexivity.
  - cbn [run_activities] in H.
    apply bind_returned_inv in H. destruct H as (result & w1 & t1 & t2 & _ & H & _).
    apply bind_returned_inv in H. destruct H as (stats1 & w2 & t3 & t4 & Hrec & H & _).
    apply record_stat_sets in Hrec. destruct Hrec as (v & ->).
    rewrite (IH _ _ _ _ _ (fun Hin => Hnot (or_intror Hin)) H).
    apply dict_get_set_other. intros ->. apply Hnot. left. reflexivity.
Qed.

Lemma record_stat_count stat_name payload stats (w : World) n :
  dict_get "total_count" payload = Some (JInt n) ->
  Z.abs n < str_limit ->
  record_stat stat_name (JDict payload) stats w
  = (Returned (set_overall stat_name (JInt n) stats), w,
     [EvPrint ("  " ++ stat_name ++ ": " ++ format_comma n)]).
Proof.
  intros Hc Hn. unfold record_stat, py_in, py_getitem, py_format_comma, dict_mem.
  rewrite Hc. apply Z.ltb_lt in Hn. cbn [lift bind ret]. run_ops. rewrite Hn.
  reflexivity.
Qed.

Lemma record_stat_error stat_name payload (w : World) message :
  dict_get "total_count" payload = None ->
  dict_get "message" payload = Some message ->
  exists details, forall stats,
    record_stat stat_name (JDict payload) stats w
    = (Returned (set_overall stat_name JNull stats), w,
       EvPrint ("  " ++ stat_name ++ ": Error - " ++ py_str message) :: details).
Proof.
  intros Hc Hm. unfold record_stat, py_in, py_getitem, py_get, dict_mem.
  rewrite Hc, Hm. destruct (dict_get "errors" payload) as [errors|];
    eexists; intros stats; reflexivity.
Qed.

(** The first activity of a run: once its query has answered [result] and
    the stat is recorded as [v] with the lines [shown], the lines are in
    the trace and the entry stays [v] to the end. *)
Lemma run_activities_first stat_name get_data rest stats
    (w w1 w' : World) result t1 v shown res tr :
  get_data w = (Returned result, w1, t1) ->
  record_stat stat_name result stats w1
    = (Returned (set_overall stat_name v stats), w1, shown) ->
  ~ In stat_name (map fst rest) ->
  run_activities ((stat_name, get_data) :: rest) stats w = (res, w', tr) ->
  (forall ev, In ev shown -> In ev tr)
  /\ forall stats', res = Returned stats' ->
       dict_get stat_name (overall_stats stats') = Some v.
Proof.
  intros Hget Hrec Hnot Hrun. cbn [run_activities] in Hrun.
  rewrite (bind_returned _ _ _ _ _ _ Hget) in Hrun.
  rewrite (bind_returned _ _ _ _ _ _ Hrec) in Hrun.
  destruct (run_activities rest _ w1) as [[res2 w2] tr2] eqn:Hrest.
  inversion Hrun; subst. split.
  - intros ev Hin. apply in_or_app. right. apply in_or_app. left. exact Hin.
  - intros stats' ->.
    rewrite (run_activities_keeps stat_name _ _ _ _ _ _ Hnot Hrest).
    apply dict_get_set_same.
Qed.

Lemma collect_user_stats_first name_shown username token email
    (w w1 w' : World) result t1 v shown res tr :
  get_coauthored_commits username token None email w = (Returned result, w1, t1) ->
  (forall stats, record_stat "commits_coauthored" result stats w1
                 = (Returned (set_overall "commits_coauthored" v stats), w1, shown)) ->
  collect_user_stats name_shown username token email w = (res, w', tr) ->
  (forall ev, In ev shown -> In ev tr)
  /\ forall stats, res = Returned stats ->
       dict_get "commits_coauthored" (overall_stats stats) = Some v.
Proof.
  intros Hget Hrec Hrun. unfold collect_user_stats in Hrun.
  apply bind_trace in Hrun. destruct Hrun as (r0 & w0 & t0 & t2 & Hprint & -> & Hrun).
  unfold print in Hprint. inversion Hprint; subst r0 w0 t0. clear Hprint.
  eapply run_activities_first in Hrun; eauto.
  - destruct Hrun as [Hin Hst]. split; [|exact Hst].
    intros ev Hev. apply in_or_app. right. auto.
  - simpl. intuition discriminate.
Qed.

(** C7: in [collect_user_stats], when the co-authored query returns a
    payload with [total_count] 42, the line [commits_coauthored: 42] is
    printed and a run that returns has 42 under [commits_coauthored]; when
    the payload has no [total_count] and the message [Bad credentials],
    the error line with that message is printed and a run that returns
    has [None] under [commits_coauthored]. *)
Theorem overall_count_or_null name_shown username token email
    (w w1 w' : World) payload t1 res tr :
  get_coauthored_commits username token None email w
    = (Returned (JDict payload), w1, t1) ->
  collect_user_stats name_shown username token email w = (res, w', tr) ->
  (dict_get "total_count" payload = Some (JInt 42) ->
   In (EvPrint "  commits_coauthored: 42") tr
   /\ forall stats, res = Returned stats ->
        dict_get "commits_coauthored" (overall_stats stats) = Some (JInt 42))
  /\ (dict_get "total_count" payload = None ->
      dict_get "message" payload = Some (JStr "Bad credentials") ->
      In (EvPrint "  commits_coauthored: Error - Bad credentials") tr
      /\ forall stats, res = Returned stats ->
           dict_get "commits_coauthored" (overall_stats stats) = Some JNull).
Proof.
  intros Hget Hrun. split.
  - intros Hc.
    destruct (collect_user_stats_first _ _ _ _ _ _ _ _ _ _ _ _ _ Hget
                (fun stats => record_stat_count _ _ stats w1 _ Hc eq_refl) Hrun)
      as [Hin Hst].
    split; [|exact Hst]. apply Hin. left. reflexivity.
  - intros Hc Hm.
    destruct (record_stat_error "commits_coauthored" payload w1 _ Hc Hm)
      as (details & Hrec).
    destruct (collect_user_stats_first _ _ _ _ _ _ _ _ _ _ _ _ _ Hget Hrec Hrun)
      as [Hin Hst].
    split; [|exact Hst]. apply Hin. left. reflexivity.
Qed.

End AggregatorFacts.

Lemma run_parts {A W : Type} (run : outcome A * W * list event) (a : A) :
  fst (fst run) = Returned a -> run = (Returned a, snd (fst run), snd run).
Proof. destruct run as [[r w] t]. simpl. intros ->. reflexivity. Qed.

Lemma run_eta {A W : Type} (run : outcome A * W * list event) :
  run = (fst (fst run), snd (fst run), snd run).
Proof. destruct run as [[r w] t]. reflexivity. Qed.

Lemma overall_count_or_null_witness :
  (In (EvPrint "  commits_coauthored: 42")
      (snd (collect_user_stats "Bot X" (Some "bot-x") (Some "token") None counted_world))
   /\ dict_get "commits_coauthored"
        (overall_stats
           (mkUserStats "Bot X" (Some "bot-x") None
              [("commits_coauthored", JInt 42);
               ("commits_primary_author", JInt 7);
               ("repositories_mentioning", JInt 3)] []))
      = Some (JInt 42))
  /\ (In (EvPrint "  commits_coauthored: Error - Bad credentials")
         (snd (collect_user_stats "Bot X" (Some "bot-x") (Some "token") None refused_world))
      /\ dict_get "commits_coauthored"
           (overall_stats
              (mkUserStats "Bot X" (Some "bot-x") None
                 [("commits_coauthored", JNull);
                  ("commits_primary_author", JInt 7);
                  ("repositories_mentioning", JInt 3)] []))
         = Some JNull).
Proof.
  split.
  - edestruct (fun w1 t1 Hget =>
                 proj1 (overall_count_or_null (env := ScriptEnv)
                          "Bot X" (Some "bot-x") (Some "token") None
                          counted_world w1 _ [("total_count", JInt 42)] t1 _ _
                          Hget (run_eta _)) eq_refl) as [Hin Hst].
    + apply run_parts. vm_compute. reflexivity.
    + split; [exact Hin | apply Hst; vm_compute; reflexivity].
  - edestruct (fun w1 t1 Hget =>
                 proj2 (overall_count_or_null (env := ScriptEnv)
                          "Bot X" (Some "bot-x") (Some "token") None
                          refused_world w1 _ [("message", JStr "Bad credentials")]
                          t1 _ _ Hget (run_eta _)) eq_refl eq_refl) as [Hin Hst].
    + apply run_parts. vm_compute. reflexivity.
    + split; [exact Hin | apply Hst; vm_compute; reflexivity].
Defined.

(** ** Weekly windows *)

(** One turn of the weekly loop leaves fewer whole weeks to go. *)
Lemma weeks_left_decrease (current_date week_start : datetime) :
  (week_start <? current_date) = true ->
  (Z.to_nat ((current_date - (week_start + 7 * us_per_day)) / 604800000000 + 1)
   < Z.to_nat ((current_date - week_start) / 604800000000 + 1))%nat.
Proof.
  intros Hlt. apply Z.ltb_lt in Hlt. unfold us_per_day.
  Z.div_mod_to_equations. lia.
Qed.

Lemma day_of_next (t : datetime) : day_of (t + us_per_day) = day_of t + 1.
Proof.
  unfold day_of, us_per_day. Z.div_mod_to_equations. lia.
Qed.

Lemma day_of_span (s e : datetime) :
  s <= e -> e <= s + 6 * us_per_day -> day_of e - day_of s + 1 <= 7.
Proof.
  unfold day_of, us_per_day. intros. Z.div_mod_to_equations. lia.
Qed.

Lemma windows_from_starts current_date week_start wins :
  windows_from current_date week_start wins ->
  week_start < current_date -> starts_at week_start wins.
Proof.
  intros H Hlt. destruct H as [ws Hge | ws rest _ _].
  - lia.
  - eexists _, _. reflexivity.
Qed.

Lemma windows_from_contiguous current_date week_start wins :
  windows_from current_date week_start wins -> contiguous wins.
Proof.
  induction 1 as [ws Hge | ws rest Hlt Hrest IH]; [exact I|].
  inversion Hrest as [ws' Hge' | ws' rest' Hlt' Hrest']; subst; [exact I|].
  cbn [contiguous]. cbn [contiguous] in IH.
  assert (Hend : Z.min (ws + 6 * us_per_day) current_date = ws + 6 * us_per_day).
  { unfold us_per_day in *. lia. }
  rewrite Hend. repeat split.
  - unfold us_per_day. lia.
  - unfold us_per_day. lia.
  - replace (ws + 7 * us_per_day) with (ws + 6 * us_per_day + us_per_day) by lia.
    apply day_of_next.
  - exact IH.
Qed.

Lemma windows_from_within current_date week_start wins :
  windows_from current_date week_start wins -> Forall (within current_date) wins.
Proof.
  induction 1 as [ws Hge | ws rest Hlt Hrest IH]; constructor; [|exact IH].
  unfold within.
  assert (Hs : ws <= Z.min (ws + 6 * us_per_day) current_date)
    by (unfold us_per_day; lia).
  assert (He : Z.min (ws + 6 * us_per_day) current_date <= ws + 6 * us_per_day)
    by lia.
  repeat split; try lia. apply day_of_span; assumption.
Qed.

Section WeeklyFacts.

Context {World : Type} {env : Env World}.

Lemma weekly_loop_done username token email current_date week_start weekly_data :
  (week_start <? current_date) = false ->
  weekly_loop username token email current_date week_start weekly_data
  = ret weekly_data.
Proof.
  intros H. rewrite weekly_loop_equation_1.
  destruct (inspect (week_start <? current_date)) as [[|] Hb]; [congruence|].
  reflexivity.
Qed.

Lemma weekly_loop_step username token email current_date week_start weekly_data :
  (week_start <? current_date) = true ->
  weekly_loop username token email current_date week_start weekly_data
  = (week_data <- collect_week username token email current_date week_start ;;
     or_raise OverflowError (add_days week_start 7) ;;
     sleep 1 ;;
     weekly_loop username token email current_date
                 (week_start + 7 * us_per_day)
                 (weekly_data ++ [week_data])%list).
Proof.
  intros H. rewrite weekly_loop_equation_1.
  destruct (inspect (week_start <? current_date)) as [[|] Hb]; [|congruence].
  reflexivity.
Qed.

Lemma add_days_some (t : datetime) (k : Z) (r : datetime) :
  add_days t k = Some r -> r = t + k * us_per_day.
Proof.
  unfold add_days. destruct (_ && _); intros H; inversion H; reflexivity.
Qed.

Lemma or_raise_returned_inv {A} e (o : option A) (w w' : World) a tr :
  or_raise e o w = (Returned a, w', tr) -> o = Some a /\ w' = w /\ tr = [].
Proof. destruct o; unfold or_raise, ret, raise; intros H; inversion H; auto. Qed.

(** The record of one window carries the renderings of its start and of
    its end, the earlier of six days on and [current_date]. *)
Lemma collect_week_shows username token email current_date week_start
    (w w' : World) week_data tr :
  collect_week username token email current_date week_start w
    = (Returned week_data, w', tr) ->
  shows (week_start, Z.min (week_start + 6 * us_per_day) current_date) week_data.
Proof.
  unfold collect_week. intros H.
  apply bind_returned_inv in H. destruct H as (plus6 & w1 & t1 & t2 & H6 & H & _).
  apply or_raise_returned_inv in H6. destruct H6 as (H6 & _ & _).
  apply add_days_some in H6. subst plus6. cbv zeta in H.
  apply bind_returned_inv in H. destruct H as (cr & w2 & t3 & t4 & _ & H & _).
  apply bind_returned_inv in H. destruct H as (cc & w3 & t5 & t6 & _ & H & _).
  apply bind_returned_inv in H. destruct H as (pr & w4 & t7 & t8 & _ & H & _).
  apply bind_returned_inv in H. destruct H as (pc & w5 & t9 & t10 & _ & H & _).
  apply bind_returned_inv in H. destruct H as (u & w6 & t11 & t12 & _ & H & _).
  inversion H; subst. split; reflexivity.
Qed.

Lemma weekly_loop_windows username token email current_date (n : nat) :
  forall week_start weekly_data (w w' : World) out tr,
    (Z.to_nat ((current_date - week_start) / 604800000000 + 1) <= n)%nat ->
    weekly_loop username token email current_date week_start weekly_data w
      = (Returned out, w', tr) ->
    exists wins new,
      out = (weekly_data ++ new)%list
      /\ windows_from current_date week_start wins
      /\ Forall2 shows wins new.
Proof.
  induction n as [|n IH]; intros ws data w w' out tr Hn Hrun;
    destruct (ws <? current_date) eqn:Hlt.
  - pose proof (weeks_left_decrease _ _ Hlt). lia.
  - rewrite (weekly_loop_done _ _ _ _ _ _ Hlt) in Hrun. inversion Hrun; subst.
    exists [], []. rewrite app_nil_r. repeat split; [|constructor].
    constructor. apply Z.ltb_ge. exact Hlt.
  - rewrite (weekly_loop_step _ _ _ _ _ _ Hlt) in Hrun.
    apply bind_returned_inv in Hrun.
    destruct Hrun as (wd & w1 & t1 & t2 & Hweek & Hrun & _).
    apply bind_returned_inv in Hrun.
    destruct Hrun as (next & w2 & t3 & t4 & _ & Hrun & _).
    apply bind_returned_inv in Hrun.
    destruct Hrun as (u & w3 & t5 & t6 & _ & Hrun & _).
    pose proof (weeks_left_decrease _ _ Hlt) as Hdec.
    apply IH in Hrun; [|lia].
    destruct Hrun as (wins & new & -> & Hwins & Hshow).
    exists ((ws, Z.min (ws + 6 * us_per_day) current_date) :: wins), (wd :: new).
    rewrite <- app_assoc. split; [reflexivity|]. split.
    + constructor; [apply Z.ltb_lt; exact Hlt | exact Hwins].
    + constructor; [|exact Hshow]. eapply collect_week_shows; eauto.
  - rewrite (weekly_loop_done _ _ _ _ _ _ Hlt) in Hrun. inversion Hrun; subst.
    exists [], []. rewrite app_nil_r. repeat split; [|constructor].
    constructor. apply Z.ltb_ge. exact Hlt.
Qed.

Lemma collect_weekly_growth_windows username token launch_date email
    (w w1 w' : World) now data tr :
  datetime_now w = (now, w1) ->
  collect_weekly_growth username token launch_date email w = (Returned data, w', tr) ->
  exists wins, windows_from now launch_date wins /\ Forall2 shows wins data.
Proof.
  intros Hnow Hrun. unfold collect_weekly_growth in Hrun.
  apply bind_returned_inv in Hrun.
  destruct Hrun as (u & w2 & t1 & t2 & Hp & Hrun & _).
  unfold print in Hp. inversion Hp; subst w2. clear Hp.
  apply bind_returned_inv in Hrun.
  destruct Hrun as (cur & w3 & t3 & t4 & Hcur & Hrun & _).
  unfold get_now in Hcur. rewrite Hnow in Hcur. inversion Hcur; subst cur w3.
  eapply weekly_loop_windows in Hrun; [|apply Nat.le_refl].
  destruct Hrun as (wins & new & -> & Hwins & Hshow).
  exists wins. auto.
Qed.

(** C4: for a launch date before the current time read by
    [collect_weekly_growth], the records of a run that returns show, in
    order, windows of which the first starts at the launch date, each
    starts the day after the one before it ends (so none overlap), each
    ends within six days of its start (at most seven calendar days) and
    each, the last included, ends at or before the current time. *)
Theorem weekly_windows_invariant username token launch_date email
    (w w1 w' : World) now data tr :
  datetime_now w = (now, w1) ->
  launch_date < now ->
  collect_weekly_growth username token launch_date email w = (Returned data, w', tr) ->
  exists wins,
    Forall2 shows wins data
    /\ starts_at launch_date wins
    /\ contiguous wins
    /\ Forall (within now) wins.
Proof.
  intros Hnow Hlt Hrun.
  destruct (collect_weekly_growth_windows _ _ _ _ _ _ _ _ _ _ Hnow Hrun)
    as (wins & Hwins & Hshow).
  exists wins. split; [exact Hshow|]. split; [|split].
  - eapply windows_from_starts; eauto.
  - eapply windows_from_contiguous; eauto.
  - eapply windows_from_within; eauto.
Qed.

(** C10: for a launch date at or after the current time,
    [collect_weekly_growth] prints its heading, reads the clock, makes no
    request and returns the empty list. *)
Theorem no_windows_before_launch username token launch_date email
    (w w1 : World) now :
  datetime_now w = (now, w1) ->
  now <= launch_date ->
  collect_weekly_growth username token launch_date email w
  = (Returned [], w1, [EvPrint "  Weekly commits breakdown:"; EvNow now]).
Proof.
  intros Hnow Hle. unfold collect_weekly_growth.
  unfold bind at 1, print. unfold bind at 1, get_now. rewrite Hnow.
  rewrite weekly_loop_done by (apply Z.ltb_ge; exact Hle).
  reflexivity.
Qed.

End WeeklyFacts.

Lemma strftime_Ymd_day (t : datetime) (d : Z) :
  d * us_per_day <= t < (d + 1) * us_per_day ->
  strftime_Ymd t = strftime_Ymd (d * us_per_day).
Proof.
  intros H. unfold strftime_Ymd, date_of.
  replace (day_of t) with (day_of (d * us_per_day)); [reflexivity|].
  unfold day_of, us_per_day in *. Z.div_mod_to_equations. lia.
Qed.

Section BotX.

Context {World : Type} {env : Env World}.

(** C5, for a current time after midnight: for the actor [bot-x]
    without email, launched on 2025-02-24, and a current time on
    2025-03-10 later than 00:00:00, a run
    that returns has exactly the three windows 02-24..03-02, 03-03..03-09
    and 03-10..03-10. *)
Theorem three_windows_during_the_day token (w w1 w' : World) now data tr :
  datetime_now w = (now, w1) ->
  mk_datetime 2025 3 10 0 0 0 < now < mk_datetime 2025 3 11 0 0 0 ->
  collect_weekly_growth (Some "bot-x") token (mk_datetime 2025 2 24 0 0 0) None w
    = (Returned data, w', tr) ->
  map window_dates data
  = [("2025-02-24", "2025-03-02");
     ("2025-03-03", "2025-03-09");
     ("2025-03-10", "2025-03-10")].
Proof.
  intros Hnow Hday Hrun.
  destruct (collect_weekly_growth_windows _ _ _ _ _ _ _ _ _ _ Hnow Hrun)
    as (wins & Hwins & Hshow).
  change (mk_datetime 2025 2 24 0 0 0) with 63875952000000000 in Hwins.
  change (mk_datetime 2025 3 10 0 0 0) with 63877161600000000 in Hday.
  change (mk_datetime 2025 3 11 0 0 0) with 63877248000000000 in Hday.
  clear Hrun Hnow.
  inversion Hwins as [? Hge | ? rest1 _ H1]; subst; [exfalso; unfold us_per_day in *; lia|].
  inversion H1 as [? Hge | ? rest2 _ H2]; subst; [exfalso; unfold us_per_day in *; lia|].
  inversion H2 as [? Hge | ? rest3 _ H3]; subst; [exfalso; unfold us_per_day in *; lia|].
  inversion H3 as [? Hge | ? rest4 Hlt _]; subst; [|exfalso; unfold us_per_day in *; lia].
  unfold us_per_day in *.
  rewrite !Z.min_l in Hshow by lia.
  rewrite Z.min_r in Hshow by lia.
  inversion Hshow as [|? d1 ? l1 [S1 E1] Hshow1]; subst.
  inversion Hshow1 as [|? d2 ? l2 [S2 E2] Hshow2]; subst.
  inversion Hshow2 as [|? d3 ? l3 [S3 E3] Hshow3]; subst.
  inversion Hshow3; subst.
  cbn [map window_dates fst snd] in *. unfold window_dates.
  rewrite S1, E1, S2, E2, S3, E3.
  rewrite (strftime_Ymd_day now 739319)
    by (unfold us_per_day; lia).
  reflexivity.
Qed.
End BotX.

Lemma weekly_windows_invariant_witness :
  exists wins,
    Forall2 shows wins
      [week "Feb 24-02" "2025-02-24" "2025-03-02";
       week "Mar 03-09" "2025-03-03" "2025-03-09";
       week "Mar 10-10" "2025-03-10" "2025-03-10"]
    /\ starts_at launch_day wins
    /\ contiguous wins
    /\ Forall (within (mk_datetime 2025 3 10 12 0 0)) wins.
Proof.
  eapply (weekly_windows_invariant (env := ScriptEnv) (Some "bot-x") (Some "token")
            launch_day None noon_world noon_world).
  - reflexivity.
  - reflexivity.
  - apply run_parts. vm_compute. reflexivity.
Defined.

Lemma three_windows_during_the_day_witness :
  map window_dates
      [week "Feb 24-02" "2025-02-24" "2025-03-02";
       week "Mar 03-09" "2025-03-03" "2025-03-09";
       week "Mar 10-10" "2025-03-10" "2025-03-10"]
  = [("2025-02-24", "2025-03-02");
     ("2025-03-03", "2025-03-09");
     ("2025-03-10", "2025-03-10")].
Proof.
  eapply (three_windows_during_the_day (env := ScriptEnv) (Some "token")
            noon_world noon_world).
  - reflexivity.
  - split; reflexivity.
  - apply run_parts. vm_compute. reflexivity.
Defined.

(** C5, for a current time of 2025-03-10 at midnight, does not hold:
    the third window's start is then not before the current time, and the
    run returns two windows. *)
Lemma two_windows_at_midnight :
  fst (fst (collect_weekly_growth (Some "bot-x") (Some "token") launch_day None
              midnight_world))
  = Returned [week "Feb 24-02" "2025-02-24" "2025-03-02";
              week "Mar 03-09" "2025-03-03" "2025-03-09"]
  /\ forall data,
       fst (fst (collect_weekly_growth (Some "bot-x") (Some "token") launch_day None
                   midnight_world)) = Returned data ->
       map window_dates data
       <> [("2025-02-24", "2025-03-02");
           ("2025-03-03", "2025-03-09");
           ("2025-03-10", "2025-03-10")].
Proof.
  assert (H : fst (fst (collect_weekly_growth (Some "bot-x") (Some "token")
                          launch_day None midnight_world))
              = Returned [week "Feb 24-02" "2025-02-24" "2025-03-02";
                          week "Mar 03-09" "2025-03-03" "2025-03-09"])
    by (vm_compute; reflexivity).
  split; [exact H|].
  intros data Hd. rewrite H in Hd. inversion Hd; subst. discriminate.
Qed.

Lemma no_windows_before_launch_witness :
  collect_weekly_growth (Some "bot-x") (Some "token") launch_day None
    (mkScript [found 5] 0 launch_day)
  = (Returned [], mkScript [found 5] 0 launch_day,
     [EvPrint "  Weekly commits breakdown:"; EvNow launch_day]).
Proof.
  apply (no_windows_before_launch (env := ScriptEnv) (Some "bot-x") (Some "token")
           launch_day None (mkScript [found 5] 0 launch_day)
           (mkScript [found 5] 0 launch_day) launch_day).
  - reflexivity.
  - apply Z.le_refl.
Defined.

(** ** The persisted format *)

(** ** Strings *)

Lemma append_assoc (a b c : string) : (a ++ b) ++ c = a ++ (b ++ c).
Proof. induction a as [|x a IH]; simpl; [reflexivity | rewrite IH; reflexivity]. Qed.

Lemma append_nil_r (a : string) : a ++ EmptyString = a.
Proof. induction a as [|x a IH]; simpl; [reflexivity | rewrite IH; reflexivity]. Qed.

Lemma length_append (a b : string) :
  String.length (a ++ b) = (String.length a + String.length b)%nat.
Proof. induction a as [|x a IH]; simpl; [reflexivity | rewrite IH; reflexivity]. Qed.

(** ** Decimal numerals *)

Definition digit_char (c : ascii) : Prop := is_digit c = true.

Lemma nzhead_not_zero (u v : Decimal.uint) : Decimal.nzhead u <> Decimal.D0 v.
Proof. induction u; simpl; try discriminate. exact IHu. Qed.

Lemma to_uint_unorm (p : positive) : Decimal.unorm (Pos.to_uint p) = Pos.to_uint p.
Proof.
  rewrite <- (DecimalPos.Unsigned.to_of (Pos.to_uint p)).
  rewrite DecimalPos.Unsigned.of_to. reflexivity.
Qed.

(** The decimal digits of a positive number begin with a nonzero digit. *)
Lemma to_uint_head (p : positive) :
  exists c tail,
    NilEmpty.string_of_uint (Pos.to_uint p) = String c tail
    /\ is_digit c = true /\ Ascii.eqb c "0" = false.
Proof.
  pose proof (to_uint_unorm p) as Hn.
  pose proof (Unsigned.to_uint_nonnil p) as Hnil.
  unfold Decimal.unorm in Hn.
  destruct (Pos.to_uint p) as [|u|u|u|u|u|u|u|u|u|u] eqn:E;
    try (eexists _, _; repeat split; reflexivity).
  - contradiction.
  - exfalso. simpl in Hn.
    destruct (Decimal.nzhead u) eqn:Ez; try discriminate.
    + inversion Hn; subst. apply (Unsigned.to_uint_nonzero p). exact E.
    + exact (nzhead_not_zero u _ Ez).
Qed.

Lemma take_digits_uint (d : Decimal.uint) (rest : string) :
  match rest with String c _ => is_digit c = false | EmptyString => True end ->
  take_digits (NilEmpty.string_of_uint d ++ rest)
  = (NilEmpty.string_of_uint d, rest).
Proof.
  intros Hrest. induction d; simpl; try (rewrite IHd; reflexivity).
  destruct rest as [|c r]; simpl; [reflexivity | rewrite Hrest; reflexivity].
Qed.

Lemma ends_number_digit (rest : string) :
  ends_number rest = true ->
  match rest with String c _ => is_digit c = false | EmptyString => True end.
Proof.
  destruct rest as [|c r]; simpl; [trivial|].
  intros H. apply andb_prop in H. destruct H as [H _].
  apply negb_true_iff in H. exact H.
Qed.

Lemma ends_number_fraction (rest : string) :
  ends_number rest = true -> starts_fraction rest = false.
Proof.
  destruct rest as [|c r]; simpl; [trivial|].
  intros H. apply andb_prop in H. destruct H as [_ H].
  apply negb_true_iff in H. exact H.
Qed.

Lemma take_integer_positive (p : positive) (rest : string) :
  ends_number rest = true ->
  take_integer (NilEmpty.string_of_uint (Pos.to_uint p) ++ rest)
  = Some (NilEmpty.string_of_uint (Pos.to_uint p), rest).
Proof.
  intros Hrest.
  pose proof (take_digits_uint (Pos.to_uint p) rest (ends_number_digit _ Hrest)) as Ht.
  destruct (to_uint_head p) as (c & tail & E & Hd & Hz).
  rewrite E in *. simpl. simpl in Ht. rewrite Hz, Hd. rewrite Hd in Ht.
  rewrite Ht. reflexivity.
Qed.

Lemma string_of_uint_positive (p : positive) :
  NilZero.string_of_uint (Pos.to_uint p) = NilEmpty.string_of_uint (Pos.to_uint p).
Proof.
  pose proof (Unsigned.to_uint_nonnil p).
  destruct (Pos.to_uint p); [contradiction | reflexivity ..].
Qed.

Lemma int_of_string_str_of_int (n : Z) :
  NilZero.int_of_string (str_of_int n) = Some (Z.to_int n).
Proof.
  unfold str_of_int. apply NilZero.isi.
  - destruct n; simpl; try discriminate.
    intros H. inversion H. eapply Unsigned.to_uint_nonnil; eauto.
  - destruct n; simpl; try discriminate.
    intros H. inversion H. eapply Unsigned.to_uint_nonnil; eauto.
Qed.

(** A printed integer reads back as itself. *)
Lemma scan_number_str_of_int (n : Z) (rest : string) :
  ends_number rest = true ->
  scan_number (str_of_int n ++ rest) = Some (n, rest).
Proof.
  intros Hrest. pose proof (int_of_string_str_of_int n) as Hconv.
  pose proof (ends_number_fraction _ Hrest) as Hfrac.
  unfold scan_number, str_of_int in *.
  destruct n as [|p|p]; cbn [Z.to_int NilZero.string_of_int] in *.
  - simpl. rewrite Hfrac. reflexivity.
  - rewrite string_of_uint_positive in *.
    destruct (to_uint_head p) as (c & tail & E & Hd & Hz).
    assert (Hminus : Ascii.eqb c "-" = false).
    { destruct (Ascii.eqb_spec c "-"); [subst c; discriminate | reflexivity]. }
    pose proof (take_integer_positive p rest Hrest) as Hti.
    rewrite E in *. cbn [String.append] in *. rewrite Hminus.
    rewrite Hti, Hfrac. cbn [String.append]. rewrite Hconv. simpl.
    f_equal. f_equal. apply (of_to (Z.pos p)).
  - rewrite string_of_uint_positive in *.
    cbn [String.append]. cbn [Ascii.eqb Bool.eqb].
    rewrite (take_integer_positive p rest Hrest), Hfrac.
    cbn [String.append]. rewrite Hconv. simpl. f_equal. f_equal. apply (of_to (Z.neg p)).
Qed.

(** The first character of a printed integer. *)
Lemma str_of_int_head (n : Z) :
  exists c tail, str_of_int n = String c tail
                 /\ (is_digit c = true \/ c = "-"%char).
Proof.
  unfold str_of_int. destruct n as [|p|p]; cbn [Z.to_int NilZero.string_of_int].
  - eexists _, _. split; [reflexivity | left; reflexivity].
  - rewrite string_of_uint_positive.
    destruct (to_uint_head p) as (c & tail & E & Hd & _).
    exists c, tail. auto.
  - eexists _, _. split; [reflexivity | right; reflexivity].
Qed.

(** ** String literals *)

Lemma scan_escape_char (c : ascii) (tail : string) :
  scan_string (json_escape_char c ++ tail) = consed c (scan_string tail).
Proof.
  destruct c as [[|] [|] [|] [|] [|] [|] [|] [|]]; reflexivity.
Qed.

Lemma scan_string_escape (s rest : string) :
  scan_string (json_escape s ++ String quote_mark rest) = Some (s, rest).
Proof.
  induction s as [|c s IH]; [reflexivity|].
  cbn [json_escape]. rewrite append_assoc, scan_escape_char, IH. reflexivity.
Qed.

(** ** White space and first characters *)

Lemma skip_ws_spaces (k : nat) (s : string) : skip_ws (spaces k ++ s) = skip_ws s.
Proof. induction k as [|k IH]; [reflexivity | exact IH]. Qed.

Lemma skip_ws_newline_indent (level : nat) (s : string) :
  skip_ws (newline_indent level ++ s) = skip_ws s.
Proof. unfold newline_indent. cbn [String.append]. apply skip_ws_spaces. Qed.

Lemma skip_ws_head (c : ascii) (t : string) :
  is_ws c = false -> skip_ws (String c t) = String c t.
Proof. intros H. simpl. rewrite H. reflexivity. Qed.

Lemma opens_value_plain (c : ascii) :
  opens_value c = true ->
  is_ws c = false /\ Ascii.eqb c "]" = false /\ Ascii.eqb c "}" = false
  /\ Ascii.eqb c "," = false.
Proof.
  destruct c as [[|] [|] [|] [|] [|] [|] [|] [|]]; intros H;
    try discriminate H; repeat split; reflexivity.
Qed.

Lemma encode_string_head (s : string) :
  encode_string s = String quote_mark (json_escape s ++ String quote_mark EmptyString).
Proof. reflexivity. Qed.

(** The text of a value begins with a character that opens one. *)
Lemma encode_head (level : nat) (v : json) :
  exists c t, encode level v = String c t /\ opens_value c = true.
Proof.
  destruct v as [|[|]|n|s|items|entries]; cbn [encode];
    try (eexists _, _; split; reflexivity).
  - destruct (str_of_int_head n) as (c & t & E & Hc). rewrite E.
    exists c, t. split; [reflexivity|].
    destruct Hc as [Hd| ->]; [|reflexivity].
    unfold opens_value. rewrite Hd. reflexivity.
  - destruct items; eexists _, _; split; reflexivity.
  - destruct entries; eexists _, _; split; reflexivity.
Qed.

Lemma skip_ws_encode (level : nat) (v : json) (rest : string) :
  skip_ws (encode level v ++ rest) = encode level v ++ rest.
Proof.
  destruct (encode_head level v) as (c & t & E & Hc). rewrite E.
  apply skip_ws_head. apply (opens_value_plain c Hc).
Qed.

Lemma after_char_encode (level : nat) (v : json) (rest : string) (c : ascii) :
  c = "]"%char \/ c = "}"%char \/ c = ","%char ->
  after_char c (encode level v ++ rest) = None.
Proof.
  intros Hc. destruct (encode_head level v) as (x & t & E & Hx). rewrite E.
  destruct (opens_value_plain x Hx) as (_ & H1 & H2 & H3).
  cbn [String.append after_char].
  destruct Hc as [-> | [-> | ->]]; rewrite ?H1, ?H2, ?H3; reflexivity.
Qed.

(** ** Dicts with distinct keys *)

Lemma dict_set_fresh (k : string) (v : json) (d : dict json) :
  existsb (String.eqb k) (map fst d) = false ->
  dict_set k v d = (d ++ [(k, v)])%list.
Proof.
  induction d as [|[k' v'] d IH]; simpl; [reflexivity|].
  intros H. apply orb_false_iff in H. destruct H as [Hk Hd].
  rewrite String.eqb_sym in Hk. rewrite Hk, (IH Hd). reflexivity.
Qed.

Lemma existsb_app_false (k : string) (l1 l2 : list string) :
  existsb (String.eqb k) l1 = false -> existsb (String.eqb k) l2 = false ->
  existsb (String.eqb k) (l1 ++ l2) = false.
Proof. intros H1 H2. rewrite existsb_app, H1, H2. reflexivity. Qed.

Lemma fold_dict_set_distinct (pairs : list (string * json)) : forall acc,
  distinct (map fst acc ++ map fst pairs) = true ->
  fold_left (fun d kv => dict_set (fst kv) (snd kv) d) pairs acc
  = (acc ++ pairs)%list.
Proof.
  induction pairs as [|[k v] pairs IH]; intros acc Hd; simpl.
  - rewrite List.app_nil_r. reflexivity.
  - assert (Hfresh : existsb (String.eqb k) (map fst acc) = false).
    { clear IH. induction acc as [|[k' v'] acc IHa]; [reflexivity|].
      simpl in Hd. apply andb_prop in Hd. destruct Hd as [Hk Hrest].
      simpl. rewrite (IHa Hrest), orb_false_r.
      apply negb_true_iff in Hk. rewrite existsb_app in Hk.
      apply orb_false_iff in Hk. destruct Hk as [_ Hk]. simpl in Hk.
      apply orb_false_iff in Hk. destruct Hk as [Hk _].
      rewrite String.eqb_sym. exact Hk. }
    rewrite (dict_set_fresh k v acc Hfresh).
    rewrite IH.
    + rewrite <- List.app_assoc. reflexivity.
    + rewrite map_app. simpl. rewrite <- List.app_assoc. exact Hd.
Qed.

Lemma dict_of_pairs_distinct (pairs : list (string * json)) :
  distinct (map fst pairs) = true -> dict_of_pairs pairs = pairs.
Proof. intros H. unfold dict_of_pairs. apply fold_dict_set_distinct. exact H. Qed.

(** ** Reading back what was written *)

Lemma parse_value_string (fuel : nat) (rest : string) :
  parse_value (S fuel) (String quote_mark rest)
  = match scan_string rest with
    | Some (text, r) => Some (JStr text, r)
    | None => None
    end.
Proof. reflexivity. Qed.

Lemma parse_value_list (fuel : nat) (rest : string) :
  parse_value (S fuel) (String "[" rest)
  = match after_char "]" (skip_ws rest) with
    | Some r => Some (JList [], r)
    | None =>
        match parse_items fuel (skip_ws rest) with
        | Some (items, r) => Some (JList items, r)
        | None => None
        end
    end.
Proof. reflexivity. Qed.

Lemma parse_value_dict (fuel : nat) (rest : string) :
  parse_value (S fuel) (String "{" rest)
  = match after_char "}" (skip_ws rest) with
    | Some r => Some (JDict [], r)
    | None =>
        match parse_members fuel (skip_ws rest) with
        | Some (pairs, r) => Some (JDict (dict_of_pairs pairs), r)
        | None => None
        end
    end.
Proof. reflexivity. Qed.

Lemma parse_value_number (fuel : nat) (c : ascii) (t : string) :
  is_digit c = true \/ c = "-"%char ->
  parse_value (S fuel) (String c t)
  = match scan_number (String c t) with
    | Some (n, r) => Some (JInt n, r)
    | None => None
    end.
Proof.
  intros [H | ->]; [|reflexivity].
  destruct c as [[|] [|] [|] [|] [|] [|] [|] [|]]; try discriminate H; reflexivity.
Qed.

Lemma parse_items_step (fuel : nat) (s : string) :
  parse_items (S fuel) s
  = match parse_value fuel s with
    | Some (v, r) =>
        match after_char "]" (skip_ws r) with
        | Some r' => Some ([v], r')
        | None =>
            match after_char "," (skip_ws r) with
            | Some r' =>
                match parse_items fuel (skip_ws r') with
                | Some (vs, r'') => Some (v :: vs, r'')
                | None => None
                end
            | None => None
            end
        end
    | None => None
    end.
Proof. reflexivity. Qed.

Lemma parse_members_step (fuel : nat) (r0 : string) :
  parse_members (S fuel) (String quote_mark r0)
  = match scan_string r0 with
    | Some (key, r1) =>
        match after_char ":" (skip_ws r1) with
        | Some r2 =>
            match parse_value fuel (skip_ws r2) with
            | Some (v, r3) =>
                match after_char "}" (skip_ws r3) with
                | Some r5 => Some ([(key, v)], r5)
                | None =>
                    match after_char "," (skip_ws r3) with
                    | Some r5 =>
                        match parse_members fuel (skip_ws r5) with
                        | Some (ps, r6) => Some ((key, v) :: ps, r6)
                        | None => None
                        end
                    | None => None
                    end
                end
            | None => None
            end
        | None => None
        end
    | None => None
    end.
Proof. reflexivity. Qed.

Lemma after_char_same (c : ascii) (r : string) : after_char c (String c r) = Some r.
Proof. cbn [after_char]. rewrite Ascii.eqb_refl. reflexivity. Qed.

Lemma after_char_diff (c x : ascii) (r : string) :
  Ascii.eqb x c = false -> after_char c (String x r) = None.
Proof. intros H. cbn [after_char]. rewrite H. reflexivity. Qed.

Lemma skip_ws_space (s : string) : skip_ws (String " " s) = skip_ws s.
Proof. reflexivity. Qed.

Lemma ends_number_newline (level : nat) (s : string) :
  ends_number (newline_indent level ++ s) = true.
Proof. reflexivity. Qed.

Lemma ends_number_comma (s : string) : ends_number (String "," s) = true.
Proof. reflexivity. Qed.

Lemma item_separator_append (level : nat) (s : string) :
  item_separator level ++ s = String "," (newline_indent level ++ s).
Proof. reflexivity. Qed.

(** The text of a nonempty sequence: its first item, then either the end
    or a separator and the other items. *)
Lemma join_map_cons {A} (sep : string) (f : A -> string) (x : A) (xs : list A)
    (tail : string) :
  join sep (map f (x :: xs)) ++ tail
  = f x ++ match xs with
           | [] => tail
           | _ => sep ++ join sep (map f xs) ++ tail
           end.
Proof.
  destruct xs as [|y ys]; [reflexivity|].
  cbn [map]. change (join sep (f x :: f y :: map f ys))
    with (f x ++ sep ++ join sep (f y :: map f ys)).
  rewrite !append_assoc. reflexivity.
Qed.

Lemma encode_entry_append (enc : json -> string) (k : string) (x : json)
    (tail : string) :
  encode_entry enc (k, x) ++ tail
  = String quote_mark
      (json_escape k ++ String quote_mark (String ":" (String " " (enc x ++ tail)))).
Proof.
  unfold encode_entry, encode_string. cbn [String.append].
  rewrite !append_assoc. reflexivity.
Qed.

Lemma skip_ws_items (level : nat) (x : json) (xs : list json) (tail : string) :
  skip_ws (join (item_separator level) (map (encode level) (x :: xs)) ++ tail)
  = join (item_separator level) (map (encode level) (x :: xs)) ++ tail.
Proof. rewrite join_map_cons. apply skip_ws_encode. Qed.

Lemma entries_head (level : nat) (e : string * json) (es : list (string * json))
    (tail : string) :
  exists t,
    join (item_separator level) (map (encode_entry (encode level)) (e :: es)) ++ tail
    = String quote_mark t.
Proof.
  rewrite join_map_cons. destruct e as [k x].
  rewrite encode_entry_append. eexists. reflexivity.
Qed.

Section Step.

Variable n : nat.

Hypothesis IH : forall v, (size v <= n)%nat -> unique_keys v = true ->
  forall level fuel rest, (size v <= fuel)%nat -> ends_number rest = true ->
  parse_value fuel (encode level v ++ rest) = Some (v, rest).

Lemma parse_items_encode (level : nat) (rest : string) :
  forall xs x fuel,
    (total_size (x :: xs) <= n)%nat ->
    forallb unique_keys (x :: xs) = true ->
    (total_size (x :: xs) <= fuel)%nat ->
    parse_items fuel
      (join (item_separator (S level)) (map (encode (S level)) (x :: xs))
       ++ newline_indent level ++ String "]" rest)
    = Some (x :: xs, rest).
Proof.
  induction xs as [|y ys IHxs]; intros x fuel Hn Hu Hf;
    unfold total_size in *; cbn [map list_sum fold_right] in Hn, Hf;
    cbn [forallb] in Hu; apply andb_prop in Hu; destruct Hu as [Hux Hu];
    (destruct fuel as [|fuel]; [lia|]);
    rewrite parse_items_step, join_map_cons.
  - rewrite IH by (try assumption; try lia; apply ends_number_newline).
    rewrite skip_ws_newline_indent.
    rewrite (skip_ws_head "]"%char) by reflexivity.
    rewrite after_char_same. reflexivity.
  - rewrite item_separator_append.
    rewrite IH by (try assumption; try lia; apply ends_number_comma).
    rewrite (skip_ws_head ","%char) by reflexivity.
    rewrite (after_char_diff "]"%char ","%char) by reflexivity.
    rewrite after_char_same, skip_ws_newline_indent, skip_ws_items.
    rewrite (IHxs y fuel)
      by (cbn [map list_sum fold_right forallb]; try assumption; lia).
    reflexivity.
Qed.

Lemma parse_members_encode (level : nat) (rest : string) :
  forall es e fuel,
    (total_size_entries (e :: es) <= n)%nat ->
    forallb (fun '(_, x) => unique_keys x) (e :: es) = true ->
    (total_size_entries (e :: es) <= fuel)%nat ->
    parse_members fuel
      (join (item_separator (S level))
            (map (encode_entry (encode (S level))) (e :: es))
       ++ newline_indent level ++ String "}" rest)
    = Some (e :: es, rest).
Proof.
  induction es as [|e' es IHes]; intros [k x] fuel Hn Hu Hf;
    unfold total_size_entries in *; cbn [map list_sum fold_right] in Hn, Hf;
    cbn [forallb] in Hu; apply andb_prop in Hu; destruct Hu as [Hux Hu];
    (destruct fuel as [|fuel]; [lia|]);
    rewrite join_map_cons, encode_entry_append, parse_members_step,
      scan_string_escape;
    rewrite (skip_ws_head ":"%char) by reflexivity;
    rewrite after_char_same, skip_ws_space, skip_ws_encode.
  - rewrite IH by (try assumption; try lia; apply ends_number_newline).
    rewrite skip_ws_newline_indent.
    rewrite (skip_ws_head "}"%char) by reflexivity.
    rewrite after_char_same. reflexivity.
  - rewrite item_separator_append.
    rewrite IH by (try assumption; try lia; apply ends_number_comma).
    rewrite (skip_ws_head ","%char) by reflexivity.
    rewrite (after_char_diff "}"%char ","%char) by reflexivity.
    rewrite after_char_same, skip_ws_newline_indent.
    destruct (entries_head (S level) e' es
                (newline_indent level ++ String "}" rest)) as (t & Et).
    rewrite Et, (skip_ws_head quote_mark) by reflexivity. rewrite <- Et.
    rewrite (IHes e' fuel)
      by (cbn [map list_sum fold_right forallb]; try assumption;
          destruct e'; try assumption; lia).
    reflexivity.
Qed.

End Step.

Lemma size_positive (v : json) : (1 <= size v)%nat.
Proof. destruct v; simpl; lia. Qed.

Lemma encode_list (level : nat) (x : json) (xs : list json) (rest : string) :
  encode level (JList (x :: xs)) ++ rest
  = String "["
      (newline_indent (S level)
       ++ join (item_separator (S level)) (map (encode (S level)) (x :: xs))
       ++ newline_indent level ++ String "]" rest).
Proof. cbn [encode]. rewrite !append_assoc. reflexivity. Qed.

Lemma encode_dict (level : nat) (e : string * json) (es : list (string * json))
    (rest : string) :
  encode level (JDict (e :: es)) ++ rest
  = String "{"
      (newline_indent (S level)
       ++ join (item_separator (S level))
            (map (encode_entry (encode (S level))) (e :: es))
       ++ newline_indent level ++ String "}" rest).
Proof. cbn [encode]. rewrite !append_assoc. reflexivity. Qed.

(** With fuel for its size, the text of a value, whatever follows it,
    reads back as the value and what follows. *)
Lemma parse_encode (n : nat) : forall v,
  (size v <= n)%nat -> unique_keys v = true ->
  forall level fuel rest, (size v <= fuel)%nat -> ends_number rest = true ->
  parse_value fuel (encode level v ++ rest) = Some (v, rest).
Proof.
  induction n as [|n IH]; intros v Hn Hu level fuel rest Hf Hrest.
  - pose proof (size_positive v). lia.
  - destruct fuel as [|fuel]; [pose proof (size_positive v); lia|].
    destruct v as [|[|]|z|s|items|entries].
    + reflexivity.
    + reflexivity.
    + reflexivity.
    + cbn [encode]. destruct (str_of_int_head z) as (c & t & E & Hc).
      pose proof (scan_number_str_of_int z rest Hrest) as Hscan.
      rewrite E in *. cbn [String.append] in *.
      rewrite (parse_value_number fuel c _ Hc), Hscan. reflexivity.
    + cbn [encode]. unfold encode_string. cbn [String.append].
      rewrite parse_value_string, append_assoc. cbn [String.append].
      rewrite scan_string_escape. reflexivity.
    + destruct items as [|x xs]; [reflexivity|].
      cbn [size] in Hn, Hf. cbn [unique_keys] in Hu.
      rewrite encode_list, parse_value_list, skip_ws_newline_indent, skip_ws_items.
      rewrite join_map_cons, after_char_encode by auto.
      rewrite <- join_map_cons.
      rewrite (parse_items_encode n IH level rest xs x fuel)
        by (try assumption; unfold total_size; lia).
      reflexivity.
    + destruct entries as [|e es]; [reflexivity|].
      cbn [size] in Hn, Hf. cbn [unique_keys] in Hu.
      apply andb_prop in Hu. destruct Hu as [Hkeys Hu].
      rewrite encode_dict, parse_value_dict, skip_ws_newline_indent.
      destruct (entries_head (S level) e es
                  (newline_indent level ++ String "}" rest)) as (t & Et).
      rewrite Et, (skip_ws_head quote_mark) by reflexivity.
      rewrite (after_char_diff "}"%char quote_mark) by reflexivity.
      rewrite <- Et.
      rewrite (parse_members_encode n IH level rest es e fuel)
        by (try assumption; unfold total_size_entries; lia).
      rewrite (dict_of_pairs_distinct _ Hkeys). reflexivity.
Qed.

Lemma length_newline_indent (level : nat) :
  (1 <= String.length (newline_indent level))%nat.
Proof. unfold newline_indent. simpl. lia. Qed.

Lemma length_item_separator (level : nat) :
  (1 <= String.length (item_separator level))%nat.
Proof. unfold item_separator. simpl. lia. Qed.

Lemma length_join {A} (sep : string) (f : A -> string) (weight : A -> nat)
    (items : list A) :
  (1 <= String.length sep)%nat ->
  Forall (fun x => weight x <= String.length (f x))%nat items ->
  (list_sum (map (fun x => S (weight x)) items)
   <= S (String.length (join sep (map f items))))%nat.
Proof.
  intros Hsep Hall.
  induction Hall as [|x xs Hx Hxs IH]; [simpl; lia|].
  pose proof (join_map_cons sep f x xs EmptyString) as Hj.
  rewrite append_nil_r in Hj. rewrite Hj. clear Hj.
  cbn [map list_sum fold_right]. rewrite length_append.
  destruct xs as [|y ys].
  - simpl. lia.
  - rewrite length_append, append_nil_r.
    cbn [map list_sum fold_right] in *. lia.
Qed.

Lemma in_total (y : json) (items : list json) :
  In y items -> (S (size y) <= total_size items)%nat.
Proof.
  unfold total_size, list_sum. induction items as [|a l IHl]; [contradiction|].
  cbn [map list_sum fold_right]. intros [-> | Hy]; [lia | specialize (IHl Hy); lia].
Qed.

Lemma in_total_entries (y : string * json) (entries : list (string * json)) :
  In y entries -> (S (size (snd y)) <= total_size_entries entries)%nat.
Proof.
  unfold total_size_entries, list_sum. induction entries as [|a l IHl]; [contradiction|].
  cbn [map list_sum fold_right].
  intros [-> | Hy]; [destruct y; simpl; lia | specialize (IHl Hy); lia].
Qed.

(** The text of a value is at least as long as the value is large. *)
Lemma size_le_length (n : nat) : forall v level,
  (size v <= n)%nat -> (size v <= String.length (encode level v))%nat.
Proof.
  induction n as [|n IH]; intros v level Hn.
  - pose proof (size_positive v). lia.
  - destruct v as [|[|]|z|s|items|entries]; try (simpl; lia).
    + cbn [encode size].
      destruct (str_of_int_head z) as (c & t & E & _). rewrite E. simpl. lia.
    + destruct items as [|x xs]; [simpl; lia|].
      cbn [size] in Hn.
      pose proof (encode_list level x xs EmptyString) as He.
      rewrite append_nil_r in He. rewrite He. clear He.
      cbn [String.length size]. rewrite !length_append.
      pose proof (length_join (item_separator (S level)) (encode (S level)) size
                    (x :: xs) (length_item_separator _)) as Hj.
      assert (Hall : Forall (fun y => size y <= String.length (encode (S level) y))%nat
                            (x :: xs)).
      { apply Forall_forall. intros y Hy. apply IH.
        pose proof (in_total y _ Hy). unfold total_size in *. lia. }
      specialize (Hj Hall).
      pose proof (length_newline_indent (S level)).
      change (String.length "]") with 1%nat. lia.
    + destruct entries as [|e es]; [simpl; lia|].
      cbn [size] in Hn.
      pose proof (encode_dict level e es EmptyString) as He.
      rewrite append_nil_r in He. rewrite He. clear He.
      cbn [String.length size]. rewrite !length_append.
      pose proof (length_join (item_separator (S level))
                    (encode_entry (encode (S level))) (fun y => size (snd y))
                    (e :: es) (length_item_separator _)) as Hj.
      assert (Hall : Forall (fun y => size (snd y)
                                      <= String.length
                                           (encode_entry (encode (S level)) y))%nat
                            (e :: es)).
      { apply Forall_forall. intros [k y] Hy. simpl snd.
        pose proof (in_total_entries _ _ Hy) as Ht. simpl snd in Ht.
        unfold total_size_entries in Ht.
        assert (Hy' : (size y <= String.length (encode (S level) y))%nat)
          by (apply IH; lia).
        unfold encode_entry. rewrite !length_append. lia. }
      specialize (Hj Hall).
      assert (Heq : map (fun y : string * json => S (size (snd y))) (e :: es)
                    = map (fun '(_, x) => S (size x)) (e :: es)).
      { apply map_ext. intros [k y]. reflexivity. }
      cbv beta in Hj. rewrite Heq in Hj.
      pose proof (length_newline_indent (S level)).
      change (String.length "}") with 1%nat. lia.
Qed.

(** [json.loads(json.dumps(v, indent=2)) == v] for a Python value. *)
Lemma json_loads_dumps (v : json) :
  unique_keys v = true -> json_loads (json_dumps v) = Some v.
Proof.
  intros Hu. unfold json_loads, json_dumps.
  pose proof (skip_ws_encode 0 v EmptyString) as Hs.
  rewrite append_nil_r in Hs. rewrite Hs.
  pose proof (parse_encode (size v) v (Nat.le_refl _) Hu 0
                (String.length (encode 0 v)) EmptyString
                (size_le_length (size v) v 0 (Nat.le_refl _)) eq_refl) as Hp.
  rewrite append_nil_r in Hp. rewrite Hp. reflexivity.
Qed.

Lemma unique_keys_user_record (stats : UserStats) :
  python_stats stats = true -> unique_keys (user_record stats) = true.
Proof.
  unfold python_stats. intros H. apply andb_prop in H. destruct H as [Ho Hw].
  unfold user_record. cbn [unique_keys map fst forallb].
  cbn [unique_keys] in Ho. rewrite Ho.
  assert (Hweeks : forallb unique_keys (map week_record (weekly_growth stats)) = true).
  { induction (weekly_growth stats) as [|wd l IHl]; [reflexivity|].
    cbn [forallb] in Hw. apply andb_prop in Hw. destruct Hw as [Hwd Hl].
    apply andb_prop in Hwd. destruct Hwd as [Hc Hp].
    cbn [map forallb]. rewrite (IHl Hl).
    unfold week_record. cbn [unique_keys map fst forallb].
    rewrite Hc, Hp. reflexivity. }
  rewrite Hweeks. destruct (username stats), (email stats); reflexivity.
Qed.

Lemma unique_keys_analysis_record (analysis_date : string) (users : list UserStats) :
  forallb python_stats users = true ->
  unique_keys (analysis_record analysis_date users) = true.
Proof.
  intros H. unfold analysis_record. cbn [unique_keys map fst forallb].
  assert (Hu : forallb unique_keys (map user_record users) = true).
  { induction users as [|u l IHl]; [reflexivity|].
    cbn [forallb] in H. apply andb_prop in H. destruct H as [Hu Hl].
    cbn [map forallb]. rewrite (unique_keys_user_record u Hu), (IHl Hl).
    reflexivity. }
  rewrite Hu. reflexivity.
Qed.

(** C8: the text main.py writes for an Analysis Record, read back by
    [load_data], is the record itself: the same users in the same order,
    the same counts, [None] included, the same weekly windows.  The
    record's dicts have distinct keys, as every Python dict has. *)
Theorem persisted_record_round_trip (analysis_date : string)
    (users : list UserStats) :
  forallb python_stats users = true ->
  load_data (persist (analysis_record analysis_date users))
  = Returned (analysis_record analysis_date users).
Proof.
  intros H. unfold load_data, persist.
  rewrite json_loads_dumps by (apply unique_keys_analysis_record; exact H).
  reflexivity.
Qed.

Lemma persisted_record_round_trip_witness :
  load_data (persist (analysis_record "2025-03-10T12:00:00.000001" sample_users))
  = Returned (analysis_record "2025-03-10T12:00:00.000001" sample_users).
Proof.
  apply (persisted_record_round_trip "2025-03-10T12:00:00.000001" sample_users).
  reflexivity.
Defined.

(** * Further properties *)

(** ** Limits and failures of the fetcher *)

Lemma sleeps_of_app (t1 t2 : list event) :
  sleeps_of (t1 ++ t2) = (sleeps_of t1 ++ sleeps_of t2)%list.
Proof. apply flat_map_app. Qed.

Section FetcherLimits.

Context {World : Type} {env : Env World}.
Variables (url : string) (hdrs : option (dict string)) (params : option (dict json)).

Lemma retry_loop_budget k : forall a last (w w' : World) res tr,
  retry_loop url hdrs params k a last w = (res, w', tr) ->
  exists n, requests_of tr = repeat (url, hdrs, params) n /\ (n <= k)%nat.
Proof.
  induction k as [|k IH]; intros a last w w' res tr Hrun.
  - rewrite retry_loop_exhausted in Hrun. inversion Hrun; subst.
    exists O. split; [reflexivity | lia].
  - apply retry_loop_attempt in Hrun.
    destruct Hrun as (r0 & w1 & seg & tail & _ & -> & Hquiet & Htail).
    change (EvGet url hdrs params r0 :: seg ++ tail)%list
      with ([EvGet url hdrs params r0] ++ seg ++ tail)%list.
    rewrite !requests_of_app, (requests_of_quiet seg Hquiet). simpl.
    destruct Htail as [->|(r1 & w2 & _ & Hrec)].
    + exists 1%nat. split; [reflexivity | lia].
    + destruct (IH _ _ _ _ _ _ Hrec) as (n & -> & Hle).
      exists (S n). split; [reflexivity | lia].
Qed.

(** X1: whatever the server answers, a call of [rate_limited_get] makes
    at most [max_retries] requests, and each of them repeats the URL,
    headers and parameters of the call. *)
Theorem request_budget max_retries (w : World) :
  exists n,
    requests_of (trace_of (rate_limited_get url hdrs params max_retries w))
    = repeat (url, hdrs, params) n
    /\ (n <= max_retries)%nat.
Proof.
  destruct (rate_limited_get url hdrs params max_retries w) as [[res w'] tr] eqn:Hrun.
  unfold rate_limited_get in Hrun. apply retry_loop_budget in Hrun.
  exact Hrun.
Qed.

(** X2: with [max_retries = 0] the loop body never runs: no request is
    made, the exhaustion line is printed and [return response] raises
    [UnboundLocalError]. *)
Theorem no_attempt_unbound_response (w : World) :
  rate_limited_get url hdrs params 0 w
  = (Raised UnboundLocalError, w,
     [EvPrint ("    Max retries exceeded for " ++ url)]).
Proof. unfold rate_limited_get. apply retry_loop_exhausted. Qed.

End FetcherLimits.

Lemma last_answer_some (o : outcome Response) (l : list (outcome Response)) :
  exists x, last (map Some (o :: l)) None = Some x.
Proof.
  revert o. induction l as [|o' l IH]; intros o.
  - exists o. reflexivity.
  - destruct (IH o') as (x & Hx). exists x. exact Hx.
Qed.

Lemma last_answer_get u h p r (tr : list event) :
  last_answer (EvGet u h p r :: tr)
  = match last_answer tr with Some x => Some x | None => Some r end.
Proof.
  unfold last_answer. cbn [answers_of flat_map app].
  fold (answers_of tr). destruct (answers_of tr) as [|o l]; [reflexivity|].
  destruct (last_answer_some o l) as (x & Hx).
  change (last (map Some (r :: o :: l)) None) with (last (map Some (o :: l)) None).
  rewrite Hx. reflexivity.
Qed.

Lemma last_answer_quiet (ev : event) (tr : list event) :
  quiet ev -> last_answer (ev :: tr) = last_answer tr.
Proof. destruct ev; simpl; intros H; [contradiction | reflexivity ..]. Qed.

Lemma backoff_wait_short (a : nat) :
  (a <= 17)%nat -> 2 ^ Z.of_nat a * 30 <= safe_sleep.
Proof.
  intros H.
  assert (Hpow : 2 ^ Z.of_nat a <= 2 ^ 17) by (apply Z.pow_le_mono_r; lia).
  change (2 ^ 17) with 131072 in Hpow. unfold safe_sleep. lia.
Qed.

Section FetcherFailures.

Context {World : Type} {env : Env World}.

Lemma failure_cons url hdrs params e ev tr :
  failure url hdrs params e tr -> failure url hdrs params e (ev :: tr).
Proof.
  intros [pre | pre r s He Hrl Hh Hne Hi
         | pre r s reset now He Hrl Hh Hi Hshown
         | pre r attempt He Hr Hshown
         | pre r s reset now line Hrl Hh Hi Hlong Hover
         | pre r attempt line Hr Hlong Hover
         | pre r He Hp Hs Hrl].
  - apply (failed_transport _ _ _ e (ev :: pre)).
  - apply (failed_reset_header _ _ _ e (ev :: pre) r s); assumption.
  - apply (failed_reset_log _ _ _ e (ev :: pre) r s reset now); assumption.
  - apply (failed_backoff_log _ _ _ e (ev :: pre) r attempt); assumption.
  - apply (failed_reset_wait _ _ _ e (ev :: pre) r s reset now line); assumption.
  - apply (failed_backoff_wait _ _ _ e (ev :: pre) r attempt line); assumption.
  - apply (failed_log_line _ _ _ e (ev :: pre) r); assumption.
Qed.

Lemma failure_app url hdrs params e pre tr :
  failure url hdrs params e tr -> failure url hdrs params e (pre ++ tr).
Proof. induction pre; simpl; auto using failure_cons. Qed.

(** A request that raises ends the loop at once. *)
Lemma retry_loop_transport_failure url hdrs params k a last (w w1 : World) e :
  requests_get url hdrs params w = (Raised e, w1) ->
  retry_loop url hdrs params (S k) a last w
  = (Raised e, w1, [EvGet url hdrs params (Raised e)]).
Proof.
  intros Hget. cbn [retry_loop]. unfold bind at 1, http_get.
  rewrite Hget. reflexivity.
Qed.

(** A reset-time header that is not an integer ends the loop at
    [int()]. *)
Lemma retry_loop_reset_header url hdrs params k a last (w w1 : World) r reset_time :
  requests_get url hdrs params w = (Returned r, w1) ->
  is_rate_limited r = true ->
  headers_get "X-RateLimit-Reset" (headers r) = Some reset_time ->
  nonempty reset_time = true ->
  py_int reset_time = None ->
  retry_loop url hdrs params (S k) a last w
  = (Raised ValueError, w1, [EvGet url hdrs params (Returned r)]).
Proof.
  intros Hget Hrl Hhdr Hne Hint. cbn [retry_loop]. unfold bind at 1, http_get.
  rewrite Hget, Hrl, Hhdr. unfold truthy. rewrite Hne, Hint. reflexivity.
Qed.

Lemma retry_loop_indexing url hdrs params k a last (w w1 : World) r :
  requests_get url hdrs params w = (Returned r, w1) ->
  status_code r = 202 ->
  retry_loop url hdrs params (S k) a last w
  = let '(res, w', tr) :=
      retry_loop url hdrs params k (S a) (Some r) (time_sleep 30 w1) in
    (res, w',
     EvGet url hdrs params (Returned r)
     :: EvPrint "    Search indexing in progress, waiting 30 seconds..."
     :: EvSleep 30 :: tr).
Proof.
  intros Hget H202. cbn [retry_loop]. unfold bind at 1, http_get.
  rewrite Hget. unfold is_rate_limited. rewrite H202. cbn [Z.eqb Pos.eqb andb].
  run_ops.
  destruct (retry_loop url hdrs params k (S a) (Some r) _) as [[res w'] tr].
  reflexivity.
Qed.

Lemma retry_loop_failure url hdrs params k : forall a last (w w' : World) e tr,
  (k = O -> last <> None) ->
  retry_loop url hdrs params k a last w = (Raised e, w', tr) ->
  failure url hdrs params e tr.
Proof.
  induction k as [|k IH]; intros a last w w' e tr Hlast H.
  - rewrite retry_loop_exhausted in H.
    destruct last; [discriminate | exfalso; apply Hlast; reflexivity].
  - assert (Hnext : forall r : Response, k = O -> Some r <> None)
      by (intros; discriminate).
    clear Hlast.
    destruct (requests_get url hdrs params w) as [[r|e0] w1] eqn:Hget.
    2:{ rewrite (retry_loop_transport_failure _ _ _ _ _ _ _ _ _ Hget) in H.
        inversion H; subst. apply (failed_transport _ _ _ e []). }
    destruct (is_rate_limited r) eqn:Hrl.
    + destruct (truthy (headers_get "X-RateLimit-Reset" (headers r)))
        as [s|] eqn:Htruthy.
      * assert (Hhdr : headers_get "X-RateLimit-Reset" (headers r) = Some s
                       /\ nonempty s = true).
        { unfold truthy in Htruthy.
          destruct (headers_get "X-RateLimit-Reset" (headers r)) as [s0|];
            [|discriminate].
          destruct (nonempty s0) eqn:Hne; [|discriminate].
          inversion Htruthy; subst. auto. }
        destruct Hhdr as [Hhdr Hne].
        destruct (py_int s) as [reset|] eqn:Hint.
        -- destruct (time_time w1) as [now w2] eqn:Hnow.
           destruct (py_str_int (reset - int_of_float now + 10))
             as [shown|] eqn:Hshown.
           2:{ rewrite (retry_loop_reset_unshown _ _ _ _ _ _ _ _ _ _ _ _ _
                          Hget Hrl Hhdr Hint Hnow Hshown) in H.
               inversion H; subst.
               apply (failed_reset_log _ _ _ ValueError [] r s reset now);
                 auto. }
           rewrite (retry_loop_reset_start _ _ _ _ _ _ _ _ _ _ _ _ _ _
                      Hget Hrl Hhdr Hint Hnow Hshown) in H.
           cbv zeta in H. unfold bind in H.
           destruct (sleep _ w2) as [[[u|e1] w3] t3] eqn:Hs.
           ++ apply sleep_returned in Hs. destruct Hs as [-> ->].
              destruct (retry_loop url hdrs params k (S a) (Some r) _)
                as [[res2 w4] tr2] eqn:Hrec.
              inversion H; subst.
              apply (failure_app _ _ _ e [_; _; _; _]).
              eapply IH; [apply (Hnext r) | exact Hrec].
           ++ apply sleep_raised in Hs; [|lia].
              destruct Hs as (-> & -> & Hlong & Hover).
              inversion H; subst.
              apply (failed_reset_wait _ _ _ e [] r s reset now _ Hrl Hhdr Hint
                       Hlong Hover).
        -- rewrite (retry_loop_reset_header _ _ _ _ _ _ _ _ _ _
                      Hget Hrl Hhdr Hne Hint) in H.
           inversion H; subst.
           apply (failed_reset_header _ _ _ ValueError [] r s); auto.
      * destruct (py_str_int (2 ^ Z.of_nat a * 30)) as [shown|] eqn:Hshown.
        2:{ rewrite (retry_loop_backoff_unshown _ _ _ _ _ _ _ _ _
                       Hget Hrl Htruthy Hshown) in H.
            inversion H; subst.
            apply (failed_backoff_log _ _ _ ValueError [] r a eq_refl
                     (conj Hrl Htruthy) Hshown). }
        rewrite (retry_loop_backoff_start _ _ _ _ _ _ _ _ _ _
                   Hget Hrl Htruthy Hshown) in H.
        cbv zeta in H. unfold bind in H.
        destruct (sleep _ w1) as [[[u|e1] w3] t3] eqn:Hs.
        -- apply sleep_returned in Hs. destruct Hs as [-> ->].
           destruct (retry_loop url hdrs params k (S a) (Some r) _)
             as [[res2 w4] tr2] eqn:Hrec.
           inversion H; subst.
           apply (failure_app _ _ _ e [_; _; _]).
           eapply IH; [apply (Hnext r) | exact Hrec].
        -- apply sleep_raised in Hs; [|apply backoff_wait_nonneg].
           destruct Hs as (-> & -> & Hlong & Hover).
           inversion H; subst.
           apply (failed_backoff_wait _ _ _ e [] r a _ (conj Hrl Htruthy)
                    Hlong Hover).
    + destruct (Z.eqb_spec (status_code r) 202) as [H202|H202].
      * rewrite (retry_loop_indexing _ _ _ _ _ _ _ _ _ Hget H202) in H.
        destruct (retry_loop url hdrs params k (S a) (Some r) _)
          as [[res2 w3] tr2] eqn:Hrec.
        inversion H; subst.
        apply (failure_app _ _ _ e [_; _; _]).
        eapply IH; [apply (Hnext r) | exact Hrec].
      * destruct (Z.eqb_spec (status_code r) 422) as [H422|H422].
        -- destruct params as [p|].
           ++ rewrite (retry_loop_validation_error _ _ _ _ _ _ _ _ _ p
                         eq_refl Hget H422) in H.
              discriminate.
           ++ rewrite (retry_loop_validation_error_no_params _ _ _ _ _ _ _ _ _
                         eq_refl Hget H422) in H.
              inversion H; subst.
              apply (failed_log_line _ _ _ AttributeError [] r); auto.
        -- rewrite (retry_loop_terminal _ _ _ _ _ _ _ _ _ Hget Hrl H202 H422) in H.
           discriminate.
Qed.

(** X3: a call of [rate_limited_get] that makes at least one attempt
    raises only where its trace ends: in the request itself; in [int()]
    of a reset-time header that is not an integer; in the log line of a
    rate limit whose wait has more than 4300 digits; in [time.sleep],
    after that log line, when the wait is longer than 4294967 seconds
    ([OverflowError] when it is longer than 9223372036); or in the log
    line of the 422 branch when [params] is [None].  Nothing is raised
    after a wait or at exhaustion. *)
Theorem failures_end_the_trace url hdrs params max_retries (w w' : World) e tr :
  (0 < max_retries)%nat ->
  rate_limited_get url hdrs params max_retries w = (Raised e, w', tr) ->
  failure url hdrs params e tr.
Proof.
  intros Hpos Hrun. unfold rate_limited_get in Hrun.
  eapply retry_loop_failure; [|exact Hrun]. lia.
Qed.

(** X4: an exception of [requests.get] is not caught: the call ends with
    it after that one request, without a wait or a second attempt. *)
Theorem transport_failure_not_retried url hdrs params max_retries
    (w w1 : World) e :
  (0 < max_retries)%nat ->
  requests_get url hdrs params w = (Raised e, w1) ->
  rate_limited_get url hdrs params max_retries w
  = (Raised e, w1, [EvGet url hdrs params (Raised e)]).
Proof.
  intros Hpos Hget. destruct max_retries as [|k]; [lia|].
  unfold rate_limited_get. apply retry_loop_transport_failure. exact Hget.
Qed.

(** X5: a rate-limit response whose reset-time header is not empty and
    not an integer makes the call raise [ValueError] from [int()], right
    after the request: no clock reading, no wait, no retry. *)
Theorem malformed_reset_header_raises url hdrs params max_retries
    (w w1 : World) r reset_time :
  (0 < max_retries)%nat ->
  requests_get url hdrs params w = (Returned r, w1) ->
  is_rate_limited r = true ->
  headers_get "X-RateLimit-Reset" (headers r) = Some reset_time ->
  nonempty reset_time = true ->
  py_int reset_time = None ->
  rate_limited_get url hdrs params max_retries w
  = (Raised ValueError, w1, [EvGet url hdrs params (Returned r)]).
Proof.
  intros Hpos Hget Hrl Hhdr Hne Hint. destruct max_retries as [|k]; [lia|].
  unfold rate_limited_get. apply retry_loop_reset_header with reset_time; assumption.
Qed.

Lemma retry_loop_backoff_all (P : Response -> Prop) url hdrs params k :
  forall a last (w : World),
  (a + k <= 18)%nat ->
  (forall w0, exists r w1,
      requests_get url hdrs params w0 = (Returned r, w1)
      /\ limited_without_reset r /\ P r) ->
  exists res w' tr,
    retry_loop url hdrs params k a last w = (res, w', tr)
    /\ sleeps_of tr = map backoff_wait (seq a k)
    /\ requests_of tr = repeat (url, hdrs, params) k
    /\ (k <> O ->
        last_answer tr = Some res
        /\ exists r, res = Returned r /\ limited_without_reset r /\ P r).
Proof.
  intros a last w Hk Hall. revert a last w Hk.
  induction k as [|k IH]; intros a last w Hk.
  - rewrite retry_loop_exhausted. eexists _, _, _.
    split; [reflexivity|]. split; [reflexivity|]. split; [reflexivity|].
    intros H; contradiction.
  - destruct (Hall w) as (r & w1 & Hget & (Hrl & Hnone) & HP).
    rewrite (retry_loop_backoff _ _ _ _ _ _ _ _ _ Hget Hrl Hnone)
      by (apply backoff_wait_short; lia).
    destruct (IH (S a) (Some r) (time_sleep (2 ^ Z.of_nat a * 30) w1))
      as (res & w' & tr & Hrec & Hsl & Hreq & Hres); [lia|].
    rewrite Hrec. eexists _, _, _. split; [reflexivity|].
    split; [|split].
    + cbn [sleeps_of flat_map app seq map]. fold (sleeps_of tr). rewrite Hsl.
      reflexivity.
    + cbn [requests_of flat_map app repeat]. fold (requests_of tr). rewrite Hreq.
      reflexivity.
    + intros _. rewrite last_answer_get, !last_answer_quiet by exact I.
      destruct k as [|k].
      * rewrite retry_loop_exhausted in Hrec. inversion Hrec; subst.
        split; [reflexivity|].
        exists r. split; [reflexivity | split; [split|]; assumption].
      * destruct Hres as [Hlast Hr]; [discriminate|].
        rewrite Hlast. split; [reflexivity | exact Hr].
Qed.

(** X6: against a server that answers every request with a rate limit
    and names no reset time, a call with [max_retries] of at most 18
    makes [max_retries] requests, waits 30, 60, 120, ... seconds (30
    times 2 to the attempt's index) after them, and then returns the
    answer to the last of its requests. *)
Theorem backoff_doubles url hdrs params max_retries (w : World) :
  (max_retries <= 18)%nat ->
  (forall w0, exists r w1,
      requests_get url hdrs params w0 = (Returned r, w1)
      /\ limited_without_reset r) ->
  exists res w' tr,
    rate_limited_get url hdrs params max_retries w = (res, w', tr)
    /\ sleeps_of tr = map backoff_wait (seq 0 max_retries)
    /\ requests_of tr = repeat (url, hdrs, params) max_retries
    /\ (max_retries <> O ->
        last_answer tr = Some res
        /\ exists r, res = Returned r /\ limited_without_reset r).
Proof.
  intros Hmax Hall. unfold rate_limited_get.
  destruct (retry_loop_backoff_all (fun _ => True) url hdrs params max_retries
              O None w) as (res & w' & tr & Hrun & Hsl & Hreq & Hres).
  { lia. }
  { intros w0. destruct (Hall w0) as (r & w1 & Hget & Hr). eauto. }
  exists res, w', tr. repeat split; try assumption.
  - apply Hres. assumption.
  - destruct (Hres H) as (_ & r & -> & Hr & _). eauto.
Qed.

Lemma retry_loop_indexing_all url hdrs params k : forall a last (w : World),
  (forall w0, exists r w1,
      requests_get url hdrs params w0 = (Returned r, w1) /\ status_code r = 202) ->
  exists res w' tr,
    retry_loop url hdrs params k a last w = (res, w', tr)
    /\ sleeps_of tr = repeat 30 k
    /\ requests_of tr = repeat (url, hdrs, params) k
    /\ (k <> O ->
        last_answer tr = Some res
        /\ exists r, res = Returned r /\ status_code r = 202).
Proof.
  intros a last w Hall. revert a last w.
  induction k as [|k IH]; intros a last w.
  - rewrite retry_loop_exhausted. eexists _, _, _.
    split; [reflexivity|]. split; [reflexivity|]. split; [reflexivity|].
    intros H; contradiction.
  - destruct (Hall w) as (r & w1 & Hget & H202).
    rewrite (retry_loop_indexing _ _ _ _ _ _ _ _ _ Hget H202).
    destruct (IH (S a) (Some r) (time_sleep 30 w1))
      as (res & w' & tr & Hrec & Hsl & Hreq & Hres).
    rewrite Hrec. eexists _, _, _. split; [reflexivity|].
    split; [|split].
    + cbn [sleeps_of flat_map app repeat]. fold (sleeps_of tr). rewrite Hsl.
      reflexivity.
    + cbn [requests_of flat_map app repeat]. fold (requests_of tr). rewrite Hreq.
      reflexivity.
    + intros _. rewrite last_answer_get, !last_answer_quiet by exact I.
      destruct k as [|k].
      * rewrite retry_loop_exhausted in Hrec. inversion Hrec; subst.
        split; [reflexivity|].
        exists r. split; [reflexivity | assumption].
      * destruct Hres as [Hlast Hr]; [discriminate|].
        rewrite Hlast. split; [reflexivity | exact Hr].
Qed.

(** X7: while the server answers 202 (the search is being indexed), the
    call waits 30 seconds after each request; after [max_retries] such
    answers it gives up and returns the answer to the last of its
    requests, a 202. *)
Theorem indexing_waits_then_gives_up url hdrs params max_retries (w : World) :
  (forall w0, exists r w1,
      requests_get url hdrs params w0 = (Returned r, w1) /\ status_code r = 202) ->
  exists res w' tr,
    rate_limited_get url hdrs params max_retries w = (res, w', tr)
    /\ sleeps_of tr = repeat 30%Z max_retries
    /\ requests_of tr = repeat (url, hdrs, params) max_retries
    /\ (max_retries <> O ->
        last_answer tr = Some res
        /\ exists r, res = Returned r /\ status_code r = 202).
Proof.
  intros Hall. unfold rate_limited_get. apply retry_loop_indexing_all. exact Hall.
Qed.

(** X23: a rate limit with a reset time within reach.  When the first
    response is a 403 with a rate-limit body whose reset-time header is
    the integer [reset], and [wait_time = reset - int(now) + 10] is at
    most 4294967 seconds at the clock reading [now] (and, should it be
    negative, of at most 4300 digits, so that the log line can show it),
    the call reads the clock, logs
    the wait, sleeps [max(reset - int(now) + 10, 30)] seconds and goes on
    with its remaining attempts in the world that sleep left: the next
    request is made after the wait.  For a clock reading since the epoch
    the sleep is at least [max(N + 10, 30)], [N = reset - now] being the
    seconds until the reset time. *)
Theorem reset_wait_then_retry url hdrs params max_retries
    (w w1 w2 : World) r reset_time reset now shown :
  requests_get url hdrs params w = (Returned r, w1) ->
  is_rate_limited r = true ->
  headers_get "X-RateLimit-Reset" (headers r) = Some reset_time ->
  py_int reset_time = Some reset ->
  time_time w1 = (now, w2) ->
  py_str_int (reset - int_of_float now + 10) = Some shown ->
  reset - int_of_float now + 10 <= safe_sleep ->
  let wait := Z.max (reset - int_of_float now + 10) 30 in
  rate_limited_get url hdrs params (S max_retries) w
  = (let '(res, w', tr) :=
       retry_loop url hdrs params max_retries 1 (Some r) (time_sleep wait w2) in
     (res, w',
      EvGet url hdrs params (Returned r) :: EvTime now
      :: EvPrint ("    Rate limit hit. Waiting " ++ shown
                  ++ " seconds until reset...")
      :: EvSleep wait :: tr))
  /\ ((0 <= now)%Q -> (Qmax (seconds_until reset now + 10) 30 <= inject_Z wait)%Q).
Proof.
  intros Hget Hrl Hhdr Hint Hnow Hshown Hshort wait. split.
  - unfold rate_limited_get.
    apply (retry_loop_reset _ _ _ _ _ _ _ _ _ _ _ _ _ _
             Hget Hrl Hhdr Hint Hnow Hshown Hshort).
  - apply reset_wait_covers.
Qed.

End FetcherFailures.

Lemma failures_end_the_trace_witness :
  failure commits_url None None ValueError
    ([EvGet commits_url None None (Returned limited_no_reset);
      EvPrint "    Rate limit hit (attempt 1). Waiting 30 seconds...";
      EvSleep 30]
     ++ [EvGet commits_url None None (Returned (limited_until "soon"))]).
Proof.
  apply (failures_end_the_trace (env := ScriptEnv) commits_url None None 3
           (mkScript [limited_no_reset; limited_until "soon"] 0 0)
           (mkScript [] (0 + inject_Z 30)%Q (0 + 30 * 1000000)));
    [lia | reflexivity].
Defined.

Lemma transport_failure_not_retried_witness :
  rate_limited_get commits_url None None 3 (mkScript [] 0 0)
  = (Raised RequestException, mkScript [] 0 0,
     [EvGet commits_url None None (Raised RequestException)]).
Proof.
  apply (transport_failure_not_retried (env := ScriptEnv) commits_url None None 3
           (mkScript [] 0 0) (mkScript [] 0 0) RequestException);
    [lia | reflexivity].
Defined.

Lemma malformed_reset_header_raises_witness :
  rate_limited_get commits_url None None 3
    (mkScript [limited_until "soon"; found 1] 0 0)
  = (Raised ValueError, mkScript [found 1] 0 0,
     [EvGet commits_url None None (Returned (limited_until "soon"))]).
Proof.
  apply (malformed_reset_header_raises (env := ScriptEnv) commits_url None None 3
           (mkScript [limited_until "soon"; found 1] 0 0)
           (mkScript [found 1] 0 0) (limited_until "soon") "soon");
    [lia | reflexivity | reflexivity | reflexivity | reflexivity | reflexivity].
Defined.

Lemma backoff_doubles_witness :
  exists res w' tr,
    @rate_limited_get _ (steady_env limited_no_reset) commits_url None None 5 0
    = (res, w', tr)
    /\ sleeps_of tr = [30; 60; 120; 240; 480]
    /\ requests_of tr = repeat (commits_url, None, None) 5
    /\ (5%nat <> O ->
        last_answer tr = Some res
        /\ exists r, res = Returned r /\ limited_without_reset r).
Proof.
  apply (backoff_doubles (env := steady_env limited_no_reset) commits_url None None 5 0).
  - lia.
  - intros w0. exists limited_no_reset, w0.
    split; [reflexivity | split; reflexivity].
Defined.

Lemma indexing_waits_then_gives_up_witness :
  exists res w' tr,
    @rate_limited_get _ (steady_env still_indexing) commits_url None None 3 0
    = (res, w', tr)
    /\ sleeps_of tr = [30; 30; 30]
    /\ requests_of tr = repeat (commits_url, None, None) 3
    /\ (3%nat <> O ->
        last_answer tr = Some res
        /\ exists r, res = Returned r /\ status_code r = 202).
Proof.
  apply (indexing_waits_then_gives_up (env := steady_env still_indexing)
           commits_url None None 3 0).
  intros w0. exists still_indexing, w0. split; reflexivity.
Defined.

Lemma reset_wait_then_retry_witness :
  rate_limited_get commits_url None None 3
    (mkScript [limited_until "1700000100"; found 42] (3400000001 # 2) 0)
  = (Returned (found 42),
     mkScript [] ((3400000001 # 2) + inject_Z 110)%Q (0 + 110 * 1000000),
     [EvGet commits_url None None (Returned (limited_until "1700000100"));
      EvTime (3400000001 # 2);
      EvPrint "    Rate limit hit. Waiting 110 seconds until reset...";
      EvSleep 110;
      EvGet commits_url None None (Returned (found 42))])
  /\ ((0 <= 3400000001 # 2)%Q ->
      (Qmax (seconds_until 1700000100 (3400000001 # 2) + 10) 30 <= inject_Z 110)%Q).
Proof.
  apply (reset_wait_then_retry (env := ScriptEnv) commits_url None None 2
           (mkScript [limited_until "1700000100"; found 42] (3400000001 # 2) 0)
           (mkScript [found 42] (3400000001 # 2) 0)
           (mkScript [found 42] (3400000001 # 2) 0)
           (limited_until "1700000100") "1700000100" 1700000100 (3400000001 # 2)
           "110");
    [reflexivity | reflexivity | reflexivity | reflexivity | reflexivity
    | reflexivity | vm_compute; discriminate].
Defined.

(** ** What the stat aggregator asks and stores *)

Section QueryEdges.

Context {World : Type} {env : Env World}.

(** X8: for a search type other than [issues], [repositories] and
    [code], [get_activity] makes no request and returns the dict with the
    one key [error]. *)
Theorem unsupported_search_type username token search_type date_range email
    (w : World) :
  search_type <> "issues" -> search_type <> "repositories" ->
  search_type <> "code" ->
  get_activity username token search_type date_range email w
  = (Returned (JDict [("error", JStr ("Unsupported search type: " ++ search_type))]),
     w, []).
Proof.
  intros Hi Hr Hc. unfold get_activity, activity_query.
  apply String.eqb_neq in Hi, Hr, Hc. rewrite Hi, Hr, Hc. reflexivity.
Qed.

Lemma fetch_json_budget url hdrs params (w : World) :
  exists n,
    requests_of
      (trace_of (bind (rate_limited_get url hdrs params 3) response_json w))
    = repeat (url, hdrs, params) n /\ (n <= 3)%nat.
Proof.
  destruct (bind (rate_limited_get url hdrs params 3) response_json w)
    as [[res w'] tr] eqn:Hrun.
  apply bind_trace in Hrun.
  destruct Hrun as (r1 & w1 & t1 & t2 & Hget & -> & Hrest).
  unfold rate_limited_get in Hget.
  apply retry_loop_budget in Hget. destruct Hget as (n & Hn & Hle).
  assert (Ht2 : t2 = []).
  { destruct r1 as [a|e]; [|tauto].
    unfold response_json, or_raise in Hrest.
    destruct (json_body a); inversion Hrest; reflexivity. }
  subst t2. unfold trace_of. simpl. rewrite app_nil_r, Hn.
  exists n. auto.
Qed.

End QueryEdges.

Lemma unsupported_search_type_witness :
  get_activity (Some "bot-x") (Some "token") "users" None None (mkScript [] 0 0)
  = (Returned (JDict [("error", JStr "Unsupported search type: users")]),
     mkScript [] 0 0, []).
Proof.
  apply (unsupported_search_type (env := ScriptEnv) (Some "bot-x") (Some "token")
           "users" None None (mkScript [] 0 0));
    discriminate.
Defined.

Section AggregatorShape.

Context {World : Type} {env : Env World}.

Lemma lift_trace {A} (o : outcome A) (w w' : World) res tr :
  lift o w = (res, w', tr) -> res = o /\ w' = w /\ tr = [].
Proof. destruct o; unfold lift, ret, raise; intros H; inversion H; auto. Qed.

(** Recording a stat only prints. *)
Lemma record_stat_quiet stat_name result stats (w w' : World) res tr :
  record_stat stat_name result stats w = (res, w', tr) ->
  Forall quiet tr.
Proof.
  unfold record_stat. intros H. run_ops in H.
  destruct (py_in "total_count" result) as [[|]|?]; cbv beta iota zeta in H.
  - destruct (py_getitem "total_count" result) as [v|?]; cbv beta iota zeta in H;
      [|inversion H; constructor].
    destruct (py_format_comma v); cbv beta iota zeta in H;
      inversion H; subst; repeat constructor.
  - destruct (py_get "message" (JStr "Unknown error") result) as [m|?];
      cbv beta iota zeta in H; [|inversion H; constructor].
    destruct (py_in "errors" result) as [[|]|?]; cbv beta iota zeta in H.
    + destruct (py_getitem "errors" result) as [v|?]; cbv beta iota zeta in H;
        inversion H; subst; repeat constructor.
    + inversion H; subst; repeat constructor.
    + inversion H; subst; repeat constructor.
  - inversion H; constructor.
Qed.

Lemma run_activities_requests (P : string * option (dict string)
                                     * option (dict json) -> Prop) (k : nat)
    activities : forall stats (w w' : World) res tr,
  (forall stat_name get_data, In (stat_name, get_data) activities ->
     forall w0 : World,
       Forall P (requests_of (trace_of (get_data w0)))
       /\ (length (requests_of (trace_of (get_data w0))) <= k)%nat) ->
  run_activities activities stats w = (res, w', tr) ->
  Forall P (requests_of tr)
  /\ (length (requests_of tr) <= k * length activities)%nat.
Proof.
  induction activities as [|[stat_name get_data] rest IH];
    intros stats w w' res tr Hall Hrun.
  - inversion Hrun; subst. split; [constructor | simpl; lia].
  - cbn [run_activities] in Hrun.
    apply bind_trace in Hrun.
    destruct Hrun as (r1 & w1 & t1 & t2 & Hget & -> & Hrest).
    destruct (Hall stat_name get_data (or_introl eq_refl) w) as [HP Hlen].
    rewrite Hget in HP, Hlen. unfold trace_of in HP, Hlen. simpl in HP, Hlen.
    rewrite requests_of_app.
    destruct r1 as [result|e].
    + apply bind_trace in Hrest.
      destruct Hrest as (r2 & w2 & t3 & t4 & Hrec & -> & Hrest).
      apply record_stat_quiet in Hrec. apply requests_of_quiet in Hrec.
      rewrite requests_of_app, Hrec. simpl.
      destruct r2 as [stats1|e].
      * apply IH in Hrest.
        2:{ intros n g Hin. apply (Hall n g). right. exact Hin. }
        destruct Hrest as [HP' Hlen']. split.
        -- apply Forall_app. split; assumption.
        -- rewrite length_app. simpl. lia.
      * destruct Hrest as (_ & _ & ->). simpl. rewrite app_nil_r.
        split; [assumption | simpl; lia].
    + destruct Hrest as (_ & _ & ->). simpl. rewrite app_nil_r.
      split; [assumption | simpl; lia].
Qed.

Lemma fetch_json_stat_request url token query (w : World) :
  url = commits_url \/ url = repositories_url ->
  Forall (stat_request token)
    (requests_of
       (trace_of (bind (rate_limited_get url (search_headers token)
                                         (search_params query) 3)
                       response_json w)))
  /\ (length (requests_of
                (trace_of (bind (rate_limited_get url (search_headers token)
                                                  (search_params query) 3)
                                response_json w))) <= 3)%nat.
Proof.
  intros Hurl.
  destruct (fetch_json_budget url (search_headers token) (search_params query) w)
    as (n & -> & Hle).
  split.
  - apply Forall_forall. intros req Hin. apply repeat_spec in Hin. subst req.
    exists url, query. split; [exact Hurl | reflexivity].
  - rewrite repeat_length. exact Hle.
Qed.

(** X9: whatever the server answers and however the call ends,
    [collect_user_stats] makes at most nine requests, each to the commit
    search or the repository search, with the token's headers and one
    result per page; the issue and code searches are never queried. *)
Theorem stat_requests_bounded name_shown username token email (w : World) :
  Forall (stat_request token)
    (requests_of (trace_of (collect_user_stats name_shown username token email w)))
  /\ (length (requests_of
                (trace_of (collect_user_stats name_shown username token email w)))
      <= 9)%nat.
Proof.
  destruct (collect_user_stats name_shown username token email w)
    as [[res w'] tr] eqn:Hrun.
  unfold collect_user_stats in Hrun.
  apply bind_trace in Hrun.
  destruct Hrun as (r0 & w0 & t0 & t2 & Hprint & -> & Hrun).
  unfold print in Hprint. inversion Hprint; subst r0 w0 t0. clear Hprint.
  cbv zeta in Hrun.
  apply (run_activities_requests (stat_request token) 3) in Hrun.
  - unfold trace_of. simpl. exact Hrun.
  - intros stat_name get_data Hin w0.
    destruct Hin as [Hin | [Hin | [Hin | []]]]; inversion Hin; subst.
    + apply fetch_json_stat_request. left. reflexivity.
    + apply fetch_json_stat_request. left. reflexivity.
    + apply (fetch_json_stat_request repositories_url). right. reflexivity.
Qed.

(** What recording a stat changes. *)
Lemma set_overall_fields stat_name v stats :
  display_name (set_overall stat_name v stats) = display_name stats
  /\ username (set_overall stat_name v stats) = username stats
  /\ email (set_overall stat_name v stats) = email stats
  /\ weekly_growth (set_overall stat_name v stats) = weekly_growth stats.
Proof. repeat split. Qed.

(** The value recorded for a stat: the payload's [total_count], or
    [None]. *)
Lemma record_stat_value stat_name result stats (w w' : World) stats' tr :
  record_stat stat_name result stats w = (Returned stats', w', tr) ->
  exists v, stats' = set_overall stat_name v stats
            /\ (v = JNull \/ py_getitem "total_count" result = Returned v).
Proof.
  unfold record_stat. intros H.
  apply bind_returned_inv in H. destruct H as (has & w1 & t1 & t2 & _ & H & _).
  destruct has.
  - apply bind_returned_inv in H. destruct H as (v & w2 & t3 & t4 & Hv & H & _).
    apply lift_returned_inv in Hv. destruct Hv as (Hv & _ & _).
    apply bind_returned_inv in H. destruct H as (s & w3 & t5 & t6 & _ & H & _).
    apply bind_returned_inv in H. destruct H as (u & w4 & t7 & t8 & _ & H & _).
    inversion H; subst. eauto.
  - apply bind_returned_inv in H. destruct H as (m & w2 & t3 & t4 & _ & H & _).
    apply bind_returned_inv in H. destruct H as (u & w3 & t5 & t6 & _ & H & _).
    apply bind_returned_inv in H. destruct H as (he & w4 & t7 & t8 & _ & H & _).
    destruct he.
    + apply bind_returned_inv in H. destruct H as (e & w5 & t9 & t10 & _ & H & _).
      apply bind_returned_inv in H. destruct H as (u' & w6 & t11 & t12 & _ & H & _).
      inversion H; subst. eauto.
    + inversion H; subst. eauto.
Qed.

(** The stats of a run that returns, written out: the three results and
    what was recorded of each. *)
Lemma collect_user_stats_sets name_shown handle token mail
    (w w' : World) stats tr :
  collect_user_stats name_shown handle token mail w = (Returned stats, w', tr) ->
  exists r1 r2 r3 v1 v2 v3,
    (exists wa wb ta, get_coauthored_commits handle token None mail wa
                      = (Returned r1, wb, ta))
    /\ (exists wa wb ta, get_commits_by_author handle token None mail wa
                         = (Returned r2, wb, ta))
    /\ (exists wa wb ta, get_activity handle token "repositories" None mail wa
                         = (Returned r3, wb, ta))
    /\ (v1 = JNull \/ py_getitem "total_count" r1 = Returned v1)
    /\ (v2 = JNull \/ py_getitem "total_count" r2 = Returned v2)
    /\ (v3 = JNull \/ py_getitem "total_count" r3 = Returned v3)
    /\ stats = mkUserStats name_shown handle mail
                 [("commits_coauthored", v1); ("commits_primary_author", v2);
                  ("repositories_mentioning", v3)] [].
Proof.
  unfold collect_user_stats. intros H.
  apply bind_returned_inv in H. destruct H as (u & w0 & t0 & t1 & _ & H & _).
  cbv zeta in H. cbn [run_activities] in H.
  apply bind_returned_inv in H. destruct H as (r1 & w1 & t2 & t3 & G1 & H & _).
  apply bind_returned_inv in H. destruct H as (s1 & w2 & t4 & t5 & H1 & H & _).
  apply bind_returned_inv in H. destruct H as (r2 & w3 & t6 & t7 & G2 & H & _).
  apply bind_returned_inv in H. destruct H as (s2 & w4 & t8 & t9 & H2 & H & _).
  apply bind_returned_inv in H. destruct H as (r3 & w5 & t10 & t11 & G3 & H & _).
  apply bind_returned_inv in H. destruct H as (s3 & w6 & t12 & t13 & H3 & H & _).
  inversion H; subst.
  apply record_stat_value in H1, H2, H3.
  destruct H1 as (v1 & -> & V1). destruct H2 as (v2 & -> & V2).
  destruct H3 as (v3 & -> & V3).
  exists r1, r2, r3, v1, v2, v3.
  split; [eauto|]. split; [eauto|]. split; [eauto|].
  split; [exact V1|]. split; [exact V2|]. split; [exact V3|]. reflexivity.
Qed.

(** X10: the stats that [collect_user_stats] returns carry the display
    name, handle and email it was given, no weekly growth yet, and under
    [overall_stats] exactly the three stat names, in the order of
    [activities]. *)
Theorem collected_stats_shape name_shown handle token mail
    (w w' : World) stats tr :
  collect_user_stats name_shown handle token mail w = (Returned stats, w', tr) ->
  display_name stats = name_shown
  /\ username stats = handle
  /\ email stats = mail
  /\ weekly_growth stats = []
  /\ map fst (overall_stats stats) = stat_names.
Proof.
  intros H. apply collect_user_stats_sets in H.
  destruct H as (r1 & r2 & r3 & v1 & v2 & v3 & _ & _ & _ & _ & _ & _ & ->).
  repeat split.
Qed.

Lemma record_stat_missing stat_name payload (w : World) :
  dict_get "total_count" payload = None ->
  exists lines,
    Forall quiet lines /\ sleeps_of lines = []
    /\ forall stats,
         record_stat stat_name (JDict payload) stats w
         = (Returned (set_overall stat_name JNull stats), w, lines).
Proof.
  intros Hc. unfold record_stat, py_in, py_getitem, py_get, dict_mem.
  rewrite Hc. destruct (dict_get "errors" payload) as [errors|];
    eexists; (split; [|split; [|intros stats; reflexivity]]);
    [repeat constructor | reflexivity | repeat constructor | reflexivity].
Qed.

Section PersistentLimit.

Hypothesis limited : forall url hdrs params (w0 : World),
  exists r w1,
    requests_get url hdrs params w0 = (Returned r, w1) /\ limited_with_message r.

Lemma fetch_limited url hdrs params (w : World) :
  exists d w' tr,
    bind (rate_limited_get url hdrs params 3) response_json w
    = (Returned (JDict d), w', tr)
    /\ dict_get "total_count" d = None
    /\ sleeps_of tr = [30; 60; 120]
    /\ requests_of tr = repeat (url, hdrs, params) 3.
Proof.
  destruct (retry_loop_backoff_all
              (fun r => exists d, json_body r = Some (JDict d)
                                  /\ dict_get "total_count" d = None)
              url hdrs params 3 O None w)
    as (res & w' & tr & Hrun & Hsl & Hreq & Hres).
  { lia. }
  { intros w0. destruct (limited url hdrs params w0) as (r & w1 & Hget & Hl & Hd).
    exists r, w1. auto. }
  destruct Hres as (_ & r & -> & _ & d & Hbody & Hd); [discriminate|].
  exists d, w', tr. unfold rate_limited_get.
  rewrite (bind_returned _ _ _ _ _ _ Hrun).
  unfold response_json. rewrite Hbody. cbn [or_raise]. unfold ret.
  rewrite app_nil_r.
  split; [reflexivity|]. split; [exact Hd|]. split; [exact Hsl | exact Hreq].
Qed.

Lemma run_activities_limited activities : forall stats (w : World),
  Forall (fun '(_, get_data) =>
            exists url hdrs params,
              get_data = bind (rate_limited_get url hdrs params 3) response_json)
         activities ->
  exists w' tr,
    run_activities activities stats w
    = (Returned (fold_left (fun st '(stat_name, _) => set_overall stat_name JNull st)
                           activities stats), w', tr)
    /\ sleeps_of tr = concat (map (fun _ => [30; 60; 120]) activities)
    /\ length (requests_of tr) = (3 * length activities)%nat.
Proof.
  induction activities as [|[stat_name get_data] rest IH]; intros stats w Hall.
  - exists w, []. repeat split.
  - inversion Hall as [|? ? Hhead Hrest]; subst.
    destruct Hhead as (url & hdrs & params & ->).
    destruct (fetch_limited url hdrs params w) as (d & w1 & t1 & Hget & Hd & Hs1 & Hr1).
    destruct (record_stat_missing stat_name d w1 Hd) as (lines & Hq & Hs2 & Hrec).
    destruct (IH (set_overall stat_name JNull stats) w1 Hrest)
      as (w' & t3 & Hrun & Hs3 & Hr3).
    exists w', (t1 ++ lines ++ t3)%list. cbn [run_activities].
    rewrite (bind_returned _ _ _ _ _ _ Hget).
    rewrite (bind_returned _ _ _ _ _ _ (Hrec stats)).
    rewrite Hrun. split; [reflexivity|]. split.
    + rewrite !sleeps_of_app, Hs1, Hs2, Hs3. reflexivity.
    + rewrite !requests_of_app, !length_app, Hr1, repeat_length,
        (requests_of_quiet lines Hq), Hr3. simpl. lia.
Qed.

(** X11: against a server that answers every request with a rate limit
    without a reset time (its body the API's error object),
    [collect_user_stats] does not fail: each of its three queries takes
    three requests and waits 30, 60 and 120 seconds, and the stats it
    returns hold [None] under all three names. *)
Theorem rate_limit_leaves_null_stats name_shown handle token mail (w : World) :
  exists stats w' tr,
    collect_user_stats name_shown handle token mail w = (Returned stats, w', tr)
    /\ overall_stats stats
       = [("commits_coauthored", JNull); ("commits_primary_author", JNull);
          ("repositories_mentioning", JNull)]
    /\ sleeps_of tr = [30; 60; 120; 30; 60; 120; 30; 60; 120]
    /\ length (requests_of tr) = 9%nat.
Proof.
  unfold collect_user_stats. cbv zeta.
  match goal with
  | |- context [run_activities ?acts ?st] =>
      destruct (run_activities_limited acts st w) as (w' & tr & Hrun & Hs & Hr)
  end.
  { repeat constructor.
    - eexists _, _, _. reflexivity.
    - eexists _, _, _. reflexivity.
    - eexists _, _, _. reflexivity. }
  eexists _, w', _. unfold bind at 1, print. rewrite Hrun.
  split; [reflexivity|]. repeat split.
  - exact Hs.
  - exact Hr.
Qed.

End PersistentLimit.

End AggregatorShape.


Lemma collected_stats_shape_witness :
  display_name (mkUserStats "Bot X" (Some "bot-x") None
                  [("commits_coauthored", JInt 42);
                   ("commits_primary_author", JInt 7);
                   ("repositories_mentioning", JInt 3)] []) = "Bot X"
  /\ username (mkUserStats "Bot X" (Some "bot-x") None
                 [("commits_coauthored", JInt 42);
                  ("commits_primary_author", JInt 7);
                  ("repositories_mentioning", JInt 3)] []) = Some "bot-x"
  /\ email (mkUserStats "Bot X" (Some "bot-x") None
              [("commits_coauthored", JInt 42);
               ("commits_primary_author", JInt 7);
               ("repositories_mentioning", JInt 3)] []) = None
  /\ weekly_growth (mkUserStats "Bot X" (Some "bot-x") None
                      [("commits_coauthored", JInt 42);
                       ("commits_primary_author", JInt 7);
                       ("repositories_mentioning", JInt 3)] []) = []
  /\ map fst (overall_stats
                (mkUserStats "Bot X" (Some "bot-x") None
                   [("commits_coauthored", JInt 42);
                    ("commits_primary_author", JInt 7);
                    ("repositories_mentioning", JInt 3)] [])) = stat_names.
Proof.
  eapply (collected_stats_shape (env := ScriptEnv) "Bot X" (Some "bot-x")
            (Some "token") None counted_world).
  apply run_parts. vm_compute. reflexivity.
Defined.

Lemma rate_limit_leaves_null_stats_witness :
  exists stats w' tr,
    @collect_user_stats _ (steady_env limited_json)
      "Bot X" (Some "bot-x") (Some "token") None 0
    = (Returned stats, w', tr)
    /\ overall_stats stats
       = [("commits_coauthored", JNull); ("commits_primary_author", JNull);
          ("repositories_mentioning", JNull)]
    /\ sleeps_of tr = [30; 60; 120; 30; 60; 120; 30; 60; 120]
    /\ length (requests_of tr) = 9%nat.
Proof.
  apply (rate_limit_leaves_null_stats (env := steady_env limited_json)).
  intros url hdrs params w0. exists limited_json, w0.
  split; [reflexivity|]. split; [split; reflexivity|].
  exists [("message", JStr "You have exceeded a secondary rate limit.")].
  split; reflexivity.
Defined.

(** ** The weekly loop in closed form *)

Lemma weeks_between_done launch_date current_date :
  current_date <= launch_date -> weeks_between launch_date current_date = O.
Proof.
  intros H. unfold weeks_between.
  assert ((current_date - launch_date + (7 * us_per_day - 1)) / (7 * us_per_day) <= 0).
  { unfold us_per_day. Z.div_mod_to_equations. lia. }
  lia.
Qed.

Lemma weeks_between_next launch_date current_date :
  launch_date < current_date ->
  weeks_between launch_date current_date
  = S (weeks_between (launch_date + 7 * us_per_day) current_date).
Proof.
  intros H. unfold weeks_between. rewrite <- Z2Nat.inj_succ.
  - f_equal. unfold us_per_day. Z.div_mod_to_equations. lia.
  - unfold us_per_day. Z.div_mod_to_equations. lia.
Qed.

Lemma nth_window_next launch_date current_date k :
  nth_window launch_date current_date (S k)
  = nth_window (launch_date + 7 * us_per_day) current_date k.
Proof.
  unfold nth_window. cbv zeta.
  replace (launch_date + Z.of_nat (S k) * (7 * us_per_day))
    with (launch_date + 7 * us_per_day + Z.of_nat k * (7 * us_per_day)) by lia.
  reflexivity.
Qed.

(** The loop's windows in closed form. *)
Lemma windows_from_closed_form current_date week_start wins :
  windows_from current_date week_start wins ->
  wins = expected_windows week_start current_date.
Proof.
  induction 1 as [ws Hge | ws rest Hlt Hrest IH].
  - unfold expected_windows. rewrite weeks_between_done by assumption. reflexivity.
  - unfold expected_windows. rewrite weeks_between_next by assumption.
    cbn [seq map].
    assert (Hfirst : nth_window ws current_date 0
                     = (ws, Z.min (ws + 6 * us_per_day) current_date)).
    { unfold nth_window. cbv zeta. simpl Z.of_nat.
      replace (ws + 0 * (7 * us_per_day)) with ws by lia. reflexivity. }
    rewrite Hfirst, <- seq_shift, map_map, IH. unfold expected_windows.
    rewrite (map_ext _ _ (nth_window_next ws current_date)). reflexivity.
Qed.

Section WeeklyClosedForm.

Context {World : Type} {env : Env World}.

(** X12: the records that [collect_weekly_growth] returns show the
    windows in closed form: there are as many as weeks were begun between
    the launch date and the current time, and window [k] starts [k] weeks
    after the launch date and ends six days later, the last one at the
    current time if that comes first. *)
Theorem weekly_windows_closed_form username token launch_date email
    (w w1 w' : World) now data tr :
  datetime_now w = (now, w1) ->
  collect_weekly_growth username token launch_date email w = (Returned data, w', tr) ->
  Forall2 shows (expected_windows launch_date now) data
  /\ length data = weeks_between launch_date now.
Proof.
  intros Hnow Hrun.
  destruct (collect_weekly_growth_windows _ _ _ _ _ _ _ _ _ _ Hnow Hrun)
    as (wins & Hwins & Hshow).
  apply windows_from_closed_form in Hwins. subst wins.
  split; [exact Hshow|].
  apply Forall2_length in Hshow. rewrite <- Hshow.
  unfold expected_windows. rewrite length_map, length_seq. reflexivity.
Qed.

End WeeklyClosedForm.

(** The digits of a count, and of the sum of two, are within the limit
    of the conversion. *)
Lemma count_limit_sum (a b : Z) :
  Z.abs a < count_limit -> Z.abs b < count_limit ->
  Z.abs a < str_limit /\ Z.abs b < str_limit /\ Z.abs (a + b) < str_limit.
Proof.
  intros Ha Hb.
  assert (H : count_limit + count_limit <= str_limit)
    by (vm_compute; discriminate).
  set (c := count_limit) in *. set (l := str_limit) in *. lia.
Qed.

Lemma py_format_comma_shown (n : Z) :
  Z.abs n < str_limit -> py_format_comma (JInt n) = Returned (format_comma n).
Proof.
  intros H. unfold py_format_comma. apply Z.ltb_lt in H. rewrite H. reflexivity.
Qed.

Section WeeklyRequests.

Context {World : Type} {env : Env World}.

Lemma count_of_dict payload (w : World) :
  count_of (JDict payload) w = (Returned (count_in payload), w, []).
Proof.
  unfold count_of, py_in, py_get, dict_mem, count_in.
  destruct (dict_get "total_count" payload); reflexivity.
Qed.

Lemma count_of_trace result (w w' : World) res tr :
  count_of result w = (res, w', tr) -> tr = [].
Proof.
  unfold count_of. run_ops.
  destruct (py_in "total_count" result) as [[|]|?]; cbv beta iota zeta.
  - destruct (py_get "total_count" (JInt 0) result); intros H; inversion H;
      reflexivity.
  - intros H; inversion H; reflexivity.
  - intros H; inversion H; reflexivity.
Qed.

Lemma print_week_quiet period_name c p (w w' : World) res tr :
  print_week period_name c p w = (res, w', tr) -> Forall quiet tr.
Proof.
  unfold print_week. destruct (negb (is_none c) && negb (is_none p)).
  - run_ops. destruct (py_add c p) as [t|?]; cbv beta iota zeta;
      [|intros H; inversion H; constructor].
    destruct (py_format_comma c); cbv beta iota zeta;
      [|intros H; inversion H; constructor].
    destruct (py_format_comma p); cbv beta iota zeta;
      [|intros H; inversion H; constructor].
    destruct (py_format_comma t); cbv beta iota zeta;
      intros H; inversion H; repeat constructor.
  - unfold print. intros H; inversion H; repeat constructor.
Qed.

(** X25: a week is not reported when its two counts are integers that
    can be shown but whose sum has more than 4300 digits: the sum cannot
    be converted for the line, and [print_week] raises [ValueError]
    without printing. *)
Theorem week_total_beyond_limit period_name a b (w : World) :
  Z.abs a < str_limit -> Z.abs b < str_limit -> str_limit <= Z.abs (a + b) ->
  print_week period_name (JInt a) (JInt b) w = (Raised ValueError, w, []).
Proof.
  intros Ha Hb Hsum. unfold print_week. cbn [is_none negb andb py_add].
  run_ops. rewrite !py_format_comma_shown by assumption. cbv beta iota zeta.
  unfold py_format_comma. apply Z.ltb_ge in Hsum. rewrite Hsum. reflexivity.
Qed.

(** The queries of a window, written out. *)
Lemma coauthored_query_in_week token username email week_data :
  ("https://api.github.com/search/commits", search_headers token,
   search_params (coauthored_query username email
                    (Some (start_date week_data ++ ".." ++ end_date week_data))))
  = coauthored_in_week token username email week_data.
Proof.
  unfold coauthored_in_week, search_request, coauthored_query, clauses,
    identity_clauses. rewrite with_date_dated, !truthy_given. unfold dated.
  assert (Hd : given (Some (start_date week_data ++ ".." ++ end_date week_data))
               = Some (start_date week_data ++ ".." ++ end_date week_data))
    by (destruct (start_date week_data); reflexivity).
  rewrite Hd.
  destruct token, (given username), (given email); reflexivity.
Qed.

Lemma author_query_in_week token username email week_data :
  ("https://api.github.com/search/commits", search_headers token,
   search_params (author_query username email
                    (Some (start_date week_data ++ ".." ++ end_date week_data))))
  = authored_in_week token username email week_data.
Proof.
  unfold authored_in_week, search_request, author_query, clauses,
    identity_clauses. rewrite with_date_dated, !truthy_given. unfold dated.
  assert (Hd : given (Some (start_date week_data ++ ".." ++ end_date week_data))
               = Some (start_date week_data ++ ".." ++ end_date week_data))
    by (destruct (start_date week_data); reflexivity).
  rewrite Hd.
  destruct token, (given username), (given email); reflexivity.
Qed.

(** The requests of one window ask for the window the record carries. *)
Lemma collect_week_requests username token email current_date week_start
    (w w' : World) week_data tr :
  collect_week username token email current_date week_start w
    = (Returned week_data, w', tr) ->
  exists a b,
    requests_of tr
    = (repeat (coauthored_in_week token username email week_data) (S a)
       ++ repeat (authored_in_week token username email week_data) (S b))%list.
Proof.
  unfold collect_week. intros H.
  apply bind_returned_inv in H. destruct H as (plus6 & w1 & t1 & t2 & H6 & H & ->).
  apply or_raise_returned_inv in H6. destruct H6 as (_ & _ & ->).
  cbv zeta in H.
  apply bind_returned_inv in H. destruct H as (cr & w2 & t3 & t4 & Hc & H & ->).
  apply bind_returned_inv in H. destruct H as (cc & w3 & t5 & t6 & Hcc & H & ->).
  apply bind_returned_inv in H. destruct H as (pr & w4 & t7 & t8 & Hp & H & ->).
  apply bind_returned_inv in H. destruct H as (pc & w5 & t9 & t10 & Hpc & H & ->).
  apply bind_returned_inv in H. destruct H as (u & w6 & t11 & t12 & Hprint & H & ->).
  inversion H; subst. clear H.
  apply count_of_trace in Hcc, Hpc. subst t5 t9.
  apply print_week_quiet in Hprint. apply requests_of_quiet in Hprint.
  unfold get_coauthored_commits in Hc. unfold get_commits_by_author in Hp.
  cbv zeta in Hc, Hp.
  match type of Hc with
  | bind (rate_limited_get ?url ?h ?p 3) _ ?w0 = ?run =>
      destruct (fetch_json_requests url h p w0) as (a & Ha);
      replace (bind (rate_limited_get url h p 3) response_json w0)
        with run in Ha by (symmetry; exact Hc)
  end.
  match type of Hp with
  | bind (rate_limited_get ?url ?h ?p 3) _ ?w0 = ?run =>
      destruct (fetch_json_requests url h p w0) as (b & Hb);
      replace (bind (rate_limited_get url h p 3) response_json w0)
        with run in Hb by (symmetry; exact Hp)
  end.
  unfold trace_of in Ha, Hb. simpl in Ha, Hb.
  exists a, b. simpl app.
  rewrite !requests_of_app, Ha, Hb, Hprint. simpl (requests_of []).
  rewrite !app_nil_r.
  rewrite <- coauthored_query_in_week, <- author_query_in_week. reflexivity.
Qed.

Lemma weekly_loop_requests username token email current_date (n : nat) :
  forall week_start weekly_data (w w' : World) out tr,
    (Z.to_nat ((current_date - week_start) / 604800000000 + 1) <= n)%nat ->
    weekly_loop username token email current_date week_start weekly_data w
      = (Returned out, w', tr) ->
    exists new,
      out = (weekly_data ++ new)%list
      /\ (forall req, In req (requests_of tr) ->
            exists week_data, In week_data new
              /\ (req = coauthored_in_week token username email week_data
                  \/ req = authored_in_week token username email week_data))
      /\ (forall week_data, In week_data new ->
            In (coauthored_in_week token username email week_data)
               (requests_of tr)
            /\ In (authored_in_week token username email week_data)
                  (requests_of tr)).
Proof.
  induction n as [|n IH]; intros ws data w w' out tr Hn Hrun;
    destruct (ws <? current_date) eqn:Hlt.
  - pose proof (weeks_left_decrease _ _ Hlt). lia.
  - rewrite (weekly_loop_done _ _ _ _ _ _ Hlt) in Hrun. inversion Hrun; subst.
    exists []. rewrite app_nil_r. split; [reflexivity|].
    split; [intros req [] | intros wd []].
  - rewrite (weekly_loop_step _ _ _ _ _ _ Hlt) in Hrun.
    apply bind_returned_inv in Hrun.
    destruct Hrun as (wd & w1 & t1 & t2 & Hweek & Hrun & ->).
    apply bind_returned_inv in Hrun.
    destruct Hrun as (next & w2 & t3 & t4 & Hnext & Hrun & ->).
    apply or_raise_returned_inv in Hnext. destruct Hnext as (_ & _ & ->).
    apply bind_returned_inv in Hrun.
    destruct Hrun as (u & w3 & t5 & t6 & Hsleep & Hrun & ->).
    apply sleep_returned in Hsleep. destruct Hsleep as [-> ->].
    pose proof (weeks_left_decrease _ _ Hlt) as Hdec.
    apply IH in Hrun; [|lia].
    destruct Hrun as (new & -> & Hfrom & Hto).
    apply collect_week_requests in Hweek. destruct Hweek as (a & b & Hreq).
    exists (wd :: new). rewrite <- app_assoc. split; [reflexivity|].
    simpl app. rewrite !requests_of_app. simpl (requests_of [EvSleep 1]).
    simpl app. rewrite Hreq. split.
    + intros req Hin. apply in_app_or in Hin. destruct Hin as [Hin | Hin].
      * exists wd. split; [left; reflexivity|].
        apply in_app_or in Hin. destruct Hin as [Hin | Hin];
          apply repeat_spec in Hin; auto.
      * destruct (Hfrom req Hin) as (wd' & Hin' & Hor).
        exists wd'. split; [right; exact Hin' | exact Hor].
    + intros wd' [<- | Hin].
      * split; apply in_or_app; left; apply in_or_app; [left | right];
          left; reflexivity.
      * destruct (Hto wd' Hin) as [Hc Hp].
        split; apply in_or_app; right; assumption.
  - rewrite (weekly_loop_done _ _ _ _ _ _ Hlt) in Hrun. inversion Hrun; subst.
    exists []. rewrite app_nil_r. split; [reflexivity|].
    split; [intros req [] | intros wd []].
Qed.

(** X13: the counts of a weekly record were asked for with the dates the
    record carries: every request of [collect_weekly_growth] is the
    commit search, under the token's headers and for one result per page,
    for the actor as co-author or as primary author, its query ending in
    [committer-date:start_date..end_date] of one of the records returned;
    and both searches were made for every record. *)
Theorem weekly_requests_match_records username token launch_date email
    (w w' : World) data tr :
  collect_weekly_growth username token launch_date email w
    = (Returned data, w', tr) ->
  (forall req, In req (requests_of tr) ->
     exists week_data, In week_data data
       /\ (req = coauthored_in_week token username email week_data
           \/ req = authored_in_week token username email week_data))
  /\ (forall week_data, In week_data data ->
        In (coauthored_in_week token username email week_data)
           (requests_of tr)
        /\ In (authored_in_week token username email week_data)
              (requests_of tr)).
Proof.
  intros Hrun. unfold collect_weekly_growth in Hrun.
  apply bind_returned_inv in Hrun.
  destruct Hrun as (u & w2 & t1 & t2 & Hp & Hrun & ->).
  unfold print in Hp. inversion Hp; subst u w2 t1. clear Hp.
  apply bind_returned_inv in Hrun.
  destruct Hrun as (cur & w3 & t3 & t4 & Hcur & Hrun & ->).
  unfold get_now in Hcur. destruct (datetime_now w) as [now w1].
  inversion Hcur; subst cur w3 t3. clear Hcur.
  eapply weekly_loop_requests in Hrun; [|apply Nat.le_refl].
  destruct Hrun as (new & -> & Hfrom & Hto).
  simpl app. simpl requests_of. fold (requests_of t4). exact (conj Hfrom Hto).
Qed.

End WeeklyRequests.

Section Settled.

Context {World : Type} {env : Env World}.
Variable P : json -> Prop.
Hypothesis printable : forall c, P c -> printable_count c.
Hypothesis settled : forall url hdrs params (w : World),
  exists r w', requests_get url hdrs params w = (Returned r, w') /\ settles P r.

Lemma fetch_settled url hdrs params (w : World) :
  exists r payload w',
    bind (rate_limited_get url hdrs params 3) response_json w
    = (Returned (JDict payload), w', [EvGet url hdrs params (Returned r)])
    /\ P (count_in payload).
Proof.
  destruct (settled url hdrs params w)
    as (r & w' & Hget & Hrl & H202 & H422 & payload & Hjson & HP).
  exists r, payload, w'. split; [|exact HP].
  unfold rate_limited_get.
  rewrite (bind_returned _ _ _ _ _ _
             (retry_loop_terminal url hdrs params 2 0 None w w' r Hget Hrl H202 H422)).
  unfold response_json. rewrite Hjson. reflexivity.
Qed.

Lemma print_week_line period_name c p (w : World) :
  printable_count c -> printable_count p ->
  exists line, print_week period_name c p w = (Returned tt, w, [EvPrint line]).
Proof.
  intros [-> | (n & -> & Hn)] [-> | (k & -> & Hk)];
    try (eexists; reflexivity).
  destruct (count_limit_sum n k Hn Hk) as (Hn' & Hk' & Hsum).
  unfold print_week. cbn [is_none negb andb py_add].
  eexists. run_ops.
  rewrite !py_format_comma_shown by assumption. cbv beta iota zeta.
  reflexivity.
Qed.

Lemma collect_week_settled username token email current_date week_start (w : World) :
  0 <= week_start -> week_start + 6 * us_per_day < datetime_end ->
  exists week_data w' tr,
    collect_week username token email current_date week_start w
    = (Returned week_data, w', tr)
    /\ P (commits_coauthored week_data) /\ P (commits_primary_author week_data)
    /\ length (requests_of tr) = 2%nat /\ sleeps_of tr = [].
Proof.
  intros Hlo Hhi. unfold collect_week.
  assert (H6 : add_days week_start 6 = Some (week_start + 6 * us_per_day)).
  { unfold add_days.
    assert (Hin : (0 <=? week_start + 6 * us_per_day)
                  && (week_start + 6 * us_per_day <? datetime_end) = true).
    { apply andb_true_intro. split; [apply Z.leb_le | apply Z.ltb_lt];
        unfold us_per_day in *; lia. }
    rewrite Hin. reflexivity. }
  rewrite H6. unfold bind at 1, or_raise at 1, ret at 1. cbv zeta.
  unfold get_coauthored_commits, get_commits_by_author. cbv zeta.
  match goal with
  | |- context [bind (rate_limited_get ?url ?h ?p 3) _] =>
      destruct (fetch_settled url h p w) as (r1 & d1 & w1 & Hf1 & HP1)
  end.
  match goal with
  | |- context [bind (bind (rate_limited_get ?url ?h ?p 3) ?k) _ w] =>
      change (bind (rate_limited_get url h p 3) k)
        with (bind (rate_limited_get url h p 3) response_json)
  end.
  rewrite (bind_returned _ _ _ _ _ _ Hf1).
  rewrite (bind_returned _ _ _ _ _ _ (count_of_dict d1 w1)).
  match goal with
  | |- context [bind (bind (rate_limited_get ?url ?h ?p 3) ?k) _ w1] =>
      destruct (fetch_settled url h p w1) as (r2 & d2 & w2 & Hf2 & HP2);
      change (bind (rate_limited_get url h p 3) k)
        with (bind (rate_limited_get url h p 3) response_json)
  end.
  rewrite (bind_returned _ _ _ _ _ _ Hf2).
  rewrite (bind_returned _ _ _ _ _ _ (count_of_dict d2 w2)).
  match goal with
  | |- context [print_week ?name _ _] =>
      destruct (print_week_line name (count_in d1) (count_in d2) w2
                  (printable _ HP1) (printable _ HP2)) as (line & Hline)
  end.
  rewrite (bind_returned _ _ _ _ _ _ Hline).
  unfold ret. eexists _, _, _. split; [reflexivity|].
  split; [exact HP1|]. split; [exact HP2|]. split; reflexivity.
Qed.

Lemma weekly_loop_settled username token email current_date (n : nat) :
  forall week_start weekly_data (w : World),
    (Z.to_nat ((current_date - week_start) / 604800000000 + 1) <= n)%nat ->
    0 <= week_start -> current_date + 7 * us_per_day <= datetime_end ->
    exists new w' tr,
      weekly_loop username token email current_date week_start weekly_data w
      = (Returned (weekly_data ++ new)%list, w', tr)
      /\ Forall (fun week_data => P (commits_coauthored week_data)
                                  /\ P (commits_primary_author week_data)) new
      /\ length (requests_of tr) = (2 * length new)%nat
      /\ sleeps_of tr = repeat 1 (length new).
Proof.
  induction n as [|n IH]; intros ws data w Hn Hlo Hhi;
    destruct (ws <? current_date) eqn:Hlt.
  - pose proof (weeks_left_decrease _ _ Hlt). lia.
  - rewrite (weekly_loop_done _ _ _ _ _ _ Hlt). exists [], w, [].
    rewrite app_nil_r. repeat split. constructor.
  - pose proof (weeks_left_decrease _ _ Hlt) as Hdec.
    pose proof Hlt as Hlt'. apply Z.ltb_lt in Hlt'.
    rewrite (weekly_loop_step _ _ _ _ _ _ Hlt).
    destruct (collect_week_settled username token email current_date ws w)
      as (wd & w1 & t1 & Hweek & HPc & HPp & Hreq & Hsl);
      [assumption | unfold us_per_day in *; lia |].
    rewrite (bind_returned _ _ _ _ _ _ Hweek).
    assert (H7 : add_days ws 7 = Some (ws + 7 * us_per_day)).
    { unfold add_days.
      assert (Hin : (0 <=? ws + 7 * us_per_day)
                    && (ws + 7 * us_per_day <? datetime_end) = true).
      { apply andb_true_intro. split; [apply Z.leb_le | apply Z.ltb_lt];
          unfold us_per_day in *; lia. }
      rewrite Hin. reflexivity. }
    rewrite H7. unfold bind at 1, or_raise at 1, ret at 1.
    unfold bind at 1, sleep at 1. change (classify_wait 1) with Short.
    cbv beta iota zeta.
    destruct (IH (ws + 7 * us_per_day) (data ++ [wd])%list (time_sleep 1 w1))
      as (new & w' & tr & Hrun & Hall & Hr & Hs);
      [lia | unfold us_per_day; lia | assumption |].
    rewrite Hrun. exists (wd :: new), w'. eexists. rewrite <- app_assoc.
    split; [reflexivity|]. split; [constructor; auto|]. split.
    + simpl app. rewrite !requests_of_app, !length_app, Hreq.
      simpl (requests_of [EvSleep 1]). simpl. rewrite Hr. lia.
    + simpl app. rewrite !sleeps_of_app, Hsl. simpl. rewrite Hs. reflexivity.
  - rewrite (weekly_loop_done _ _ _ _ _ _ Hlt). exists [], w, [].
    rewrite app_nil_r. repeat split. constructor.
Qed.

(** X14: when every request is settled at once by a JSON object whose
    [total_count] is absent or an integer of at most 4299 digits (here:
    satisfies [P]) and the dates stay within Python's range,
    [collect_weekly_growth] returns; it
    makes two requests and pauses one second per record, and every
    recorded count is the [total_count] of an answer, [None] where the
    answer has none. *)
Theorem settled_weeks username token launch_date email (w w1 : World) now :
  datetime_now w = (now, w1) ->
  0 <= launch_date -> now + 7 * us_per_day <= datetime_end ->
  exists data w' tr,
    collect_weekly_growth username token launch_date email w
    = (Returned data, w', tr)
    /\ Forall (fun week_data => P (commits_coauthored week_data)
                                /\ P (commits_primary_author week_data)) data
    /\ length (requests_of tr) = (2 * length data)%nat
    /\ sleeps_of tr = repeat 1 (length data).
Proof.
  intros Hnow Hlo Hhi. unfold collect_weekly_growth.
  unfold bind at 1, print at 1. unfold bind at 1, get_now at 1. rewrite Hnow.
  destruct (weekly_loop_settled username token email now _ launch_date [] w1
              (Nat.le_refl _) Hlo Hhi) as (new & w' & tr & Hrun & Hall & Hr & Hs).
  rewrite Hrun. exists new, w'. eexists. split; [reflexivity|].
  split; [exact Hall|]. split.
  - simpl. exact Hr.
  - simpl. exact Hs.
Qed.

End Settled.

Lemma weekly_windows_closed_form_witness :
  Forall2 shows (expected_windows launch_day (mk_datetime 2025 3 10 12 0 0))
    [week "Feb 24-02" "2025-02-24" "2025-03-02";
     week "Mar 03-09" "2025-03-03" "2025-03-09";
     week "Mar 10-10" "2025-03-10" "2025-03-10"]
  /\ length [week "Feb 24-02" "2025-02-24" "2025-03-02";
             week "Mar 03-09" "2025-03-03" "2025-03-09";
             week "Mar 10-10" "2025-03-10" "2025-03-10"]
     = weeks_between launch_day (mk_datetime 2025 3 10 12 0 0).
Proof.
  eapply (weekly_windows_closed_form (env := ScriptEnv) (Some "bot-x") (Some "token")
            launch_day None noon_world noon_world).
  - reflexivity.
  - apply run_parts. vm_compute. reflexivity.
Defined.

Lemma week_total_beyond_limit_witness :
  print_week "Feb 24-02" (JInt (6 * 10 ^ 4299)) (JInt (6 * 10 ^ 4299))
    (mkScript [] 0 0)
  = (Raised ValueError, mkScript [] 0 0, []).
Proof.
  apply (week_total_beyond_limit (World := Script));
    vm_compute; [reflexivity | reflexivity | discriminate].
Defined.

Lemma weekly_requests_match_records_witness :
  (forall req,
     In req (requests_of
               (snd (collect_weekly_growth (Some "bot-x") (Some "token") launch_day
                       None noon_world))) ->
     exists week_data,
       In week_data [week "Feb 24-02" "2025-02-24" "2025-03-02";
                     week "Mar 03-09" "2025-03-03" "2025-03-09";
                     week "Mar 10-10" "2025-03-10" "2025-03-10"]
       /\ (req = coauthored_in_week (Some "token") (Some "bot-x") None week_data
           \/ req = authored_in_week (Some "token") (Some "bot-x") None week_data))
  /\ (forall week_data,
        In week_data [week "Feb 24-02" "2025-02-24" "2025-03-02";
                      week "Mar 03-09" "2025-03-03" "2025-03-09";
                      week "Mar 10-10" "2025-03-10" "2025-03-10"] ->
        In (coauthored_in_week (Some "token") (Some "bot-x") None week_data)
           (requests_of
              (snd (collect_weekly_growth (Some "bot-x") (Some "token") launch_day
                      None noon_world)))
        /\ In (authored_in_week (Some "token") (Some "bot-x") None week_data)
              (requests_of
                 (snd (collect_weekly_growth (Some "bot-x") (Some "token") launch_day
                         None noon_world)))).
Proof.
  eapply (weekly_requests_match_records (env := ScriptEnv) (Some "bot-x")
            (Some "token") launch_day None noon_world).
  apply run_parts. vm_compute. reflexivity.
Defined.

Lemma settled_weeks_witness :
  exists data w' tr,
    @collect_weekly_growth _ (steady_env (found 5))
      (Some "bot-x") (Some "token") launch_day None (mk_datetime 2025 3 10 12 0 0)
    = (Returned data, w', tr)
    /\ Forall (fun week_data => commits_coauthored week_data = JInt 5
                                /\ commits_primary_author week_data = JInt 5) data
    /\ length (requests_of tr) = (2 * length data)%nat
    /\ sleeps_of tr = repeat 1 (length data).
Proof.
  apply (settled_weeks (env := steady_env (found 5)) (fun c => c = JInt 5))
    with (w1 := mk_datetime 2025 3 10 12 0 0) (now := mk_datetime 2025 3 10 12 0 0).
  - intros c ->. right. exists 5. split; reflexivity.
  - intros url hdrs params w. exists (found 5), w. split; [reflexivity|].
    split; [reflexivity|]. split; [discriminate|]. split; [discriminate|].
    exists [("total_count", JInt 5)]. split; reflexivity.
  - reflexivity.
  - discriminate.
  - discriminate.
Defined.

(** ** The script *)

Lemma count_or_zero_countable key stats :
  countable key stats ->
  count_or_zero key stats = JInt (shown_count key stats)
  /\ Z.abs (shown_count key stats) < count_limit.
Proof.
  unfold countable, count_or_zero, shown_count, py_or, printable_count.
  destruct (dict_get key stats) as [v|]; [|split; reflexivity].
  intros [-> | (n & -> & Hn)]; [split; reflexivity|].
  split; [|exact Hn].
  simpl. destruct (n =? 0) eqn:E; [|reflexivity].
  apply Z.eqb_eq in E. subst n. reflexivity.
Qed.

Section ScriptFacts.

Context {World : Type} {env : Env World}.

(** X15: in the summary a stat that is missing or [None] counts as 0: for
    a user whose two commit counts are each missing, [None] or an
    integer of at most 4299 digits, the line shows the two counts and
    their sum, and nothing is raised. *)
Theorem summary_counts_none_as_zero (user_data : UserStats) (w : World) :
  countable "commits_coauthored" (overall_stats user_data) ->
  countable "commits_primary_author" (overall_stats user_data) ->
  print_summary_line user_data w
  = (Returned tt, w,
     [EvPrint (display_name user_data ++ ": "
               ++ format_comma (shown_count "commits_coauthored"
                                            (overall_stats user_data))
               ++ " co-authored + "
               ++ format_comma (shown_count "commits_primary_author"
                                            (overall_stats user_data))
               ++ " primary = "
               ++ format_comma (shown_count "commits_coauthored"
                                            (overall_stats user_data)
                                + shown_count "commits_primary_author"
                                              (overall_stats user_data))
               ++ " total commits")]).
Proof.
  intros Hc Hp. unfold print_summary_line. cbv zeta.
  destruct (count_or_zero_countable _ _ Hc) as [-> Hc'].
  destruct (count_or_zero_countable _ _ Hp) as [-> Hp'].
  destruct (count_limit_sum _ _ Hc' Hp') as (Ha & Hb & Hsum).
  cbn [py_add]. run_ops.
  rewrite !py_format_comma_shown by assumption. cbv beta iota zeta.
  reflexivity.
Qed.

Lemma set_weekly_growth_fields weekly stats :
  display_name (set_weekly_growth weekly stats) = display_name stats
  /\ username (set_weekly_growth weekly stats) = username stats
  /\ email (set_weekly_growth weekly stats) = email stats
  /\ overall_stats (set_weekly_growth weekly stats) = overall_stats stats
  /\ weekly_growth (set_weekly_growth weekly stats) = weekly.
Proof. repeat split. Qed.

Lemma analyze_records token total remaining :
  forall i all_users (w w' : World) out tr,
    analyze token total i remaining all_users w = (Returned out, w', tr) ->
    exists new, out = (all_users ++ new)%list /\ Forall2 record_of remaining new.
Proof.
  induction remaining as [|[[[name_shown handle] launch_date] mail] rest IH];
    intros i all_users w w' out tr H.
  - inversion H; subst. exists []. rewrite app_nil_r. split; [reflexivity|constructor].
  - cbn [analyze] in H.
    apply bind_returned_inv in H. destruct H as (u0 & w0 & t0 & t1 & _ & H & _).
    apply bind_returned_inv in H. destruct H as (stats & w1 & t2 & t3 & Hstats & H & _).
    apply bind_returned_inv in H. destruct H as (u1 & w2 & t4 & t5 & _ & H & _).
    apply bind_returned_inv in H. destruct H as (weekly & w3 & t6 & t7 & _ & H & _).
    cbv zeta in H.
    apply bind_returned_inv in H. destruct H as (u2 & w4 & t8 & t9 & _ & H & _).
    apply bind_returned_inv in H. destruct H as (u3 & w5 & t10 & t11 & _ & H & _).
    apply IH in H. destruct H as (new & -> & Hnew).
    exists (set_weekly_growth weekly stats :: new). rewrite <- app_assoc.
    split; [reflexivity|]. constructor; [|exact Hnew].
    apply collect_user_stats_sets in Hstats.
    destruct Hstats as (r1 & r2 & r3 & v1 & v2 & v3 & _ & _ & _ & _ & _ & _ & ->).
    unfold record_of. simpl. auto.
Qed.

(** A response that a call returns was the answer to one of its
    requests. *)
Lemma retry_loop_answer (Q : Response -> Prop) url hdrs params k :
  forall a last (w w' : World) r tr,
    (forall (w0 w1 : World) r0,
        requests_get url hdrs params w0 = (Returned r0, w1) -> Q r0) ->
    (forall r0, last = Some r0 -> Q r0) ->
    retry_loop url hdrs params k a last w = (Returned r, w', tr) -> Q r.
Proof.
  induction k as [|k IH]; intros a last w w' r tr Hall Hlast H.
  - rewrite retry_loop_exhausted in H. destruct last as [r0|]; inversion H; subst.
    apply Hlast. reflexivity.
  - cbn [retry_loop] in H. unfold bind at 1, http_get in H.
    destruct (requests_get url hdrs params w) as [[r1|e0] w1] eqn:Hget;
      [|discriminate].
    pose proof (Hall _ _ _ Hget) as HQ.
    assert (Hnext : forall r0, Some r1 = Some r0 -> Q r0)
      by (intros r0 E; inversion E; subst; exact HQ).
    destruct (is_rate_limited r1).
    + destruct (truthy (headers_get "X-RateLimit-Reset" (headers r1))) as [s|].
      * destruct (py_int s) as [reset|]; run_ops in H; [|discriminate].
        destruct (time_time w1) as [now w2]. run_ops in H.
        shown_cases H; try discriminate; wait_cases H; try discriminate;
          (destruct (retry_loop url hdrs params k (S a) (Some r1) _)
             as [[res2 w3] tr2] eqn:Hrec;
           inversion H; subst; eapply IH; eauto).
      * run_ops in H.
        shown_cases H; try discriminate; wait_cases H; try discriminate;
          (destruct (retry_loop url hdrs params k (S a) (Some r1) _)
             as [[res2 w3] tr2] eqn:Hrec;
           inversion H; subst; eapply IH; eauto).
    + destruct (status_code r1 =? 202).
      * run_ops in H.
        destruct (retry_loop url hdrs params k (S a) (Some r1) _)
          as [[res2 w3] tr2] eqn:Hrec.
        inversion H; subst. eapply IH; eauto.
      * destruct (status_code r1 =? 422).
        -- destruct params as [p|]; run_ops in H; inversion H; subst. exact HQ.
        -- run_ops in H. inversion H; subst. exact HQ.
Qed.

Lemma unique_keys_dict_get key entries v :
  unique_keys (JDict entries) = true -> dict_get key entries = Some v ->
  unique_keys v = true.
Proof.
  cbn [unique_keys]. intros H. apply andb_prop in H. destruct H as [_ H].
  induction entries as [|[k x] rest IH]; [discriminate|].
  cbn [forallb] in H. apply andb_prop in H. destruct H as [Hx Hrest].
  cbn [dict_get]. destruct (String.eqb k key).
  - intros E. inversion E; subst. exact Hx.
  - apply IH. exact Hrest.
Qed.

Lemma unique_keys_stored result v :
  unique_keys result = true ->
  v = JNull \/ py_getitem "total_count" result = Returned v ->
  unique_keys v = true.
Proof.
  intros Hr [-> | Hv]; [reflexivity|].
  destruct result; try discriminate. cbn [py_getitem] in Hv.
  destruct (dict_get "total_count" entries) as [x|] eqn:E; inversion Hv; subst.
  eapply unique_keys_dict_get; eauto.
Qed.

Section WellFormed.

Hypothesis bodies : well_formed_server.

Lemma fetch_json_unique_keys url hdrs params (w w' : World) v tr :
  bind (rate_limited_get url hdrs params 3) response_json w = (Returned v, w', tr) ->
  unique_keys v = true.
Proof.
  intros H. apply bind_returned_inv in H.
  destruct H as (r & w1 & t1 & t2 & Hget & Hjson & _).
  unfold response_json in Hjson. apply or_raise_returned_inv in Hjson.
  destruct Hjson as (Hbody & _ & _).
  unfold rate_limited_get in Hget. revert v Hbody.
  refine (retry_loop_answer
            (fun r0 => forall v0, json_body r0 = Some v0 -> unique_keys v0 = true)
            _ _ _ _ _ _ _ _ _ _ _ _ Hget).
  - intros w0 w2 r0 Hreq v0 Hv0. eapply bodies; eauto.
  - intros r0 E. discriminate.
Qed.

Lemma get_activity_unique_keys handle token search_type date_range mail
    (w w' : World) v tr :
  get_activity handle token search_type date_range mail w = (Returned v, w', tr) ->
  unique_keys v = true.
Proof.
  unfold get_activity.
  destruct (activity_query search_type handle mail date_range).
  - apply fetch_json_unique_keys.
  - intros H. inversion H. reflexivity.
Qed.

Lemma collect_user_stats_unique_keys name_shown handle token mail
    (w w' : World) stats tr :
  collect_user_stats name_shown handle token mail w = (Returned stats, w', tr) ->
  unique_keys (JDict (overall_stats stats)) = true.
Proof.
  intros H. apply collect_user_stats_sets in H.
  destruct H as (r1 & r2 & r3 & v1 & v2 & v3 & (wa1 & wb1 & ta1 & G1)
                 & (wa2 & wb2 & ta2 & G2) & (wa3 & wb3 & ta3 & G3)
                 & V1 & V2 & V3 & ->).
  apply fetch_json_unique_keys in G1, G2.
  apply get_activity_unique_keys in G3.
  cbn [overall_stats unique_keys map fst distinct existsb forallb].
  rewrite (unique_keys_stored _ _ G1 V1), (unique_keys_stored _ _ G2 V2),
    (unique_keys_stored _ _ G3 V3).
  reflexivity.
Qed.

Lemma count_of_unique_keys result (w w' : World) c tr :
  unique_keys result = true ->
  count_of result w = (Returned c, w', tr) -> unique_keys c = true.
Proof.
  intros Hr. unfold count_of. intros H.
  apply bind_returned_inv in H. destruct H as (has & w1 & t1 & t2 & _ & H & _).
  destruct has.
  - apply lift_returned_inv in H. destruct H as (H & _ & _).
    destruct result; try discriminate. cbn [py_get] in H.
    inversion H; subst.
    destruct (dict_get "total_count" entries) as [x|] eqn:E; [|reflexivity].
    eapply unique_keys_dict_get; eauto.
  - inversion H; subst. reflexivity.
Qed.

Lemma collect_week_unique_keys handle token mail current_date week_start
    (w w' : World) week_data tr :
  collect_week handle token mail current_date week_start w
    = (Returned week_data, w', tr) ->
  unique_keys (commits_coauthored week_data)
  && unique_keys (commits_primary_author week_data) = true.
Proof.
  unfold collect_week. intros H.
  apply bind_returned_inv in H. destruct H as (plus6 & w1 & t1 & t2 & _ & H & _).
  cbv zeta in H.
  apply bind_returned_inv in H. destruct H as (cr & w2 & t3 & t4 & Hc & H & _).
  apply bind_returned_inv in H. destruct H as (cc & w3 & t5 & t6 & Hcc & H & _).
  apply bind_returned_inv in H. destruct H as (pr & w4 & t7 & t8 & Hp & H & _).
  apply bind_returned_inv in H. destruct H as (pc & w5 & t9 & t10 & Hpc & H & _).
  apply bind_returned_inv in H. destruct H as (u & w6 & t11 & t12 & _ & H & _).
  inversion H; subst. cbn [commits_coauthored commits_primary_author].
  apply fetch_json_unique_keys in Hc, Hp.
  rewrite (count_of_unique_keys _ _ _ _ _ Hc Hcc),
    (count_of_unique_keys _ _ _ _ _ Hp Hpc).
  reflexivity.
Qed.

Lemma weekly_loop_unique_keys handle token mail current_date (n : nat) :
  forall week_start weekly_data (w w' : World) out tr,
    (Z.to_nat ((current_date - week_start) / 604800000000 + 1) <= n)%nat ->
    forallb (fun week_data =>
               unique_keys (commits_coauthored week_data)
               && unique_keys (commits_primary_author week_data)) weekly_data = true ->
    weekly_loop handle token mail current_date week_start weekly_data w
      = (Returned out, w', tr) ->
    forallb (fun week_data =>
               unique_keys (commits_coauthored week_data)
               && unique_keys (commits_primary_author week_data)) out = true.
Proof.
  induction n as [|n IH]; intros ws data w w' out tr Hn Hdata Hrun;
    destruct (ws <? current_date) eqn:Hlt.
  - pose proof (weeks_left_decrease _ _ Hlt). lia.
  - rewrite (weekly_loop_done _ _ _ _ _ _ Hlt) in Hrun. inversion Hrun; subst.
    exact Hdata.
  - rewrite (weekly_loop_step _ _ _ _ _ _ Hlt) in Hrun.
    apply bind_returned_inv in Hrun.
    destruct Hrun as (wd & w1 & t1 & t2 & Hweek & Hrun & _).
    apply bind_returned_inv in Hrun.
    destruct Hrun as (next & w2 & t3 & t4 & _ & Hrun & _).
    apply bind_returned_inv in Hrun.
    destruct Hrun as (u & w3 & t5 & t6 & _ & Hrun & _).
    pose proof (weeks_left_decrease _ _ Hlt) as Hdec.
    apply IH in Hrun; [exact Hrun | lia |].
    rewrite forallb_app, Hdata. cbn [forallb].
    rewrite (collect_week_unique_keys _ _ _ _ _ _ _ _ _ Hweek). reflexivity.
  - rewrite (weekly_loop_done _ _ _ _ _ _ Hlt) in Hrun. inversion Hrun; subst.
    exact Hdata.
Qed.

Lemma analyze_python_stats token total remaining :
  forall i all_users (w w' : World) out tr,
    forallb python_stats all_users = true ->
    analyze token total i remaining all_users w = (Returned out, w', tr) ->
    forallb python_stats out = true.
Proof.
  induction remaining as [|[[[name_shown handle] launch_date] mail] rest IH];
    intros i all_users w w' out tr Hall H.
  - inversion H; subst. exact Hall.
  - cbn [analyze] in H.
    apply bind_returned_inv in H. destruct H as (u0 & w0 & t0 & t1 & _ & H & _).
    apply bind_returned_inv in H. destruct H as (stats & w1 & t2 & t3 & Hstats & H & _).
    apply bind_returned_inv in H. destruct H as (u1 & w2 & t4 & t5 & _ & H & _).
    apply bind_returned_inv in H. destruct H as (weekly & w3 & t6 & t7 & Hweekly & H & _).
    cbv zeta in H.
    apply bind_returned_inv in H. destruct H as (u2 & w4 & t8 & t9 & _ & H & _).
    apply bind_returned_inv in H. destruct H as (u3 & w5 & t10 & t11 & _ & H & _).
    apply IH in H; [exact H|].
    rewrite forallb_app, Hall. cbn [forallb]. rewrite andb_true_r.
    unfold python_stats. cbn [set_weekly_growth overall_stats weekly_growth].
    rewrite (collect_user_stats_unique_keys _ _ _ _ _ _ _ _ Hstats).
    unfold collect_weekly_growth in Hweekly.
    apply bind_returned_inv in Hweekly.
    destruct Hweekly as (u4 & w6 & t12 & t13 & _ & Hweekly & _).
    apply bind_returned_inv in Hweekly.
    destruct Hweekly as (now & w7 & t14 & t15 & _ & Hweekly & _).
    eapply weekly_loop_unique_keys in Hweekly;
      [rewrite Hweekly; reflexivity | apply Nat.le_refl | reflexivity].
Qed.


End WellFormed.

End ScriptFacts.

Lemma summary_counts_none_as_zero_witness :
  print_summary_line
    (mkUserStats "Claude Code" (Some "claude") None
       [("commits_coauthored", JInt 1204); ("commits_primary_author", JNull);
        ("repositories_mentioning", JInt 0)] [])
    (mkScript [] 0 0)
  = (Returned tt, mkScript [] 0 0,
     [EvPrint "Claude Code: 1,204 co-authored + 0 primary = 1,204 total commits"]).
Proof.
  apply (summary_counts_none_as_zero
           (mkUserStats "Claude Code" (Some "claude") None
              [("commits_coauthored", JInt 1204); ("commits_primary_author", JNull);
               ("repositories_mentioning", JInt 0)] [])
           (mkScript [] 0 0)).
  - right. exists 1204. split; reflexivity.
  - left. reflexivity.
Defined.


(** ** The renderer on the collector's record *)

Lemma breakdown_loop_records (users_data : list UserStats) : forall acc,
  breakdown_loop (map user_record users_data) acc
  = Returned
      (mkBreakdown
         (names acc ++ map (fun stats => JStr (display_name stats)) users_data)
         (coauthored acc
          ++ map (fun stats => count_or_zero "commits_coauthored" (overall_stats stats))
                 users_data)
         (primary acc ++ map primary_bar users_data)).
Proof.
  induction users_data as [|stats rest IH]; intros acc.
  - simpl. rewrite !app_nil_r. destruct acc; reflexivity.
  - cbn [map breakdown_loop].
    assert (Hstep : breakdown_user (user_record stats) acc
                    = Returned
                        (mkBreakdown
                           (names acc ++ [JStr (display_name stats)])
                           (coauthored acc
                            ++ [count_or_zero "commits_coauthored" (overall_stats stats)])
                           (primary acc ++ [primary_bar stats]))).
    { unfold breakdown_user, user_record, primary_bar, count_or_zero.
      cbn [py_getitem dict_get String.eqb Ascii.eqb Bool.eqb and_then py_eq_str py_get].
      destruct (String.eqb (display_name stats) "Copilot"); reflexivity. }
    rewrite Hstep. cbn [and_then]. rewrite IH.
    cbn [names coauthored primary]. rewrite <- !app_assoc. reflexivity.
Qed.

(** X17: on every Analysis Record of the collector the bar data of
    [plot_commit_breakdown] is computed without an exception: one name and
    one pair of bars per user, in the record's order; a count that is
    missing, [None] or 0 gives a bar of 0, and a user displayed as
    [Copilot] has a primary-author bar of 0. *)
Theorem breakdown_of_record (analysis_date : string) (users_data : list UserStats) :
  commit_breakdown (analysis_record analysis_date users_data)
  = Returned
      (mkBreakdown
         (map (fun stats => JStr (display_name stats)) users_data)
         (map (fun stats => count_or_zero "commits_coauthored" (overall_stats stats))
              users_data)
         (map primary_bar users_data)).
Proof.
  unfold commit_breakdown, analysis_record.
  cbn [py_getitem dict_get String.eqb Ascii.eqb Bool.eqb and_then py_iter].
  apply breakdown_loop_records.
Qed.

Lemma record_of_not_copilot users_data :
  Forall2 record_of users users_data ->
  map primary_bar users_data
  = map (fun stats => count_or_zero "commits_primary_author" (overall_stats stats))
        users_data.
Proof.
  unfold users. intros H.
  repeat match goal with
  | H : Forall2 record_of (_ :: _) _ |- _ =>
      let R := fresh "R" in
      inversion H as [|? ? ? ? R ?]; subst; clear H;
      unfold record_of in R; destruct R as (R & _)
  | H : Forall2 record_of [] _ |- _ => inversion H; subst; clear H
  end.
  cbn [map]. unfold primary_bar.
  repeat match goal with
  | R : display_name ?s = _ |- _ => rewrite R; clear R
  end.
  reflexivity.
Qed.

(** X18: the renderer's rule for the user displayed as [Copilot] does not
    apply to the records of the script's own users: main.py names that
    user [Copilot (coauthored only)], so its primary-author count is drawn
    like any other. *)
Theorem copilot_rule_misses_collected_record (analysis_date : string)
    (users_data : list UserStats) :
  Forall2 record_of users users_data ->
  commit_breakdown (analysis_record analysis_date users_data)
  = Returned
      (mkBreakdown
         (map (fun user => JStr (fst (fst (fst user)))) users)
         (map (fun stats => count_or_zero "commits_coauthored" (overall_stats stats))
              users_data)
         (map (fun stats => count_or_zero "commits_primary_author"
                                          (overall_stats stats))
              users_data)).
Proof.
  intros H. unfold commit_breakdown, analysis_record.
  cbn [py_getitem dict_get String.eqb Ascii.eqb Bool.eqb and_then py_iter].
  rewrite breakdown_loop_records. cbn [names coauthored primary app].
  rewrite (record_of_not_copilot _ H).
  assert (Hnames : map (fun stats => JStr (display_name stats)) users_data
                   = map (fun user => JStr (fst (fst (fst user)))) users).
  { clear - H. induction H as [|[[[n h] l] m] s us ss R _ IH]; [reflexivity|].
    cbn [map]. rewrite IH. destruct R as (R & _). rewrite R. reflexivity. }
  rewrite Hnames. reflexivity.
Qed.

Lemma copilot_rule_misses_collected_record_witness :
  commit_breakdown (analysis_record "2025-03-10T12:00:00" collected_sample)
  = Returned
      (mkBreakdown
         (map (fun user => JStr (fst (fst (fst user)))) users)
         (map (fun stats => count_or_zero "commits_coauthored" (overall_stats stats))
              collected_sample)
         (map (fun stats => count_or_zero "commits_primary_author"
                                          (overall_stats stats))
              collected_sample)).
Proof.
  apply (copilot_rule_misses_collected_record "2025-03-10T12:00:00" collected_sample).
  repeat constructor.
Defined.

(** ** The weekly chart *)

(** *** The calendar *)

Lemma days_in_month_leap (y m : Z) :
  days_in_month y m = leap_days_in_month (is_leap y) m.
Proof. reflexivity. Qed.

Lemma days_before_month_aux_leap (y : Z) (k : nat) :
  days_before_month_aux y k = leap_days_before_month_aux (is_leap y) k.
Proof. induction k as [|k IH]; [reflexivity|]. simpl. rewrite IH. reflexivity. Qed.

Lemma year_of_day (n0 : Z) :
  0 <= n0 ->
  let n400 := n0 / 146097 in
  let n := n0 mod 146097 in
  let n100 := n / 36524 in
  let n' := n mod 36524 in
  let n4 := n' / 1461 in
  let n'' := n' mod 1461 in
  let n1 := n'' / 365 in
  let k := n'' mod 365 in
  let year := n400 * 400 + 1 + n100 * 100 + n4 * 4 + n1 in
  if (n1 =? 4) || (n100 =? 4)
  then days_before_year (year - 1) + 365 = n0 /\ is_leap (year - 1) = true
       /\ 1 <= year - 1
  else days_before_year year + k = n0 /\ 0 <= k < 365 /\ 1 <= year.
Proof.
  intros H0. cbv zeta.
  destruct ((n0 mod 146097 mod 36524 mod 1461 / 365 =? 4)
            || (n0 mod 146097 / 36524 =? 4)) eqn:E.
  - apply orb_true_iff in E. rewrite !Z.eqb_eq in E.
    unfold days_before_year, is_leap.
    split; [|split].
    + Z.div_mod_to_equations; lia.
    + apply andb_true_iff. split.
      * apply Z.eqb_eq. Z.div_mod_to_equations; lia.
      * apply orb_true_iff.
        destruct E as [E|E].
        -- left. apply negb_true_iff. apply Z.eqb_neq.
           Z.div_mod_to_equations; lia.
        -- right. apply Z.eqb_eq. Z.div_mod_to_equations; lia.
    + Z.div_mod_to_equations; lia.
  - apply orb_false_iff in E. rewrite !Z.eqb_neq in E. destruct E as [E1 E2].
    split; [|split].
    + unfold days_before_year. Z.div_mod_to_equations; lia.
    + Z.div_mod_to_equations; lia.
    + Z.div_mod_to_equations; lia.
Qed.

Lemma month_day_all (leap : bool) (k : Z) :
  0 <= k < 365 -> month_day_ok leap k = true.
Proof.
  intros Hk.
  assert (Hall : forallb (fun i => month_day_ok true (Z.of_nat i)
                                   && month_day_ok false (Z.of_nat i))
                         (seq 0 365) = true) by (vm_compute; reflexivity).
  rewrite forallb_forall in Hall.
  specialize (Hall (Z.to_nat k)). rewrite Z2Nat.id in Hall by lia.
  assert (Hin : In (Z.to_nat k) (seq 0 365)) by (apply in_seq; lia).
  apply Hall in Hin. apply andb_prop in Hin. destruct leap; tauto.
Qed.

Lemma days_before_year_bound (y : Z) :
  days_before_year y < max_ordinal -> y <= 9999.
Proof.
  unfold days_before_year, max_ordinal. intros H.
  Z.div_mod_to_equations. lia.
Qed.

(** The date of a day number is a date of the calendar, and the day
    number is its ordinal. *)
Lemma ymd_of_day_inverse (n0 : Z) :
  0 <= n0 < max_ordinal ->
  let '(y, m, d) := ymd_of_day n0 in
  1 <= y <= 9999 /\ 1 <= m <= 12 /\ 1 <= d <= days_in_month y m
  /\ days_before_year y + days_before_month y m + (d - 1) = n0.
Proof.
  intros [H0 Hmax]. pose proof (year_of_day n0 H0) as Hy. cbv zeta in Hy.
  unfold ymd_of_day. cbv zeta.
  set (n1 := n0 mod 146097 mod 36524 mod 1461 / 365) in *.
  set (n100 := n0 mod 146097 / 36524) in *.
  set (k := n0 mod 146097 mod 36524 mod 1461 mod 365) in *.
  set (year := n0 / 146097 * 400 + 1 + n100 * 100
               + n0 mod 146097 mod 36524 / 1461 * 4 + n1) in *.
  destruct ((n1 =? 4) || (n100 =? 4)).
  - destruct Hy as (Hsum & Hleap & Hpos).
    assert (Hle : year - 1 <= 9999)
      by (apply days_before_year_bound; lia).
    split; [lia|]. split; [lia|]. split.
    + rewrite days_in_month_leap. unfold leap_days_in_month. simpl. lia.
    + unfold days_before_month. rewrite days_before_month_aux_leap, Hleap.
      change (leap_days_before_month_aux true (Z.to_nat (12 - 1))) with 335. lia.
  - destruct Hy as (Hsum & Hk & Hpos).
    assert (Hle : year <= 9999) by (apply days_before_year_bound; lia).
    pose proof (month_day_all (is_leap year) k Hk) as Hok.
    unfold month_day_ok in Hok. cbv zeta in Hok.
    unfold days_before_month. rewrite !days_before_month_aux_leap.
    rewrite !days_in_month_leap.
    destruct (k <? leap_days_before_month_aux (is_leap year)
                     (Z.to_nat ((k + 50) / 32 - 1)));
      repeat (apply andb_prop in Hok; destruct Hok as [Hok ?]);
      rewrite ?Z.leb_le, ?Z.eqb_eq in *;
      rewrite days_before_month_aux_leap, days_in_month_leap; lia.
Qed.

Lemma ymd_of_day_year (n0 : Z) :
  days_before_year 1000 <= n0 ->
  let '(y, _, _) := ymd_of_day n0 in 1000 <= y.
Proof.
  intros H1000.
  assert (H0 : 0 <= n0) by (unfold days_before_year in H1000; simpl in H1000; lia).
  pose proof (year_of_day n0 H0) as Hy. cbv zeta in Hy.
  unfold ymd_of_day. cbv zeta.
  set (n1 := n0 mod 146097 mod 36524 mod 1461 / 365) in *.
  set (n100 := n0 mod 146097 / 36524) in *.
  set (k := n0 mod 146097 mod 36524 mod 1461 mod 365) in *.
  set (year := n0 / 146097 * 400 + 1 + n100 * 100
               + n0 mod 146097 mod 36524 / 1461 * 4 + n1) in *.
  clearbody year k n1 n100.
  change (days_before_year 1000) with 364877 in H1000.
  destruct ((n1 =? 4) || (n100 =? 4)).
  - destruct Hy as (Hsum & Hleap & Hpos).
    unfold is_leap in Hleap. apply andb_prop in Hleap. destruct Hleap as [H4 _].
    apply Z.eqb_eq in H4. unfold days_before_year in Hsum.
    Z.div_mod_to_equations. lia.
  - destruct Hy as (Hsum & Hk & Hpos).
    destruct (k <? _); unfold days_before_year in Hsum;
      Z.div_mod_to_equations; lia.
Qed.

(** *** Reading back a rendered date *)

Lemma year_text_all (y : Z) : 1000 <= y <= 9999 -> year_text_ok y = true.
Proof.
  intros Hy.
  assert (Hall : forallb (fun i => year_text_ok (1000 + Z.of_nat i)) (seq 0 (Z.to_nat 9000)) = true)
    by (vm_compute; reflexivity).
  rewrite forallb_forall in Hall.
  specialize (Hall (Z.to_nat (y - 1000))).
  rewrite Z2Nat.id in Hall by lia.
  replace (1000 + (y - 1000)) with y in Hall by lia.
  apply Hall. apply in_seq. lia.
Qed.

Lemma parse_year_zero_pad (y : Z) (rest : string) :
  1000 <= y <= 9999 -> parse_year (zero_pad 4 y ++ rest) = Some (y, rest).
Proof.
  intros Hy. pose proof (year_text_all y Hy) as Hok. unfold year_text_ok in Hok.
  destruct (zero_pad 4 y) as [|a [|b [|c [|d [|? ?]]]]]; try discriminate.
  cbn [append parse_year].
  destruct (digit_val a), (digit_val b), (digit_val c), (digit_val d);
    try discriminate.
  apply Z.eqb_eq in Hok. rewrite Hok. reflexivity.
Qed.

Lemma parse_month_zero_pad (m : Z) (rest : string) :
  1 <= m <= 12 -> parse_month (zero_pad 2 m ++ "-" ++ rest) = Some (m, rest).
Proof.
  intros Hm.
  assert (Hcases : m = 1 \/ m = 2 \/ m = 3 \/ m = 4 \/ m = 5 \/ m = 6 \/ m = 7
                   \/ m = 8 \/ m = 9 \/ m = 10 \/ m = 11 \/ m = 12) by lia.
  repeat (destruct Hcases as [-> | Hcases]; [reflexivity|]).
  subst m. reflexivity.
Qed.

Lemma parse_day_zero_pad (d : Z) :
  1 <= d <= 31 -> parse_day (zero_pad 2 d) = Some (d, EmptyString).
Proof.
  intros Hd.
  assert (Hall : forallb (fun i =>
                            match parse_day (zero_pad 2 (1 + Z.of_nat i)) with
                            | Some (x, EmptyString) => x =? 1 + Z.of_nat i
                            | _ => false
                            end) (seq 0 31) = true)
    by (vm_compute; reflexivity).
  rewrite forallb_forall in Hall.
  specialize (Hall (Z.to_nat (d - 1))).
  rewrite Z2Nat.id in Hall by lia.
  replace (1 + (d - 1)) with d in Hall by lia.
  assert (Hin : In (Z.to_nat (d - 1)) (seq 0 31)) by (apply in_seq; lia).
  apply Hall in Hin.
  destruct (parse_day (zero_pad 2 d)) as [[x [|? ?]]|]; try discriminate.
  apply Z.eqb_eq in Hin. subst x. reflexivity.
Qed.

Lemma days_in_month_le_31 (y m : Z) : days_in_month y m <= 31.
Proof.
  unfold days_in_month.
  destruct (m =? 2); [destruct (is_leap y); lia|].
  destruct ((m =? 4) || (m =? 6) || (m =? 9) || (m =? 11)); lia.
Qed.

Lemma strptime_strftime (t : datetime) :
  four_digit_year t -> strptime_Ymd (strftime_Ymd t) = Some (midnight t).
Proof.
  unfold four_digit_year. intros [Hlo Hhi].
  assert (Hday : days_before_year 1000 <= day_of t < max_ordinal).
  { change (mk_datetime 1000 1 1 0 0 0) with (days_before_year 1000 * us_per_day) in Hlo.
    unfold datetime_end in Hhi. unfold day_of. change (days_before_year 1000) with 364877 in *.
    unfold max_ordinal, us_per_day in *. Z.div_mod_to_equations. lia. }
  pose proof (ymd_of_day_year (day_of t) (proj1 Hday)) as Hyear.
  assert (H0 : 0 <= day_of t < max_ordinal)
    by (change (days_before_year 1000) with 364877 in Hday; lia).
  pose proof (ymd_of_day_inverse (day_of t) H0) as Hinv.
  unfold strftime_Ymd, date_of, midnight.
  destruct (ymd_of_day (day_of t)) as [[y m] d].
  destruct Hinv as (Hy & Hm & Hd & Hsum).
  unfold strptime_Ymd.
  rewrite parse_year_zero_pad by lia.
  assert (Hdash : forall rest, after_char "-" ("-" ++ rest) = Some rest)
    by reflexivity.
  rewrite Hdash.
  rewrite parse_month_zero_pad by lia.
  pose proof (days_in_month_le_31 y m) as H31.
  rewrite parse_day_zero_pad by lia.
  assert (Hy1 : (1 <=? y) = true) by (apply Z.leb_le; lia).
  assert (Hd1 : (d <=? days_in_month y m) = true) by (apply Z.leb_le; lia).
  rewrite Hy1, Hd1. cbn [andb]. f_equal.
  unfold mk_datetime. rewrite Hsum. lia.
Qed.

Lemma written_date_parses_back_aux (t : datetime) :
  four_digit_year t ->
  py_strptime (JStr (strftime_Ymd t)) = Returned (midnight t).
Proof.
  intros H. unfold py_strptime. rewrite (strptime_strftime t H). reflexivity.
Qed.

(** X19: the renderer reads back the dates the collector writes: for
    every datetime [t] from year 1000 on, [strptime] with [%Y-%m-%d] of
    [t.strftime('%Y-%m-%d')] succeeds and is midnight of the day of [t]. *)
Theorem written_date_parses_back (t : datetime) :
  four_digit_year t ->
  py_strptime (JStr (strftime_Ymd t)) = Returned (midnight t).
Proof.
  intros H. unfold py_strptime. rewrite (strptime_strftime t H). reflexivity.
Qed.

Lemma written_date_parses_back_witness :
  py_strptime (JStr (strftime_Ymd (mk_datetime 2025 3 10 12 0 0)))
  = Returned (midnight (mk_datetime 2025 3 10 12 0 0)).
Proof.
  apply (written_date_parses_back (mk_datetime 2025 3 10 12 0 0)).
  split; [discriminate | reflexivity].
Defined.

(** *** The line of one user *)

Section ChartFacts.

Context {World : Type} {env : Env World}.

Lemma count_or_0_week key (v : json) (week : dict json) :
  dict_get key week = Some v -> none_or_int v ->
  count_or_0 key (JDict week) = Returned (JInt (int_or_zero v)).
Proof.
  intros Hget Hv. unfold count_or_0. cbn [py_getitem]. rewrite Hget.
  cbn [and_then]. destruct Hv as [-> | (n & ->)]; reflexivity.
Qed.

Lemma week_point_kept name week_start week_end week_data ds ts r (w : World) :
  chartable ((week_start, week_end), week_data) ->
  plotted ((week_start, week_end), week_data) = true ->
  week_point (JStr name) (week_record week_data) (mkSeries ds ts (JInt r)) w
  = (Returned (mkSeries (ds ++ [midnight week_start])
                        (ts ++ [JInt (r + week_count name week_data)])
                        (JInt (r + week_count name week_data))), w, []).
Proof.
  intros ((Hs & He) & Hys & Hye & Hc & Hp) Hplot.
  cbn [fst snd] in Hs, He.
  unfold plotted in Hplot. apply andb_prop in Hplot. destruct Hplot as [H1 H2].
  apply negb_true_iff in H1, H2.
  unfold week_point, week_record. run_ops.
  cbn [py_getitem dict_get String.eqb Ascii.eqb Bool.eqb].
  rewrite Hs, (written_date_parses_back_aux _ Hys). cbv beta iota zeta.
  rewrite H1.
  cbn [py_getitem dict_get String.eqb Ascii.eqb Bool.eqb].
  rewrite He, (written_date_parses_back_aux _ Hye). cbv beta iota zeta.
  rewrite H2.
  rewrite (count_or_0_week "commits_coauthored" (commits_coauthored week_data))
    by (auto; reflexivity).
  cbv beta iota zeta.
  rewrite (count_or_0_week "commits_primary_author" (commits_primary_author week_data))
    by (auto; reflexivity).
  cbv beta iota zeta.
  unfold week_count, py_eq_str.
  destruct (String.eqb name "Copilot"); reflexivity.
Qed.

Lemma week_point_skipped name week_start week_end week_data acc (w : World) :
  chartable ((week_start, week_end), week_data) ->
  plotted ((week_start, week_end), week_data) = false ->
  exists lines,
    week_point (JStr name) (week_record week_data) acc w = (Returned acc, w, lines)
    /\ Forall quiet lines.
Proof.
  intros ((Hs & He) & Hys & Hye & Hc & Hp) Hplot.
  cbn [fst snd] in Hs, He.
  unfold plotted in Hplot.
  unfold week_point, week_record. run_ops.
  cbn [py_getitem dict_get String.eqb Ascii.eqb Bool.eqb].
  rewrite Hs, (written_date_parses_back_aux _ Hys). cbv beta iota zeta.
  destruct (midnight week_start <? chart_start).
  - exists []. split; [reflexivity | constructor].
  - cbn [py_getitem dict_get String.eqb Ascii.eqb Bool.eqb].
    rewrite He, (written_date_parses_back_aux _ Hye). cbv beta iota zeta.
    destruct (min_end_date <? midnight week_end); [|discriminate].
    eexists. split; [reflexivity | repeat constructor].
Qed.

Lemma week_points_collected name entries : forall ds ts r (w : World),
  Forall chartable entries ->
  exists lines,
    week_points (JStr name) (map (fun entry => week_record (snd entry)) entries)
                (mkSeries ds ts (JInt r)) w
    = (Returned
         (mkSeries
            (ds ++ map (fun entry => midnight (fst (fst entry)))
                       (filter plotted entries))
            (ts ++ map JInt
                       (cumulative r (map (fun entry => week_count name (snd entry))
                                          (filter plotted entries))))
            (JInt (fold_left Z.add
                             (map (fun entry => week_count name (snd entry))
                                  (filter plotted entries)) r))),
       w, lines)
    /\ Forall quiet lines.
Proof.
  induction entries as [|[[week_start week_end] week_data] rest IH];
    intros ds ts r w Hall.
  - exists []. cbn. rewrite !app_nil_r. split; [reflexivity | constructor].
  - inversion Hall as [|? ? Hentry Hrest]; subst.
    cbn [map week_points snd filter].
    destruct (plotted (week_start, week_end, week_data)) eqn:Hplot.
    + rewrite (bind_returned _ _ _ _ _ _
                 (week_point_kept name _ _ _ ds ts r w Hentry Hplot)).
      destruct (IH (ds ++ [midnight week_start])%list
                   (ts ++ [JInt (r + week_count name week_data)])%list
                   (r + week_count name week_data) w Hrest)
        as (lines & Hrun & Hq).
      rewrite Hrun. exists lines. split; [|exact Hq].
      cbn [map cumulative fold_left fst snd app]. rewrite <- !app_assoc.
      reflexivity.
    + destruct (week_point_skipped name _ _ _ (mkSeries ds ts (JInt r)) w
                  Hentry Hplot) as (l1 & Hstep & Hq1).
      rewrite (bind_returned _ _ _ _ _ _ Hstep).
      destruct (IH ds ts r w Hrest) as (lines & Hrun & Hq).
      rewrite Hrun. exists (l1 ++ lines)%list. split; [reflexivity|].
      apply Forall_app. split; assumption.
Qed.

(** X20: the line of one user in the weekly chart, for a user record
    as the collector writes it (dates rendered from the windows, counts
    [None] or integers, years from 1000 on).  Nothing is raised.  A user
    without weekly records, or with none that starts on or after
    2025-02-24 and ends on or before 2025-07-08, gets no line.  Otherwise
    the line has one point per such week, at midnight of the week's
    start, and [total_commits] are the running sums of these weeks'
    counts, [None] counting as 0 and, for the user displayed as
    [Copilot], the primary-author count left out. *)
Theorem chart_line_of_collected_user (stats : UserStats) entries (w : World) :
  weekly_growth stats = map snd entries ->
  Forall chartable entries ->
  exists lines,
    user_line (user_record stats) w
    = (Returned
         (match filter plotted entries with
          | [] => None
          | kept => Some (JStr (display_name stats), line_of (display_name stats) kept)
          end), w, lines)
    /\ Forall quiet lines.
Proof.
  intros Hweeks Hall. unfold user_line, user_record. run_ops.
  cbn [py_getitem dict_get String.eqb Ascii.eqb Bool.eqb].
  cbv beta iota zeta. rewrite Hweeks, map_map.
  destruct entries as [|entry rest].
  - exists []. split; [reflexivity | constructor].
  - assert (Ht : py_truthy (JList (map (fun x => week_record (snd x)) (entry :: rest)))
                 = true) by reflexivity.
    rewrite Ht. cbn [negb py_iter]. cbv beta iota zeta.
    destruct (week_points_collected (display_name stats) (entry :: rest) [] [] 0 w Hall)
      as (lines & Hrun & Hq).
    rewrite Hrun. cbn [dates app].
    exists (lines ++ [])%list. split; [|rewrite app_nil_r; exact Hq].
    destruct (filter plotted (entry :: rest)); reflexivity.
Qed.

End ChartFacts.

Lemma chart_line_of_collected_user_witness :
  exists lines,
    user_line
      (user_record (mkUserStats "Bot X" (Some "bot-x") None [] (map snd bot_x_entries)))
      (mkScript [] 0 0)
    = (Returned
         (match filter plotted bot_x_entries with
          | [] => None
          | kept => Some (JStr "Bot X", line_of "Bot X" kept)
          end), mkScript [] 0 0, lines)
    /\ Forall quiet lines.
Proof.
  apply (chart_line_of_collected_user
           (mkUserStats "Bot X" (Some "bot-x") None [] (map snd bot_x_entries))
           bot_x_entries (mkScript [] 0 0)).
  - reflexivity.
  - unfold bot_x_entries.
    repeat (constructor;
            [unfold chartable, nth_window, shows, four_digit_year, none_or_int, week;
             cbv zeta; cbn [fst snd commits_coauthored commits_primary_author];
             repeat split;
             try (vm_compute; reflexivity); try (vm_compute; discriminate);
             right; exists 5; reflexivity|]).
    constructor.
Defined.

(** ** A whole run of the script *)

Section ScriptFailure.

Context {World : Type} {env : Env World}.


End ScriptFailure.


Lemma sleeps_of_print line tr : sleeps_of (EvPrint line :: tr) = sleeps_of tr.
Proof. reflexivity. Qed.

Lemma sleeps_of_sleep seconds tr :
  sleeps_of (EvSleep seconds :: tr) = seconds :: sleeps_of tr.
Proof. reflexivity. Qed.

Lemma sleeps_of_now t tr : sleeps_of (EvNow t :: tr) = sleeps_of tr.
Proof. reflexivity. Qed.

Lemma requests_of_print line tr : requests_of (EvPrint line :: tr) = requests_of tr.
Proof. reflexivity. Qed.

Lemma requests_of_sleep seconds tr :
  requests_of (EvSleep seconds :: tr) = requests_of tr.
Proof. reflexivity. Qed.

Lemma requests_of_now t tr : requests_of (EvNow t :: tr) = requests_of tr.
Proof. reflexivity. Qed.

Lemma sleeps_of_nil : sleeps_of [] = [].
Proof. reflexivity. Qed.

Lemma requests_of_nil : requests_of [] = [].
Proof. reflexivity. Qed.

Create Rewrite HintDb trace.
#[local] Hint Rewrite sleeps_of_app requests_of_app length_app
  sleeps_of_print sleeps_of_sleep sleeps_of_now sleeps_of_nil
  requests_of_print requests_of_sleep requests_of_now requests_of_nil
  app_nil_r : trace.

Section SettledScript.

Context {World : Type} {env : Env World}.

Hypothesis answered : forall url hdrs params (w0 : World),
  exists r w1, requests_get url hdrs params w0 = (Returned r, w1) /\ answers_count r.

Hypothesis in_range_now : forall w0 : World,
  fst (datetime_now w0) + 7 * us_per_day <= datetime_end.

Lemma answers_count_settles r : answers_count r -> settles printable_count r.
Proof.
  intros (Hrl & H202 & H422 & payload & Hbody & Hcount).
  split; [exact Hrl|]. split; [exact H202|]. split; [exact H422|].
  exists payload. split; [exact Hbody|]. unfold count_in, printable_count.
  destruct Hcount as [-> | (n & -> & Hn)]; eauto.
Qed.

Lemma fetch_answered url hdrs params (w : World) :
  exists r payload w',
    bind (rate_limited_get url hdrs params 3) response_json w
    = (Returned (JDict payload), w', [EvGet url hdrs params (Returned r)])
    /\ (dict_get "total_count" payload = None
        \/ exists n, dict_get "total_count" payload = Some (JInt n)
                     /\ Z.abs n < count_limit).
Proof.
  destruct (answered url hdrs params w)
    as (r & w' & Hget & Hrl & H202 & H422 & payload & Hjson & Hcount).
  exists r, payload, w'. split; [|exact Hcount].
  unfold rate_limited_get.
  rewrite (bind_returned _ _ _ _ _ _
             (retry_loop_terminal url hdrs params 2 0 None w w' r Hget Hrl H202 H422)).
  unfold response_json. rewrite Hjson. reflexivity.
Qed.

Lemma record_stat_answered stat_name payload (w : World) :
  dict_get "total_count" payload = None
  \/ (exists n, dict_get "total_count" payload = Some (JInt n)
                /\ Z.abs n < count_limit) ->
  exists v lines,
    printable_count v /\ Forall quiet lines /\ sleeps_of lines = []
    /\ forall stats,
         record_stat stat_name (JDict payload) stats w
         = (Returned (set_overall stat_name v stats), w, lines).
Proof.
  intros [Hnone | (n & Hn & Hsmall)].
  - destruct (record_stat_missing stat_name payload w Hnone) as (lines & Hq & Hs & Hrec).
    exists JNull, lines. split; [left; reflexivity|]. auto.
  - exists (JInt n), [EvPrint ("  " ++ stat_name ++ ": " ++ format_comma n)].
    split; [right; eauto|]. split; [repeat constructor|]. split; [reflexivity|].
    intros stats. apply record_stat_count; [exact Hn|].
    apply (count_limit_sum n n Hsmall Hsmall).
Qed.

Lemma run_activities_answered activities : forall stats (w : World),
  Forall (fun '(_, get_data) =>
            exists url hdrs params,
              get_data = bind (rate_limited_get url hdrs params 3) response_json)
         activities ->
  exists values w' tr,
    run_activities activities stats w
    = (Returned (fold_left (fun st '(stat_name, v) => set_overall stat_name v st)
                           (combine (map fst activities) values) stats), w', tr)
    /\ length values = length activities
    /\ Forall printable_count values
    /\ sleeps_of tr = []
    /\ length (requests_of tr) = length activities.
Proof.
  induction activities as [|[stat_name get_data] rest IH]; intros stats w Hall.
  - exists [], w, []. repeat split. constructor.
  - inversion Hall as [|? ? Hhead Hrest]; subst.
    destruct Hhead as (url & hdrs & params & ->).
    destruct (fetch_answered url hdrs params w) as (r & d & w1 & Hget & Hd).
    destruct (record_stat_answered stat_name d w1 Hd)
      as (v & lines & Hv & Hq & Hs & Hrec).
    destruct (IH (set_overall stat_name v stats) w1 Hrest)
      as (values & w' & t3 & Hrun & Hlen & Hvals & Hs3 & Hr3).
    exists (v :: values), w'. eexists. cbn [run_activities].
    rewrite (bind_returned _ _ _ _ _ _ Hget).
    rewrite (bind_returned _ _ _ _ _ _ (Hrec stats)).
    rewrite Hrun. split; [reflexivity|].
    split; [simpl; lia|]. split; [constructor; assumption|]. split.
    + rewrite !sleeps_of_app, Hs, Hs3. reflexivity.
    + rewrite !requests_of_app, !length_app, (requests_of_quiet lines Hq), Hr3.
      reflexivity.
Qed.

Lemma collect_user_stats_answered name_shown handle token mail (w : World) :
  exists stats w' tr,
    collect_user_stats name_shown handle token mail w = (Returned stats, w', tr)
    /\ countable "commits_coauthored" (overall_stats stats)
    /\ countable "commits_primary_author" (overall_stats stats)
    /\ sleeps_of tr = []
    /\ length (requests_of tr) = 3%nat.
Proof.
  unfold collect_user_stats. cbv zeta.
  match goal with
  | |- context [run_activities ?acts ?st] =>
      destruct (run_activities_answered acts st w)
        as (values & w' & tr & Hrun & Hlen & Hvals & Hs & Hr)
  end.
  { repeat constructor.
    - eexists _, _, _. reflexivity.
    - eexists _, _, _. reflexivity.
    - eexists _, _, _. reflexivity. }
  destruct values as [|v1 [|v2 [|v3 [|? ?]]]]; try discriminate.
  inversion Hvals as [|? ? Hv1 Hvals1]; subst.
  inversion Hvals1 as [|? ? Hv2 Hvals2]; subst.
  eexists _, w', _. unfold bind at 1, print. rewrite Hrun.
  split; [reflexivity|]. split; [exact Hv1|]. split; [exact Hv2|].
  split; [exact Hs | exact Hr].
Qed.

Lemma collect_weekly_growth_answered handle token launch_date mail (w : World) :
  0 <= launch_date ->
  exists data w' tr,
    collect_weekly_growth handle token launch_date mail w = (Returned data, w', tr)
    /\ length (requests_of tr) = (2 * length data)%nat
    /\ sleeps_of tr = repeat 1 (length data).
Proof.
  intros Hlo. unfold collect_weekly_growth.
  unfold bind at 1, print at 1. unfold bind at 1, get_now at 1.
  pose proof (in_range_now w) as Hhi.
  destruct (datetime_now w) as [now w1]. cbn [fst] in Hhi.
  destruct (weekly_loop_settled printable_count (fun c H => H)
              (fun url hdrs params w0 =>
                 match answered url hdrs params w0 with
                 | ex_intro _ r (ex_intro _ w2 (conj Hget Hr)) =>
                     ex_intro _ r (ex_intro _ w2 (conj Hget (answers_count_settles r Hr)))
                 end)
              handle token mail now _ launch_date [] w1
              (Nat.le_refl _) Hlo Hhi) as (new & w' & tr & Hrun & _ & Hr & Hs).
  rewrite Hrun. exists new, w'. eexists. split; [reflexivity|].
  split; [simpl; exact Hr | simpl; exact Hs].
Qed.

Lemma print_summary_countable users_data (w : World) :
  Forall (fun stats => countable "commits_coauthored" (overall_stats stats)
                       /\ countable "commits_primary_author" (overall_stats stats))
         users_data ->
  exists lines,
    print_summary users_data w = (Returned tt, w, lines)
    /\ Forall quiet lines /\ sleeps_of lines = [].
Proof.
  induction 1 as [|stats rest [Hc Hp] _ (lines & Hrun & Hq & Hs)].
  - exists []. split; [reflexivity|]. split; [constructor | reflexivity].
  - cbn [print_summary].
    assert (Hline : exists line,
               print_summary_line stats w = (Returned tt, w, [EvPrint line])).
    { unfold print_summary_line. cbv zeta.
      destruct (count_or_zero_countable _ _ Hc) as [-> Hc'].
      destruct (count_or_zero_countable _ _ Hp) as [-> Hp'].
      destruct (count_limit_sum _ _ Hc' Hp') as (Ha & Hb & Hsum).
      cbn [py_add]. eexists. run_ops.
      rewrite !py_format_comma_shown by assumption. cbv beta iota zeta.
      reflexivity. }
    destruct Hline as (line & Hline).
    rewrite (bind_returned _ _ _ _ _ _ Hline), Hrun.
    eexists. split; [reflexivity|]. split; [repeat constructor; exact Hq|].
    exact Hs.
Qed.

Lemma analyze_answered token total remaining : forall i all_users (w : World),
  (i + length remaining = total)%nat ->
  Forall (fun user => 0 <= snd (fst user)) remaining ->
  exists new w' tr,
    analyze token total i remaining all_users w
    = (Returned (all_users ++ new)%list, w', tr)
    /\ Forall (fun stats => countable "commits_coauthored" (overall_stats stats)
                            /\ countable "commits_primary_author" (overall_stats stats))
              new
    /\ length new = length remaining
    /\ sleeps_of tr = with_pauses (weeks_of new)
    /\ length (requests_of tr)
       = (3 * length remaining + 2 * list_sum (weeks_of new))%nat.
Proof.
  induction remaining as [|[[[name_shown handle] launch_date] mail] rest IH];
    intros i all_users w Hi Hlaunch.
  - exists [], w, []. rewrite app_nil_r. repeat split. constructor.
  - apply Forall_cons_iff in Hlaunch. destruct Hlaunch as [Hl Hrest].
    cbn [fst snd] in Hl.
    cbn [analyze]. unfold bind at 1, print at 1.
    destruct (collect_user_stats_answered name_shown (Some handle) token mail w)
      as (stats & w1 & t1 & Hstats & Hc & Hp & Hs1 & Hr1).
    rewrite (bind_returned _ _ _ _ _ _ Hstats).
    unfold bind at 1, print at 1.
    destruct (collect_weekly_growth_answered (Some handle) token launch_date mail w1 Hl)
      as (data & w2 & t2 & Hweekly & Hr2 & Hs2).
    rewrite (bind_returned _ _ _ _ _ _ Hweekly). cbv zeta.
    unfold bind at 1, print at 1.
    assert (Hrec : countable "commits_coauthored"
                     (overall_stats (set_weekly_growth data stats))
                   /\ countable "commits_primary_author"
                        (overall_stats (set_weekly_growth data stats)))
      by (split; assumption).
    destruct (Z.of_nat i <? Z.of_nat total - 1) eqn:Hlast.
    + apply Z.ltb_lt in Hlast.
      destruct rest as [|next rest]; [simpl in Hi; lia|].
      unfold bind at 1. unfold bind at 1, print at 1, sleep at 1.
      change (classify_wait 30) with Short. cbv beta iota zeta.
      destruct (IH (S i) (all_users ++ [set_weekly_growth data stats])%list
                   (time_sleep 30 w2))
        as (new & w' & tr & Hrun & Hnew & Hlen & Hs & Hr).
      { simpl in Hi |- *. lia. }
      { exact Hrest. }
      rewrite Hrun. exists (set_weekly_growth data stats :: new), w'. eexists.
      rewrite <- app_assoc.
      split; [reflexivity|]. split; [constructor; assumption|].
      split; [simpl; rewrite Hlen; reflexivity|].
      destruct new as [|stats' new]; [discriminate|].
      unfold weeks_of in *. cbn [map weekly_growth set_weekly_growth] in *.
      cbn [length] in Hr |- *. split.
      * autorewrite with trace. rewrite Hs1, Hs2, Hs. reflexivity.
      * autorewrite with trace. rewrite Hr1, Hr2, Hr.
        unfold list_sum. cbn [length fold_right]. lia.
    + apply Z.ltb_ge in Hlast.
      destruct rest as [|next rest]; [|simpl in Hi; lia].
      unfold bind at 1, ret at 1. cbn [analyze]. unfold ret.
      exists [set_weekly_growth data stats]. eexists _, _.
      split; [reflexivity|]. split; [constructor; [assumption | constructor]|].
      split; [reflexivity|].
      unfold weeks_of. cbn [map weekly_growth set_weekly_growth]. split.
      * autorewrite with trace. rewrite Hs1, Hs2. cbn [with_pauses app].
        rewrite ?app_nil_r. reflexivity.
      * autorewrite with trace. rewrite Hr1, Hr2.
        unfold list_sum. cbn [length fold_right]. lia.
Qed.

Section Writable.

Hypothesis writable : forall path text (w0 : World),
  exists w1, write_text path text w0 = (Returned tt, w1).


End Writable.


End SettledScript.


